(** * Serialization / deserialization of Stock and Trade records

    A shallow embedding of [assignment.py]: the two record classes, the
    tagged codec ([CustomEncoder.default], [custom_decoder]) and the schema
    codec ([DecimalField], [StockSchema], [TradeSchema],
    [serialize_with_marshmallow], [deserialize_with_marshmallow]), together
    with the parts of the Python runtime they call ([str], [int], [float],
    [decimal.Decimal], [datetime.date], [datetime.datetime], the [json]
    encoder and decoder drivers, marshmallow's [Schema.dump] and
    [Schema.load]).

    Conventions of the model:
    - a Python [str] is a [string]; one [ascii] stands for one character;
    - a Python [dict] with string keys is an association list that keeps
      insertion order, without duplicate keys;
    - a JSON document is represented by the tree it denotes ([json]), a
      number being the [int] or the [float] its literal denotes; the text
      layer of [json.dumps] / [json.loads] is not modelled, and with it the
      limit it puts on the digits of an integer literal;
    - a [float] is its 64 bits;
    - a [Decimal] has an exponent of any size: the bounds of the [decimal]
      module (about 10 ^ 18) are left out;
    - a raised exception is the left injection of a sum ([Exc]);
    - an instance of [Stock] or [Trade] is its [__dict__]. *)

From Stdlib Require Import String Ascii List ZArith NArith Lia Bool.
From Stdlib Require Import DecimalString DecimalN DecimalPos.
Import ListNotations.
Local Open Scope string_scope.
Set Warnings "-register-all".

(* ================================================================== *)
(** * Characters and strings *)
(* ================================================================== *)

Module PyStr.

Definition code (c : ascii) : N := N_of_ascii c.

(** [\d] on the characters of the model: the ASCII digits. *)
Definition is_digit (c : ascii) : bool :=
  (48 <=? code c)%N && (code c <=? 57)%N.

Definition digit_value (c : ascii) : N := (code c - 48)%N.

(** The characters [str.strip()] removes, among the first 256 code points. *)
Definition is_space (c : ascii) : bool :=
  let n := code c in
  ((9 <=? n)%N && (n <=? 13)%N) || ((28 <=? n)%N && (n <=? 32)%N)
  || (n =? 133)%N || (n =? 160)%N.

(** The characters [int()] skips around a numeral: the white space of C,
    and the two other blanks among the first 256 code points. *)
Definition is_int_space (c : ascii) : bool :=
  let n := code c in
  ((9 <=? n)%N && (n <=? 13)%N) || (n =? 32)%N || (n =? 133)%N || (n =? 160)%N.

Definition lower (c : ascii) : ascii :=
  let n := code c in
  if (65 <=? n)%N && (n <=? 90)%N then ascii_of_N (n + 32) else c.

Fixpoint lower_str (s : string) : string :=
  match s with
  | EmptyString => EmptyString
  | String c r => String (lower c) (lower_str r)
  end.

Fixpoint lstrip (s : string) : string :=
  match s with
  | String c r => if is_space c then lstrip r else s
  | EmptyString => EmptyString
  end.

Fixpoint rstrip (s : string) : string :=
  match s with
  | EmptyString => EmptyString
  | String c r =>
      match rstrip r with
      | EmptyString => if is_space c then EmptyString else String c EmptyString
      | r' => String c r'
      end
  end.

Definition strip (s : string) : string := rstrip (lstrip s).

(** What [int()] does to the ends of its argument. *)
Fixpoint int_lstrip (s : string) : string :=
  match s with
  | String c r => if is_int_space c then int_lstrip r else s
  | EmptyString => EmptyString
  end.

Fixpoint int_rstrip (s : string) : string :=
  match s with
  | EmptyString => EmptyString
  | String c r =>
      match int_rstrip r with
      | EmptyString => if is_int_space c then EmptyString else String c EmptyString
      | r' => String c r'
      end
  end.

Definition int_strip (s : string) : string := int_rstrip (int_lstrip s).

(** [s.replace(c, "")] for a single character [c]. *)
Fixpoint remove_char (x : ascii) (s : string) : string :=
  match s with
  | EmptyString => EmptyString
  | String c r => if Ascii.eqb c x then remove_char x r else String c (remove_char x r)
  end.

Fixpoint take (n : nat) (s : string) : string :=
  match n, s with
  | S n', String c r => String c (take n' r)
  | _, _ => EmptyString
  end.

Fixpoint drop (n : nat) (s : string) : string :=
  match n, s with
  | S n', String _ r => drop n' r
  | _, _ => s
  end.

Fixpoint repeat_char (c : ascii) (n : nat) : string :=
  match n with
  | O => EmptyString
  | S n' => String c (repeat_char c n')
  end.

Fixpoint all_digits (s : string) : bool :=
  match s with
  | EmptyString => true
  | String c r => is_digit c && all_digits r
  end.

(** The longest prefix of digits, and what follows it (a greedy [\d*]). *)
Fixpoint span_digits (s : string) : string * string :=
  match s with
  | String c r =>
      if is_digit c then let (d, t) := span_digits r in (String c d, t)
      else (EmptyString, s)
  | EmptyString => (EmptyString, EmptyString)
  end.

(** The number a string of digits denotes, leading zeros allowed. *)
Fixpoint digits_acc (s : string) (acc : N) : N :=
  match s with
  | EmptyString => acc
  | String c r => digits_acc r (10 * acc + digit_value c)
  end.

Definition digits_to_N (s : string) : N := digits_acc s 0.

(** [str(n)] for a natural number. *)
Definition N_str (n : N) : string := NilEmpty.string_of_uint (N.to_uint n).

(** [str(z)] for an integer. *)
Definition Z_str (z : Z) : string :=
  if (z <? 0)%Z then "-" ++ N_str (Z.abs_N z) else N_str (Z.abs_N z).

(** ["%+d" % z]. *)
Definition Z_str_signed (z : Z) : string :=
  if (z <? 0)%Z then "-" ++ N_str (Z.abs_N z) else "+" ++ N_str (Z.abs_N z).

(** ["%0<w>d" % n]. *)
Definition zfill (w : nat) (n : N) : string :=
  let s := N_str n in repeat_char "0" (w - String.length s) ++ s.

(** An optional sign followed by one or more digits, to the end:
    [[-+]?\d+]. *)
Definition signed_digits (s : string) : option Z :=
  let '(neg, r) :=
    match s with
    | String "-" r => (true, r)
    | String "+" r => (false, r)
    | _ => (false, s)
    end in
  match r with
  | EmptyString => None
  | _ => if all_digits r
         then Some (if neg then (- Z.of_N (digits_to_N r))%Z else Z.of_N (digits_to_N r))
         else None
  end.

End PyStr.

(* ================================================================== *)
(** * decimal.Decimal *)
(* ================================================================== *)

Module PyDecimal.
Import PyStr.

(** A [Decimal] as [as_tuple()] shows it.  The coefficient [_int] is kept
    by Python as the digits of a natural number without leading zeros;
    the payload of a NaN is such a number too, with 0 for the empty one. *)
Inductive Decimal : Type :=
| Finite (sign : bool) (coeff : N) (exp : Z)
| Infinity (sign : bool)
| NaN (sign : bool) (signaling : bool) (payload : N).

Definition sign_str (sign : bool) : string := if sign then "-" else "".

Definition payload_str (p : N) : string :=
  if (p =? 0)%N then "" else N_str p.

(** [Decimal.__str__] (with [eng=False] and the default context, whose
    [capitals] is 1). *)
Definition to_str (d : Decimal) : string :=
  match d with
  | Infinity sign => sign_str sign ++ "Infinity"
  | NaN sign false p => sign_str sign ++ "NaN" ++ payload_str p
  | NaN sign true p => sign_str sign ++ "sNaN" ++ payload_str p
  | Finite sign coeff exp =>
      let _int := N_str coeff in
      let len := Z.of_nat (String.length _int) in
      let leftdigits := (exp + len)%Z in
      let dotplace :=
        if (exp <=? 0)%Z && (-6 <? leftdigits)%Z then leftdigits else 1%Z in
      let '(intpart, fracpart) :=
        if (dotplace <=? 0)%Z then
          ("0", "." ++ repeat_char "0" (Z.to_nat (- dotplace)) ++ _int)
        else if (len <=? dotplace)%Z then
          (_int ++ repeat_char "0" (Z.to_nat (dotplace - len)), "")
        else
          (take (Z.to_nat dotplace) _int, "." ++ drop (Z.to_nat dotplace) _int) in
      let exp_str :=
        if (leftdigits =? dotplace)%Z then ""
        else "E" ++ Z_str_signed (leftdigits - dotplace) in
      sign_str sign ++ intpart ++ fracpart ++ exp_str
  end.

(** The alternatives of [_parser] after the sign; the pattern is matched
    ignoring case and has to reach the end of the text. *)
Definition parse_number (sign : bool) (r : string) : option Decimal :=
  let '(intpart, r1) := span_digits r in
  let '(frac, r2) :=
    match r1 with
    | String "." r' => let (f, t) := span_digits r' in (Some f, t)
    | _ => (None, r1)
    end in
  let fracpart := match frac with Some f => f | None => "" end in
  (* the lookahead (?=\d|\.\d) *)
  if negb (Nat.eqb (String.length intpart) 0) || negb (Nat.eqb (String.length fracpart) 0)
  then
    let exp :=
      match r2 with
      | EmptyString => Some 0%Z
      | String c r3 => if Ascii.eqb (lower c) "e" then signed_digits r3 else None
      end in
    match exp with
    | Some e =>
        Some (Finite sign (digits_to_N (intpart ++ fracpart))
                     (e - Z.of_nat (String.length fracpart)))
    | None => None
    end
  else None.

Definition parse_special (sign : bool) (r : string) : option Decimal :=
  let l := lower_str r in
  if String.eqb l "inf" || String.eqb l "infinity" then Some (Infinity sign)
  else
    let '(signal, t) :=
      match l with
      | String "s" t => (true, t)
      | _ => (false, l)
      end in
    if String.eqb (take 3 t) "nan" && all_digits (drop 3 t)
    then Some (NaN sign signal (digits_to_N (drop 3 t)))
    else None.

(** [Decimal(value)] for a [str]: [None] stands for the
    [decimal.InvalidOperation] the default context raises.  (The module
    raises it as well for an exponent beyond its bounds, about 10 ^ 18 in
    size; here the exponent is unbounded, as it is in [Decimal] above.) *)
Definition of_str (value : string) : option Decimal :=
  let s := remove_char "_" (strip value) in
  let '(sign, r) :=
    match s with
    | String "-" r => (true, r)
    | String "+" r => (false, r)
    | _ => (false, s)
    end in
  match parse_number sign r with
  | Some d => Some d
  | None => parse_special sign r
  end.

(** [int(d)]: truncation towards zero; [None] for the specials. *)
Definition to_int (d : Decimal) : option Z :=
  match d with
  | Finite sign coeff exp =>
      let m := if (0 <=? exp)%Z then (Z.of_N coeff * 10 ^ exp)%Z
               else (Z.of_N coeff / 10 ^ (- exp))%Z in
      Some (if sign then (- m)%Z else m)
  | _ => None
  end.

End PyDecimal.

(* ================================================================== *)
(** * float *)
(* ================================================================== *)

Module PyFloat.
Import PyStr.

(** A [float] is an IEEE 754 binary64 value, given by its 64 bits: the
    sign, eleven bits of biased exponent, fifty-two bits of fraction. *)
Record Float : Type := mkFloat { bits : N }.

Definition sign_bit (f : Float) : bool := N.testbit (bits f) 63.
Definition biased_exponent (f : Float) : N := ((bits f / 2 ^ 52) mod 2048)%N.
Definition fraction (f : Float) : N := (bits f mod 2 ^ 52)%N.

Definition is_nan (f : Float) : bool :=
  (biased_exponent f =? 2047)%N && negb (fraction f =? 0)%N.
Definition is_inf (f : Float) : bool :=
  (biased_exponent f =? 2047)%N && (fraction f =? 0)%N.

(** A finite float is [mantissa * 2 ^ exponent], up to its sign. *)
Definition mantissa (f : Float) : Z :=
  if (biased_exponent f =? 0)%N then Z.of_N (fraction f)
  else (2 ^ 52 + Z.of_N (fraction f))%Z.
Definition exponent (f : Float) : Z :=
  if (biased_exponent f =? 0)%N then (-1074)%Z
  else (Z.of_N (biased_exponent f) - 1075)%Z.

Definition pack (sign : bool) (biased : N) (frac : N) : Float :=
  mkFloat ((if sign then 2 ^ 63 else 0) + biased * 2 ^ 52 + frac)%N.

Definition infinity (sign : bool) : Float := pack sign 2047 0.
Definition nan : Float := pack false 2047 (2 ^ 51).

(** The float nearest to [c * 10 ^ e10], ties to the even mantissa: what
    [float(text)] gives for the decimal numeral [text] of that value. *)
Definition float_nearest (sign : bool) (c : N) (e10 : Z) : Float :=
  if (c =? 0)%N then pack sign 0 0
  else
    let p := (if (0 <=? e10) then Z.of_N c * 10 ^ e10 else Z.of_N c)%Z in
    let q := (if (0 <=? e10) then 1 else 10 ^ (- e10))%Z in
    let scaled e2 := (if (0 <=? e2) then (p, q * 2 ^ e2) else (p * 2 ^ (- e2), q))%Z in
    (* 2^52 < p / (q * 2^e0) < 2^54 *)
    let e0 := (Z.log2 p - Z.log2 q - 53)%Z in
    let e1 := (let (n, d) := scaled e0 in if (d * 2 ^ 53 <=? n) then e0 + 1 else e0)%Z in
    let e2 := Z.max e1 (-1074) in
    let (n, d) := scaled e2 in
    let m := (n / d)%Z in
    let r := (n mod d)%Z in
    let m := (if (d <? 2 * r) || ((2 * r =? d) && Z.odd m) then m + 1 else m)%Z in
    let '(m, e2) := (if (m =? 2 ^ 53) then (2 ^ 52, e2 + 1) else (m, e2))%Z in
    if (971 <? e2)%Z then infinity sign
    else if (m <? 2 ^ 52)%Z then pack sign 0 (Z.to_N m)
    else pack sign (Z.to_N (e2 + 1075)) (Z.to_N (m - 2 ^ 52)).

(** The number of decimal digits of a positive integer. *)
Definition num_digits (z : Z) : Z := Z.of_nat (String.length (N_str (Z.to_N z))).

Fixpoint strip_zeros (fuel : nat) (c s : Z) : Z * Z :=
  match fuel with
  | O => (c, s)
  | S n => if (c mod 10 =? 0)%Z then strip_zeros n (c / 10)%Z (s + 1)%Z else (c, s)
  end.

Section Shortest.
Variables (m e : Z).

(** The value is [M / D]. *)
Let M : Z := (if 0 <=? e then m * 2 ^ e else m)%Z.
Let D : Z := (if 0 <=? e then 1 else 2 ^ (- e))%Z.

(** The reals that round to the float lie between the midpoints to its
    neighbours, [lo / (4 * D)] and [hi / (4 * D)]; the lower neighbour is
    half as far when the mantissa is the least of its binade.  The
    midpoints themselves round to it when its mantissa is even. *)
Let unit : Z := (if 0 <=? e then 4 * 2 ^ e else 4)%Z.
Let boundary : bool := ((m =? 2 ^ 52) && (-1074 <? e))%Z.
Let hi : Z := (4 * M + unit / 2)%Z.
Let lo : Z := (4 * M - (if boundary then unit / 4 else unit / 2))%Z.

Definition rounds_back (c s : Z) : bool :=
  let x := (if 0 <=? s then c * 10 ^ s * (4 * D) else c * (4 * D))%Z in
  let l := (if 0 <=? s then lo else lo * 10 ^ (- s))%Z in
  let h := (if 0 <=? s then hi else hi * 10 ^ (- s))%Z in
  if Z.even m then ((l <=? x) && (x <=? h))%Z else ((l <? x) && (x <? h))%Z.

(** [10 ^ k0 <= M / D < 10 ^ (k0 + 1)] *)
Definition decimal_exponent : Z :=
  let k := (num_digits M - num_digits D)%Z in
  let ge := (if 0 <=? k then D * 10 ^ k <=? M else D <=? M * 10 ^ (- k))%Z in
  if ge then k else (k - 1)%Z.

(** The candidates with [n] digits: the two [n]-digit decimals around the
    value; of those that round back, the nearer one (the even one on a tie). *)
Definition candidate (n : Z) : option (Z * Z) :=
  let s := (decimal_exponent - (n - 1))%Z in
  let num := (if 0 <=? s then M else M * 10 ^ (- s))%Z in
  let den := (if 0 <=? s then D * 10 ^ s else D)%Z in
  let c_lo := (num / den)%Z in
  let c_hi := (c_lo + 1)%Z in
  match rounds_back c_lo s, rounds_back c_hi s with
  | true, true =>
      let d := (2 * num - (2 * c_lo + 1) * den)%Z in
      Some (if (d <? 0)%Z then c_lo
            else if (0 <? d)%Z then c_hi
            else if Z.even c_lo then c_lo else c_hi, s)
  | true, false => Some (c_lo, s)
  | false, true => Some (c_hi, s)
  | false, false => None
  end.

(** The shortest decimal [c * 10 ^ s] that rounds back to the float:
    seventeen digits always do. *)
Fixpoint shortest_from (fuel : nat) (n : Z) : Z * Z :=
  match fuel with
  | O => (0, 0)%Z
  | S fuel' =>
      match candidate n with
      | Some (c, s) => strip_zeros 17 c s
      | None => shortest_from fuel' (n + 1)%Z
      end
  end.

Definition shortest : Z * Z := shortest_from 17 1.
End Shortest.

(** [repr(f)], which is [str(f)]: the shortest digits that round back,
    written with an exponent when the decimal point would be more than
    sixteen places to the right of the first digit or more than three
    zeros to its left. *)
Definition float_repr (f : Float) : string :=
  let sg := if sign_bit f then "-" else "" in
  if is_nan f then "nan"
  else if is_inf f then sg ++ "inf"
  else if (mantissa f =? 0)%Z then sg ++ "0.0"
  else
    let (c, s) := shortest (mantissa f) (exponent f) in
    let digits := N_str (Z.to_N c) in
    let nd := Z.of_nat (String.length digits) in
    let decpt := (nd + s)%Z in
    if (decpt <=? -4)%Z || (16 <? decpt)%Z then
      let ex := (decpt - 1)%Z in
      let a := N_str (Z.abs_N ex) in
      sg ++ take 1 digits ++ (if (1 <? nd)%Z then "." ++ drop 1 digits else "")
         ++ "e" ++ (if (ex <? 0)%Z then "-" else "+")
         ++ (if (Z.abs ex <? 10)%Z then "0" ++ a else a)
    else if (decpt <=? 0)%Z then
      sg ++ "0." ++ repeat_char "0" (Z.to_nat (- decpt)) ++ digits
    else if (nd <=? decpt)%Z then
      sg ++ digits ++ repeat_char "0" (Z.to_nat (decpt - nd)) ++ ".0"
    else
      sg ++ take (Z.to_nat decpt) digits ++ "." ++ drop (Z.to_nat decpt) digits.

(** [int(f)] for a finite float: truncation towards zero. *)
Definition float_trunc (f : Float) : Z :=
  let v := (if 0 <=? exponent f then mantissa f * 2 ^ exponent f
            else mantissa f / 2 ^ (- exponent f))%Z in
  if sign_bit f then (- v)%Z else v.

End PyFloat.

(* ================================================================== *)
(** * datetime.date and datetime.datetime *)
(* ================================================================== *)

Module PyDatetime.
Import PyStr.

Record Date : Type := mkDate { year : N; month : N; day : N }.

Definition is_leap (y : N) : bool :=
  ((y mod 4 =? 0) && (negb (y mod 100 =? 0) || (y mod 400 =? 0)))%N.

Definition days_in_month (y m : N) : N :=
  match m with
  | 2%N => if is_leap y then 29%N else 28%N
  | 4%N | 6%N | 9%N | 11%N => 30%N
  | _ => 31%N
  end.

(** The checks of the [date] constructor. *)
Definition valid_date (d : Date) : bool :=
  ((1 <=? year d) && (year d <=? 9999) && (1 <=? month d) && (month d <=? 12)
   && (1 <=? day d) && (day d <=? days_in_month (year d) (month d)))%N.

(** [date.isoformat()]: ["%04d-%02d-%02d"]. *)
Definition date_isoformat (d : Date) : string :=
  zfill 4 (year d) ++ "-" ++ zfill 2 (month d) ++ "-" ++ zfill 2 (day d).

(** A field of exactly [w] digits. *)
Definition fixed_field (w : nat) (s : string) : option N :=
  if Nat.eqb (String.length s) w && all_digits s then Some (digits_to_N s) else None.

(** [date.fromisoformat]: the inverse of [isoformat], [YYYY-MM-DD].
    (Python 3.11 and later accept further ISO 8601 spellings, which no
    codec path of this module emits; they are rejected here.)  [None]
    stands for the [ValueError] raised. *)
Definition date_fromisoformat (s : string) : option Date :=
  if Nat.eqb (String.length s) 10 then
    match fixed_field 4 (take 4 s), take 1 (drop 4 s),
          fixed_field 2 (take 2 (drop 5 s)), take 1 (drop 7 s),
          fixed_field 2 (drop 8 s) with
    | Some y, "-", Some m, "-", Some d =>
        let r := mkDate y m d in if valid_date r then Some r else None
    | _, _, _, _, _ => None
    end
  else None.

(** A [datetime]; [tzoffset] is the UTC offset of an aware value in whole
    minutes ([None] for a naive one).  Offsets with a seconds part are
    outside the model. *)
Record Datetime : Type := mkDatetime {
  dt_date : Date;
  hour : N; minute : N; second : N; microsecond : N;
  tzoffset : option Z
}.

Definition valid_offset (off : Z) : bool := ((-1440 <? off) && (off <? 1440))%Z.

Definition valid_datetime (t : Datetime) : bool :=
  valid_date (dt_date t)
  && ((hour t <? 24) && (minute t <? 60) && (second t <? 60)
      && (microsecond t <? 1000000))%N
  && match tzoffset t with Some off => valid_offset off | None => true end.

Definition time_str (t : Datetime) : string :=
  zfill 2 (hour t) ++ ":" ++ zfill 2 (minute t) ++ ":" ++ zfill 2 (second t)
  ++ (if (microsecond t =? 0)%N then "" else "." ++ zfill 6 (microsecond t)).

Definition offset_str (tz : option Z) : string :=
  match tz with
  | None => ""
  | Some off =>
      let a := Z.abs_N off in
      (if (off <? 0)%Z then "-" else "+")
      ++ zfill 2 (a / 60) ++ ":" ++ zfill 2 (a mod 60)
  end.

(** [datetime.isoformat(sep)] with [timespec='auto']. *)
Definition datetime_format (sep : string) (t : Datetime) : string :=
  date_isoformat (dt_date t) ++ sep ++ time_str t ++ offset_str (tzoffset t).

Definition datetime_isoformat (t : Datetime) : string := datetime_format "T" t.

(** [HH[:MM[:SS[.fff[fff]]]]] *)
Definition parse_hh_mm_ss_ff (s : string) : option (N * N * N * N) :=
  let hh := fixed_field 2 (take 2 s) in
  let mm := fixed_field 2 (take 2 (drop 3 s)) in
  let ss := fixed_field 2 (take 2 (drop 6 s)) in
  let c1 := take 1 (drop 2 s) in
  let c2 := take 1 (drop 5 s) in
  let c3 := take 1 (drop 8 s) in
  match String.length s with
  | 2 => match hh with Some h => Some (h, 0, 0, 0)%N | _ => None end
  | 5 => match hh, c1, mm with
         | Some h, ":", Some m => Some (h, m, 0, 0)%N
         | _, _, _ => None
         end
  | 8 => match hh, c1, mm, c2, ss with
         | Some h, ":", Some m, ":", Some s' => Some (h, m, s', 0)%N
         | _, _, _, _, _ => None
         end
  | 12 => match hh, c1, mm, c2, ss, c3, fixed_field 3 (drop 9 s) with
          | Some h, ":", Some m, ":", Some s', ".", Some f => Some (h, m, s', f * 1000)%N
          | _, _, _, _, _, _, _ => None
          end
  | 15 => match hh, c1, mm, c2, ss, c3, fixed_field 6 (drop 9 s) with
          | Some h, ":", Some m, ":", Some s', ".", Some f => Some (h, m, s', f)%N
          | _, _, _, _, _, _, _ => None
          end
  | _ => None
  end.

(** The position of the first occurrence of a character, [str.find]. *)
Fixpoint find_char (x : ascii) (s : string) : option nat :=
  match s with
  | EmptyString => None
  | String c r => if Ascii.eqb c x then Some O
                  else match find_char x r with Some n => Some (S n) | None => None end
  end.

(** The UTC offset [HH:MM] after the sign. *)
Definition parse_offset (neg : bool) (s : string) : option Z :=
  if Nat.eqb (String.length s) 5 then
    match fixed_field 2 (take 2 s), take 1 (drop 2 s), fixed_field 2 (drop 3 s) with
    | Some h, ":", Some m =>
        if ((h <? 24) && (m <? 60))%N then
          let a := Z.of_N (h * 60 + m) in Some (if neg then (- a)%Z else a)
        else None
    | _, _, _ => None
    end
  else None.

(** [datetime.fromisoformat]: [YYYY-MM-DD[*HH[:MM[:SS[.fff[fff]]]][+HH:MM]]],
    the inverse of [isoformat].  The time-zone sign is looked for as the
    first ["-"] of the time part, else its first ["+"].  (As for dates, the
    further spellings Python 3.11 accepts, such as a trailing [Z], a
    compact time or a fraction of another length, are rejected here; no
    codec path of this module emits them.) *)
Definition datetime_fromisoformat (s : string) : option Datetime :=
  match date_fromisoformat (take 10 s) with
  | None => None
  | Some d =>
      if Nat.eqb (String.length s) 10 then Some (mkDatetime d 0 0 0 0 None)
      else if Nat.eqb (String.length s) 11 then None
      else
        let tstr := drop 11 s in
        let tz_pos :=
          match find_char "-" tstr with
          | Some p => Some (p, true)
          | None => match find_char "+" tstr with
                    | Some p => Some (p, false)
                    | None => None
                    end
          end in
        let timestr := match tz_pos with Some (p, _) => take p tstr | None => tstr end in
        let tz :=
          match tz_pos with
          | None => Some None
          | Some (p, neg) =>
              match parse_offset neg (drop (S p) tstr) with
              | Some off => Some (Some off)
              | None => None
              end
          end in
        match parse_hh_mm_ss_ff timestr, tz with
        | Some (h, m, s', us), Some tz' =>
            if ((h <? 24) && (m <? 60) && (s' <? 60))%N
            then Some (mkDatetime d h m s' us tz')
            else None
        | _, _ => None
        end
  end.

End PyDatetime.

(* ================================================================== *)
(** * Values, exceptions, dictionaries *)
(* ================================================================== *)

Export PyStr PyDecimal PyFloat PyDatetime.

(** The Python values the module handles.  An instance of [Stock] or
    [Trade] is given by its [__dict__]. *)
Inductive pyval : Type :=
| VNone
| VBool (b : bool)
| VInt (z : Z)
| VStr (s : string)
| VDecimal (d : Decimal)
| VDate (d : Date)
| VDatetime (t : Datetime)
| VList (l : list pyval)
| VDict (m : list (string * pyval))
| VStock (attrs : list (string * pyval))
| VTrade (attrs : list (string * pyval))
| VFloat (f : Float).

Definition dict : Type := list (string * pyval).

(** A JSON document, as the tree its text denotes: a number literal with a
    fraction or an exponent denotes a [float], as do [NaN] and [Infinity];
    any other number literal denotes an [int]. *)
Inductive json : Type :=
| JNull
| JBool (b : bool)
| JInt (z : Z)
| JStr (s : string)
| JList (l : list json)
| JObject (members : list (string * json))
| JFloat (f : Float).

(** Exceptions.  The text of the exceptions the runtime and the libraries
    raise is not modelled, except for a [KeyError]'s key and for
    marshmallow's validation messages.
    - [ValueError None] is a [ValueError] a library raises, [ValueError
      (Some msg)] one this module raises with the message [msg];
    - [FieldError] is the [marshmallow.ValidationError] a field or a
      validator raises, with its messages;
    - [ValidationError] is the one [Schema.load] raises, with the messages
      of each field under the field's key;
    - [Failed e] is [ValueError(f"Failed to deserialize: {str(e)}")], kept
      with the exception [e] its message quotes;
    - [NotModelled] stands for what depends on the [str()] of a container
      or of an instance, whose text is outside the model (that [str()]
      raises is modelled: see [repr_raises]). *)
Inductive exn : Type :=
| TypeError
| AttributeError
| KeyError (key : string)
| OverflowError
| RecursionError
| InvalidOperation
| ValueError (msg : option string)
| FieldError (messages : list string)
| ValidationError (errors : list (string * list string))
| Failed (cause : exn)
| NotModelled.

Definition Exc (A : Type) : Type := (exn + A)%type.
Definition ok {A : Type} (a : A) : Exc A := inr a.
Definition raise {A : Type} (e : exn) : Exc A := inl e.
Definition bind {A B : Type} (c : Exc A) (k : A -> Exc B) : Exc B :=
  match c with
  | inl e => inl e
  | inr a => k a
  end.

Notation "x <- c ;; k" := (bind c (fun x => k))
  (at level 61, c at next level, right associativity).
Notation "' p <- c ;; k" := (bind c (fun x => let 'p := x in k))
  (at level 61, p pattern, c at next level, right associativity).

Fixpoint mapM {A B : Type} (f : A -> Exc B) (l : list A) : Exc (list B) :=
  match l with
  | [] => ok []
  | a :: r => b <- f a ;; bs <- mapM f r ;; ok (b :: bs)
  end.

Section Dict.
Context {V : Type}.

(** [d.get(k)] *)
Fixpoint dict_get (k : string) (d : list (string * V)) : option V :=
  match d with
  | [] => None
  | (k', v) :: r => if String.eqb k' k then Some v else dict_get k r
  end.

(** [k in d] *)
Definition dict_in (k : string) (d : list (string * V)) : bool :=
  match dict_get k d with Some _ => true | None => false end.

(** [d[k] = v]: an existing key keeps its place, a new one goes last. *)
Fixpoint dict_set (k : string) (v : V) (d : list (string * V)) : list (string * V) :=
  match d with
  | [] => [(k, v)]
  | (k', v') :: r => if String.eqb k' k then (k', v) :: r else (k', v') :: dict_set k v r
  end.

(** [del d[k]]: the entry of the key is removed (a dictionary has at most
    one). *)
Fixpoint dict_del (k : string) (d : list (string * V)) : list (string * V) :=
  match d with
  | [] => []
  | (k', v') :: r => if String.eqb k' k then dict_del k r else (k', v') :: dict_del k r
  end.

(** [dict(pairs)]: a later pair overrides an earlier one with its key. *)
Definition dict_of_pairs (pairs : list (string * V)) : list (string * V) :=
  fold_left (fun d kv => dict_set (fst kv) (snd kv) d) pairs [].
End Dict.

(** [sys.get_int_max_str_digits()]: an [int] with more digits is not
    converted to a [str], nor a [str] with more digits to an [int]. *)
Definition int_max_str_digits : N := 4300.

Definition int_str_ok (z : Z) : bool :=
  (N.of_nat (String.length (N_str (Z.abs_N z))) <=? int_max_str_digits)%N.

(** [str(v)] and [repr(v)] raise a [ValueError]: [v] is an [int] of too
    many digits, or a list or a dictionary that holds one, at any depth
    (the text of a container shows the [repr] of its items; that of an
    instance of [Stock] or [Trade] shows none of its attributes). *)
Fixpoint repr_raises (v : pyval) : bool :=
  match v with
  | VInt z => negb (int_str_ok z)
  | VList l => existsb repr_raises l
  | VDict m => existsb (fun kv => repr_raises (snd kv)) m
  | _ => false
  end.

(** The text of [str(v)].  [None] where it is outside the model:
    containers and instances. *)
Definition str_text (v : pyval) : option string :=
  match v with
  | VNone => Some "None"
  | VBool true => Some "True"
  | VBool false => Some "False"
  | VInt z => Some (Z_str z)
  | VStr s => Some s
  | VDecimal d => Some (to_str d)
  | VDate d => Some (date_isoformat d)
  | VDatetime t => Some (datetime_format " " t)
  | VFloat f => Some (float_repr f)
  | VList _ | VDict _ | VStock _ | VTrade _ => None
  end.

(** [str(v)] *)
Definition py_str (v : pyval) : Exc (option string) :=
  if repr_raises v then raise (ValueError None) else ok (str_text v).

(** [Decimal(str(v))].  The text of a container or of an instance starts
    with a bracket, which no decimal literal does. *)
Definition Decimal_of_str_of (v : pyval) : Exc Decimal :=
  text <- py_str v ;;
  match text with
  | Some s => match of_str s with
              | Some d => ok d
              | None => raise InvalidOperation
              end
  | None => raise InvalidOperation
  end.

(** The digits of an [int] literal: digits, single underscores between
    them. *)
Fixpoint int_digits (prev_digit : bool) (s : string) : bool :=
  match s with
  | EmptyString => prev_digit
  | String c r =>
      if is_digit c then int_digits true r
      else if Ascii.eqb c "_" then prev_digit && int_digits false r
      else false
  end.

(** [int(s)] for a [str], base 10.  [None] stands for the [ValueError]
    raised, which a numeral of too many digits raises too. *)
Definition int_of_str (s : string) : option Z :=
  let t := int_strip s in
  let '(neg, r) :=
    match t with
    | String "-" r => (true, r)
    | String "+" r => (false, r)
    | _ => (false, t)
    end in
  let digits := remove_char "_" r in
  if int_digits false r && (N.of_nat (String.length digits) <=? int_max_str_digits)%N
  then let n := Z.of_N (digits_to_N digits) in
       Some (if neg then (- n)%Z else n)
  else None.

(** [int(v)] *)
Definition py_int (v : pyval) : Exc Z :=
  match v with
  | VInt z => ok z
  | VBool b => ok (if b then 1%Z else 0%Z)
  | VStr s => match int_of_str s with
              | Some z => ok z
              | None => raise (ValueError None)
              end
  | VDecimal (Finite _ _ _ as d) =>
      match to_int d with Some z => ok z | None => raise (ValueError None) end
  | VDecimal (Infinity _) => raise OverflowError
  | VDecimal (NaN _ _ _) => raise (ValueError None)
  | VFloat f =>
      if is_nan f then raise (ValueError None)
      else if is_inf f then raise OverflowError
      else ok (float_trunc f)
  | _ => raise TypeError
  end.

(** [date.fromisoformat(v)] and [datetime.fromisoformat(v)]: the argument
    must be a [str]. *)
Definition date_fromisoformat_of (v : pyval) : Exc Date :=
  match v with
  | VStr s => match date_fromisoformat s with
              | Some d => ok d
              | None => raise (ValueError None)
              end
  | _ => raise TypeError
  end.

Definition datetime_fromisoformat_of (v : pyval) : Exc Datetime :=
  match v with
  | VStr s => match datetime_fromisoformat s with
              | Some t => ok t
              | None => raise (ValueError None)
              end
  | _ => raise TypeError
  end.

(** [v == s] for a string [s]. *)
Definition eq_str (v : pyval) (s : string) : bool :=
  match v with
  | VStr s' => String.eqb s' s
  | _ => false
  end.

(* ================================================================== *)
(** * The record classes *)
(* ================================================================== *)

(** [Stock.__init__]: the attributes in the order they are assigned; the
    parameter [open_] is stored as the attribute [open]. *)
Definition Stock (symbol date open_ high low close volume : pyval) : pyval :=
  VStock [("symbol", symbol); ("date", date); ("open", open_); ("high", high);
          ("low", low); ("close", close); ("volume", volume);
          ("datatype", VStr "stock")].

(** [Trade.__init__] *)
Definition Trade (symbol timestamp order price volume commission : pyval) : pyval :=
  VTrade [("symbol", symbol); ("timestamp", timestamp); ("order", order);
          ("price", price); ("commission", commission); ("volume", volume);
          ("datatype", VStr "trade")].

(** A call with keyword arguments only, [f( **kw)]: every key has to be a
    parameter and every parameter has to be given. *)
Definition only_params (params : list string) (kw : dict) : bool :=
  forallb (fun kv => existsb (String.eqb (fst kv)) params) kw.

Definition Stock_kw (kw : dict) : Exc pyval :=
  if only_params ["symbol"; "date"; "open_"; "high"; "low"; "close"; "volume"] kw then
    match dict_get "symbol" kw, dict_get "date" kw, dict_get "open_" kw,
          dict_get "high" kw, dict_get "low" kw, dict_get "close" kw,
          dict_get "volume" kw with
    | Some s, Some d, Some o, Some h, Some l, Some c, Some v => ok (Stock s d o h l c v)
    | _, _, _, _, _, _, _ => raise TypeError
    end
  else raise TypeError.

Definition Trade_kw (kw : dict) : Exc pyval :=
  if only_params ["symbol"; "timestamp"; "order"; "price"; "volume"; "commission"] kw then
    match dict_get "symbol" kw, dict_get "timestamp" kw, dict_get "order" kw,
          dict_get "price" kw, dict_get "volume" kw, dict_get "commission" kw with
    | Some s, Some t, Some o, Some p, Some v, Some c => ok (Trade s t o p v c)
    | _, _, _, _, _, _ => raise TypeError
    end
  else raise TypeError.

(** [getattr(obj, name, missing)] on an instance; on a mapping marshmallow
    reads the key instead. *)
Definition get_value (obj : pyval) (name : string) : option pyval :=
  match obj with
  | VStock attrs | VTrade attrs => dict_get name attrs
  | VDict m => dict_get name m
  | _ => None
  end.

(* ================================================================== *)
(** * The tagged codec *)
(* ================================================================== *)

(** [CustomEncoder.default].  The result comes with the state of [arg]
    after the call: [toJSON] returns [vars(self)], the instance's own
    [__dict__], so the renaming of [open] is done to the instance. *)
Definition CustomEncoder_default (arg : pyval) : Exc (pyval * pyval) :=
  match arg with
  | VStock attrs =>
      let data := attrs in
      let data :=
        match dict_get "open" data with
        | Some v => dict_set "open_" v (dict_del "open" data)
        | None => data
        end in
      ok (VDict data, VStock data)
  | VTrade attrs => ok (VDict attrs, VTrade attrs)
  | VDatetime t => ok (VStr (datetime_isoformat t), arg)
  | VDate d => ok (VDict [("datatype", VStr "date"); ("date", VStr (date_isoformat d))], arg)
  | VDecimal d => ok (VStr (to_str d), arg)
  | _ => raise TypeError
  end.

(** [JSONEncoder.default]: nothing else is serializable. *)
Definition JSONEncoder_default (arg : pyval) : Exc (pyval * pyval) := raise TypeError.

(** What encoding the mapping [default] returned did to it is done to the
    instance it is the [__dict__] of. *)
Definition alias_back (after_default after_encoding : pyval) : pyval :=
  match after_default, after_encoding with
  | VStock _, VDict d => VStock d
  | VTrade _, VDict d => VTrade d
  | _, _ => after_default
  end.

(** The driver of [json.dumps]: the JSON kinds are emitted as they are,
    anything else goes through [default] and its result is encoded in turn.
    The result is the document and the state of the value afterwards.
    [fuel] bounds the depth of the recursion. *)
Fixpoint iterencode (default : pyval -> Exc (pyval * pyval)) (fuel : nat) (o : pyval)
  : Exc (json * pyval) :=
  match fuel with
  | O => raise RecursionError
  | S n =>
      match o with
      | VNone => ok (JNull, o)
      | VBool b => ok (JBool b, o)
      | VInt z => ok (JInt z, o)
      | VStr s => ok (JStr s, o)
      | VFloat f => ok (JFloat f, o)
      | VList l =>
          r <- mapM (iterencode default n) l ;;
          ok (JList (map fst r), VList (map snd r))
      | VDict d =>
          r <- mapM (fun kv => ' (j, v) <- iterencode default n (snd kv) ;;
                               ok ((fst kv, j), (fst kv, v))) d ;;
          ok (JObject (map fst r), VDict (map snd r))
      | _ =>
          ' (o1, o') <- default o ;;
          ' (j, o1') <- iterencode default n o1 ;;
          ok (j, alias_back o' o1')
      end
  end.

Definition recursion_limit : nat := 1000.

(** [json.dumps(x, cls=CustomEncoder)]: the document, and [x] afterwards. *)
Definition encode (x : pyval) : Exc (json * pyval) :=
  iterencode CustomEncoder_default recursion_limit x.

(** [json.dumps(x)] *)
Definition json_dumps (x : pyval) : Exc json :=
  ' (j, _) <- iterencode JSONEncoder_default recursion_limit x ;; ok j.

(** The driver of [json.loads]: every object becomes a [dict], which is
    handed to [object_hook] once its members are decoded. *)
Fixpoint loads (object_hook : pyval -> Exc pyval) (j : json) : Exc pyval :=
  match j with
  | JNull => ok VNone
  | JBool b => ok (VBool b)
  | JInt z => ok (VInt z)
  | JStr s => ok (VStr s)
  | JFloat f => ok (VFloat f)
  | JList l =>
      vs <- (fix go (l : list json) : Exc (list pyval) :=
               match l with
               | [] => ok []
               | x :: r => v <- loads object_hook x ;; vs <- go r ;; ok (v :: vs)
               end) l ;;
      ok (VList vs)
  | JObject ms =>
      pairs <- (fix go (ms : list (string * json)) : Exc (list (string * pyval)) :=
                  match ms with
                  | [] => ok []
                  | (k, x) :: r => v <- loads object_hook x ;; ps <- go r ;; ok ((k, v) :: ps)
                  end) ms ;;
      object_hook (VDict (dict_of_pairs pairs))
  end.

(** [for key in keys: arg_copy[key] = Decimal(str(arg_copy[key]))] *)
Fixpoint coerce_decimals (keys : list string) (arg_copy : dict) : Exc dict :=
  match keys with
  | [] => ok arg_copy
  | key :: rest =>
      match dict_get key arg_copy with
      | None => raise (KeyError key)
      | Some v =>
          d <- Decimal_of_str_of v ;;
          coerce_decimals rest (dict_set key (VDecimal d) arg_copy)
      end
  end.

(** The branch [datatype == 'trade'] of [custom_decoder]. *)
Definition decode_trade_branch (arg_copy : dict) : Exc pyval :=
  t <- datetime_fromisoformat_of
         (match dict_get "timestamp" arg_copy with
          | Some v => v
          | None => VStr ""
          end) ;;
  let arg_copy := dict_set "timestamp" (VDatetime t) arg_copy in
  arg_copy <- coerce_decimals ["price"; "commission"] arg_copy ;;
  Trade_kw arg_copy.

(** The branch [datatype == 'stock'] of [custom_decoder]: the renaming of
    [open], the decimals, then the three shapes of [date]. *)
Definition decode_stock_branch (arg_copy : dict) : Exc pyval :=
  let arg_copy :=
    match dict_get "open" arg_copy with
    | Some v => dict_set "open_" v (dict_del "open" arg_copy)
    | None => arg_copy
    end in
  arg_copy <- coerce_decimals ["open_"; "high"; "low"; "close"] arg_copy ;;
  match dict_get "date" arg_copy with
  | None => raise (KeyError "date")
  | Some (VDate _) | Some (VDatetime _) => Stock_kw arg_copy
  | Some (VDict w) =>
      if match dict_get "datatype" w with
         | Some t => eq_str t "date"
         | None => false
         end
      then
        match dict_get "date" w with
        | None => raise (KeyError "date")
        | Some v =>
            d <- date_fromisoformat_of v ;;
            Stock_kw (dict_set "date" (VDate d) arg_copy)
        end
      else
        d <- date_fromisoformat_of (VDict w) ;;
        Stock_kw (dict_set "date" (VDate d) arg_copy)
  | Some v =>
      d <- date_fromisoformat_of v ;;
      Stock_kw (dict_set "date" (VDate d) arg_copy)
  end.

(** [custom_decoder] *)
Definition custom_decoder (arg : pyval) : Exc pyval :=
  match arg with
  | VDict m =>
      match dict_get "datatype" m with
      | None => ok arg
      | Some datatype =>
          let arg_copy := dict_del "datatype" m in
          if eq_str datatype "date" then
            match dict_get "date" m with
            | None => raise (KeyError "date")
            | Some v => d <- date_fromisoformat_of v ;; ok (VDate d)
            end
          else if eq_str datatype "trade" then decode_trade_branch arg_copy
          else if eq_str datatype "stock" then decode_stock_branch arg_copy
          else ok arg
      end
  | _ => ok arg
  end.

(** [json.loads(text, object_hook=custom_decoder)] *)
Definition decode (text : json) : Exc pyval := loads custom_decoder text.

(* ================================================================== *)
(** * The schema codec *)
(* ================================================================== *)

(** The field classes the two schemas use, [DecimalField] being the one
    this module defines. *)
Inductive field_type : Type :=
| FStr | FDate | FDateTime | FInteger | FDecimalField
| FConstant (constant : string).

Inductive validator : Type :=
| Length_equal (equal : nat)            (* validate.Length(equal=...) *)
| OneOf (choices : list string).        (* validate.OneOf([...]) *)

Record field : Type := mkField {
  attr_name : string;
  ftype : field_type;
  data_key : option string;
  required : bool;
  validate : list validator;
  dump_only : bool
}.

Inductive Schema : Type := StockSchema | TradeSchema.

(** The fields of the two schemas, in the order they are declared. *)
Definition declared_fields (schema : Schema) : list field :=
  match schema with
  | StockSchema =>
      [ mkField "symbol" FStr None true [Length_equal 4] false;
        mkField "date" FDate None true [] false;
        mkField "open_" FDecimalField (Some "open") true [] false;
        mkField "high" FDecimalField None true [] false;
        mkField "low" FDecimalField None true [] false;
        mkField "close" FDecimalField None true [] false;
        mkField "volume" FInteger None true [] false;
        mkField "datatype" (FConstant "stock") None false [] true ]
  | TradeSchema =>
      [ mkField "symbol" FStr None true [Length_equal 4] false;
        mkField "timestamp" FDateTime None true [] false;
        mkField "order" FStr None true [OneOf ["buy"; "sell"]] false;
        mkField "price" FDecimalField None true [] false;
        mkField "commission" FDecimalField None true [] false;
        mkField "volume" FInteger None true [] false;
        mkField "datatype" (FConstant "trade") None false [] true ]
  end.

(** The key of a field in the serialized mapping. *)
Definition wire_key (f : field) : string :=
  match data_key f with
  | Some k => k
  | None => attr_name f
  end.

(** [DecimalField._serialize] *)
Definition DecimalField_serialize (value : pyval) : Exc pyval :=
  match value with
  | VNone => ok VNone
  | _ => text <- py_str value ;;
         match text with
         | Some s => ok (VStr s)
         | None => raise NotModelled
         end
  end.

(** [DecimalField._deserialize]: only a [TypeError] or a [ValueError] is
    turned into a validation error. *)
Definition DecimalField_deserialize (value : pyval) : Exc pyval :=
  match Decimal_of_str_of value with
  | inr d => ok (VDecimal d)
  | inl TypeError => raise (FieldError ["Not a valid decimal value."])
  | inl (ValueError _) => raise (FieldError ["Not a valid decimal value."])
  | inl e => raise e
  end.

(** [Field._serialize] of the field classes. *)
Definition field_serialize (t : field_type) (value : pyval) : Exc pyval :=
  match t, value with
  | FConstant c, _ => ok (VStr c)
  | FDecimalField, _ => DecimalField_serialize value
  | _, VNone => ok VNone
  | FStr, _ => text <- py_str value ;;
               match text with
               | Some s => ok (VStr s)
               | None => raise NotModelled
               end
  | FDate, VDate d => ok (VStr (date_isoformat d))
  | FDate, VDatetime t => ok (VStr (date_isoformat (dt_date t)))
  | FDate, _ => raise TypeError
  | FDateTime, VDatetime t => ok (VStr (datetime_isoformat t))
  | FDateTime, _ => raise TypeError
  | FInteger, _ => z <- py_int value ;; ok (VInt z)
  end.

(** [Field.serialize]: a [Constant] does not look at the object; for the
    others an attribute the object does not have leaves the field out
    ([None]). *)
Definition serialize_attr (f : field) (obj : pyval) : Exc (option pyval) :=
  match ftype f with
  | FConstant c => ok (Some (VStr c))
  | t => match get_value obj (attr_name f) with
         | None => ok None
         | Some value => v <- field_serialize t value ;; ok (Some v)
         end
  end.

(** [Schema.dump]: the loop of [Schema._serialize]. *)
Fixpoint dump_loop (fields : list field) (obj : pyval) (ret : dict) : Exc dict :=
  match fields with
  | [] => ok ret
  | f :: rest =>
      v <- serialize_attr f obj ;;
      match v with
      | None => dump_loop rest obj ret
      | Some value => dump_loop rest obj (dict_set (wire_key f) value ret)
      end
  end.

Definition Schema_dump (schema : Schema) (obj : pyval) : Exc dict :=
  dump_loop (declared_fields schema) obj [].

(** [len(v)] *)
Definition py_len (v : pyval) : Exc nat :=
  match v with
  | VStr s => ok (String.length s)
  | VList l => ok (List.length l)
  | VDict m => ok (List.length m)
  | _ => raise TypeError
  end.

(** The messages of one validator on a deserialized value. *)
Definition run_validator (vd : validator) (value : pyval) : Exc (list string) :=
  match vd with
  | Length_equal equal =>
      n <- py_len value ;;
      ok (if Nat.eqb n equal then []
          else ["Length must be " ++ N_str (N.of_nat equal) ++ "."])
  | OneOf choices =>
      ok (if existsb (eq_str value) choices then []
          else ["Must be one of: " ++ String.concat ", " choices ++ "."])
  end.

(** [Field._validate]: the messages of all the validators. *)
Fixpoint run_validators (vds : list validator) (value : pyval) : Exc (list string) :=
  match vds with
  | [] => ok []
  | vd :: rest =>
      m <- run_validator vd value ;;
      ms <- run_validators rest value ;;
      ok (m ++ ms)%list
  end.

(** [Field._deserialize] of the field classes (marshmallow 4: a [Date] or
    [DateTime] field returns a value that is already of its type, and a
    [datetime] is a [date]). *)
Definition field_deserialize (t : field_type) (value : pyval) : Exc pyval :=
  match t with
  | FStr =>
      match value with
      | VStr s => ok (VStr s)
      | _ => raise (FieldError ["Not a valid string."])
      end
  | FDate =>
      match value with
      | VDate _ | VDatetime _ => ok value    (* isinstance(value, date) *)
      | _ =>
          match date_fromisoformat_of value with
          | inr d => ok (VDate d)
          | inl _ => raise (FieldError ["Not a valid date."])
          end
      end
  | FDateTime =>
      match value with
      | VDatetime _ => ok value              (* isinstance(value, datetime) *)
      | _ =>
          match datetime_fromisoformat_of value with
          | inr d => ok (VDatetime d)
          | inl _ => raise (FieldError ["Not a valid datetime."])
          end
      end
  | FInteger =>
      match value with
      | VBool _ => raise (FieldError ["Not a valid integer."])
      | _ => match py_int value with
             | inr z => ok (VInt z)
             | inl OverflowError => raise (FieldError ["Number too large."])
             | inl TypeError => raise (FieldError ["Not a valid integer."])
             | inl (ValueError _) => raise (FieldError ["Not a valid integer."])
             | inl e => raise e
             end
      end
  | FDecimalField => DecimalField_deserialize value
  | FConstant c => ok (VStr c)
  end.

(** [Field.deserialize] on the raw value of the field's key ([None]: the
    key is missing). *)
Definition deserialize_raw (f : field) (raw : option pyval) : Exc (option pyval) :=
  match raw with
  | None =>
      if required f then raise (FieldError ["Missing data for required field."])
      else ok None
  | Some VNone => raise (FieldError ["Field may not be null."])
  | Some value =>
      output <- field_deserialize (ftype f) value ;;
      msgs <- run_validators (validate f) output ;;
      match msgs with
      | [] => ok (Some output)
      | _ => raise (FieldError msgs)
      end
  end.

(** [ErrorStore.store_error] *)
Definition store_error (field_name : string) (msgs : list string)
    (errors : list (string * list string)) : list (string * list string) :=
  match dict_get field_name errors with
  | Some old => dict_set field_name (old ++ msgs)%list errors
  | None => dict_set field_name msgs errors
  end.

(** The loop of [Schema._deserialize] with [unknown = EXCLUDE]: only the
    keys of the fields are read; a field's validation error is stored under
    its key and the loop goes on; any other exception leaves the loop. *)
Fixpoint load_loop (fields : list field) (data ret : dict)
    (errors : list (string * list string)) : Exc (dict * list (string * list string)) :=
  match fields with
  | [] => ok (ret, errors)
  | f :: rest =>
      if dump_only f then load_loop rest data ret errors
      else
        match deserialize_raw f (dict_get (wire_key f) data) with
        | inr (Some value) => load_loop rest data (dict_set (attr_name f) value ret) errors
        | inr None => load_loop rest data ret errors
        | inl (FieldError msgs) =>
            load_loop rest data ret (store_error (wire_key f) msgs errors)
        | inl e => raise e
        end
  end.

(** The [post_load] hooks [make_stock] and [make_trade]. *)
Definition post_load (schema : Schema) (data : dict) : Exc pyval :=
  match schema with
  | StockSchema => Stock_kw data
  | TradeSchema => Trade_kw data
  end.

(** [Schema.load] *)
Definition Schema_load (schema : Schema) (data : pyval) : Exc pyval :=
  match data with
  | VDict m =>
      ' (ret, errors) <- load_loop (declared_fields schema) m [] [] ;;
      match errors with
      | [] => post_load schema ret
      | _ => raise (ValidationError errors)
      end
  | _ => raise (ValidationError [("_schema", ["Invalid input type."])])
  end.

(** [serialize_with_marshmallow] *)
Definition serialize_with_marshmallow (obj : pyval) : Exc json :=
  match obj with
  | VStock _ =>
      data <- Schema_dump StockSchema obj ;;
      let data :=
        match dict_get "open_" data with
        | Some v => dict_set "open" v (dict_del "open_" data)
        | None => data
        end in
      json_dumps (VDict data)
  | VTrade _ =>
      data <- Schema_dump TradeSchema obj ;;
      json_dumps (VDict data)
  | _ => raise (ValueError (Some "Object must be either Stock or Trade"))
  end.

(** [key in data] *)
Definition py_contains (key : string) (data : pyval) : Exc bool :=
  match data with
  | VDict m => ok (dict_in key m)
  | VList l => ok (existsb (fun v => eq_str v key) l)
  | VStr s => ok (match String.index 0 key s with Some _ => true | None => false end)
  | _ => raise TypeError
  end.

(** What [deserialize_with_marshmallow] does to [data] before it is loaded. *)
Definition prepare (schema : Schema) (data : pyval) : Exc pyval :=
  match schema with
  | StockSchema =>
      has_open_ <- py_contains "open_" data ;;
      if has_open_ then
        match data with
        | VDict m =>
            match dict_get "open_" m with
            | Some v => ok (VDict (dict_set "open" v (dict_del "open_" m)))
            | None => raise (KeyError "open_")
            end
        | VList _ => raise TypeError
        | _ => raise AttributeError
        end
      else
        has_open <- py_contains "open" data ;;
        if has_open then ok data
        else raise (ValueError (Some "Missing required field 'open'"))
  | TradeSchema => ok data
  end.

(** The first argument of [deserialize_with_marshmallow]: a [str] holding
    a JSON document, or a mapping. *)
Inductive payload : Type :=
| Text (doc : json)
| Mapping (m : dict).

(** [data], as the call starts with it. *)
Definition payload_data (json_str : payload) : Exc pyval :=
  match json_str with
  | Text doc => loads (fun v => ok v) doc
  | Mapping m => ok (VDict m)
  end.

(** [data], as it is handed to [schema.load]. *)
Definition validated_data (json_str : payload) (schema : Schema) : Exc pyval :=
  data <- payload_data json_str ;; prepare schema data.

(** [deserialize_with_marshmallow]: the outcome of the call, and the
    argument afterwards.  A mapping is [data] itself, so what is done to
    [data] is done to the caller's mapping. *)
Definition deserialize_with_marshmallow (json_str : payload) (schema : Schema)
  : Exc pyval * payload :=
  let prepared := validated_data json_str schema in
  let result :=
    match (data <- prepared ;; Schema_load schema data) with
    | inr v => ok v
    | inl e => raise (Failed e)
    end in
  let after :=
    match json_str, prepared with
    | Mapping _, inr (VDict m') => Mapping m'
    | _, _ => json_str
    end in
  (result, after).

(* ================================================================== *)
(** * Valid records *)
(* ================================================================== *)

(** A Stock built from values of the declared types. *)
Definition mk_stock (symbol : string) (date : Date) (open_ high low close : Decimal)
    (volume : Z) : pyval :=
  Stock (VStr symbol) (VDate date) (VDecimal open_) (VDecimal high) (VDecimal low)
        (VDecimal close) (VInt volume).

(** A Trade built from values of the declared types. *)
Definition mk_trade (symbol : string) (timestamp : Datetime) (order : string)
    (price : Decimal) (volume : Z) (commission : Decimal) : pyval :=
  Trade (VStr symbol) (VDatetime timestamp) (VStr order) (VDecimal price) (VInt volume)
        (VDecimal commission).

(** The constraints the schemas put on [symbol] and [order]. *)
Definition valid_symbol (symbol : string) : Prop := String.length symbol = 4%nat.
Definition valid_order (order : string) : Prop := order = "buy" \/ order = "sell".

(** The schema of a record. *)
Definition schema_for (x : pyval) : Schema :=
  match x with
  | VTrade _ => TradeSchema
  | _ => StockSchema
  end.

(** [decode(encode(x)) == x] *)
Definition tagged_roundtrip (x : pyval) : Prop :=
  exists doc x', encode x = ok (doc, x') /\ decode doc = ok x.

(** [validate_and_decode(validate_and_encode(x)) == x] *)
Definition schema_roundtrip (x : pyval) : Prop :=
  exists doc, serialize_with_marshmallow x = ok doc
              /\ fst (deserialize_with_marshmallow (Text doc) (schema_for x)) = ok x.



(** The wrapped form of a calendar date. *)
Definition wrapped_date (iso : pyval) : pyval :=
  VDict [("datatype", VStr "date"); ("date", iso)].

(** The field's value is missing or invalid: its deserialization raises a
    validation error. *)
Definition field_invalid (f : field) (data : dict) : Prop :=
  exists msgs, deserialize_raw f (dict_get (wire_key f) data) = raise (FieldError msgs).

(** The [symbol] field both schemas declare. *)
Definition symbol_field : field := mkField "symbol" FStr None true [Length_equal 4] false.

Definition sample_stock : pyval :=
  mk_stock "TSLA" (mkDate 2023 1 5) (Finite false 10050 (-2)) (Finite false 199999999999 (-10))
           (Finite false 995 (-1)) (Finite false 101 0) 1200.


(* ================================================================== *)
(** * The documents on the wire *)
(* ================================================================== *)

(** The document the tagged encoder writes for a Stock. *)
Definition tagged_stock_doc (symbol : string) (date : Date) (open_ high low close : Decimal)
    (volume : Z) : json :=
  JObject [("symbol", JStr symbol);
           ("date", JObject [("datatype", JStr "date"); ("date", JStr (date_isoformat date))]);
           ("high", JStr (to_str high)); ("low", JStr (to_str low));
           ("close", JStr (to_str close)); ("volume", JInt volume);
           ("datatype", JStr "stock"); ("open_", JStr (to_str open_))].

(** The Stock after the tagged encoder has run on it. *)
Definition stock_after_encode (symbol : string) (date : Date) (open_ high low close : Decimal)
    (volume : Z) : pyval :=
  VStock [("symbol", VStr symbol); ("date", VDate date);
          ("high", VDecimal high); ("low", VDecimal low); ("close", VDecimal close);
          ("volume", VInt volume); ("datatype", VStr "stock"); ("open_", VDecimal open_)].

(** The document both encoders write for a Trade. *)
Definition trade_doc (symbol : string) (timestamp : Datetime) (order : string)
    (price : Decimal) (volume : Z) (commission : Decimal) : json :=
  JObject [("symbol", JStr symbol); ("timestamp", JStr (datetime_isoformat timestamp));
           ("order", JStr order); ("price", JStr (to_str price));
           ("commission", JStr (to_str commission)); ("volume", JInt volume);
           ("datatype", JStr "trade")].

(** The document the schema encoder writes for a Stock as the constructor
    leaves it: no opening price. *)
Definition schema_stock_doc (symbol : string) (date : Date) (high low close : Decimal)
    (volume : Z) : json :=
  JObject [("symbol", JStr symbol); ("date", JStr (date_isoformat date));
           ("high", JStr (to_str high)); ("low", JStr (to_str low));
           ("close", JStr (to_str close)); ("volume", JInt volume);
           ("datatype", JStr "stock")].

(** The Stock document of the wire format: the opening price under [open],
    the date as a bare ISO string. *)
Definition wire_stock_doc (symbol : string) (date : Date) (open_ high low close : Decimal)
    (volume : Z) : json :=
  JObject [("symbol", JStr symbol); ("date", JStr (date_isoformat date));
           ("open", JStr (to_str open_)); ("high", JStr (to_str high));
           ("low", JStr (to_str low)); ("close", JStr (to_str close));
           ("volume", JInt volume); ("datatype", JStr "stock")].





(* ================================================================== *)
(** * Notions of the proofs *)
(* ================================================================== *)

(** What may follow a run of digits: the end, or a character that is no
    digit. *)
Definition stops_digits (s : string) : bool :=
  match s with
  | EmptyString => true
  | String c _ => negb (is_digit c)
  end.

Definition starts_digit (s : string) : bool :=
  match s with
  | String c _ => is_digit c
  | EmptyString => false
  end.

(** Texts without blanks and underscores: [strip] and [replace("_", "")]
    leave them alone. *)
Fixpoint plain (s : string) : bool :=
  match s with
  | EmptyString => true
  | String c r => negb (is_space c) && negb (Ascii.eqb c "_") && plain r
  end.

(** The exponent part of a numeric string, and its value. *)
Definition exp_part (e : option Z) : string :=
  match e with
  | None => ""
  | Some z => "E" ++ Z_str_signed z
  end.

Definition exp_value (e : option Z) : Z :=
  match e with
  | None => 0%Z
  | Some z => z
  end.

(** A family of mappings that has [y] under the key [key], at one place,
    and is otherwise the same for every [y]. *)
Definition varies_at (key : string) (F : pyval -> dict) : Prop :=
  exists pre post,
    dict_get key pre = None /\ forall y, F y = (pre ++ (key, y) :: post)%list.

(* ================================================================== *)
(** * Notions of the further properties *)
(* ================================================================== *)


(** A document without a member named [datatype], at any depth. *)
Fixpoint untagged (j : json) : bool :=
  match j with
  | JList l => forallb untagged l
  | JObject ms =>
      negb (dict_in "datatype" ms) && forallb (fun kv => untagged (snd kv)) ms
  | _ => true
  end.

(** [isinstance(v, date)]: a [datetime] is a [date] too. *)
Definition is_date (v : pyval) : Prop :=
  (exists d, v = VDate d) \/ (exists t, v = VDatetime t).

(** What a record the schema decoder returns looks like: the constructor
    applied to values of the declared types, within the schema's
    constraints. *)
Definition schema_stock (x : pyval) : Prop :=
  exists symbol date open_ high low close volume,
    x = Stock (VStr symbol) date (VDecimal open_) (VDecimal high) (VDecimal low)
              (VDecimal close) (VInt volume)
    /\ is_date date /\ valid_symbol symbol.

Definition schema_trade (x : pyval) : Prop :=
  exists symbol timestamp order price volume commission,
    x = mk_trade symbol timestamp order price volume commission
    /\ valid_symbol symbol /\ valid_order order.

(** The mapping [json.loads] gives for a Trade document, with any values
    for [symbol], [order] and [volume]. *)
Definition trade_mapping (symbol : pyval) (timestamp : Datetime) (order : pyval)
    (price : Decimal) (volume : pyval) (commission : Decimal) : dict :=
  [("symbol", symbol); ("timestamp", VStr (datetime_isoformat timestamp));
   ("order", order); ("price", VStr (to_str price));
   ("commission", VStr (to_str commission)); ("volume", volume);
   ("datatype", VStr "trade")].

(** The members of an object and the items of a list, decoded with a
    hook: the inner loops of [loads]. *)
Definition loads_members (hook : pyval -> Exc pyval) :=
  fix go (ms : list (string * json)) : Exc (list (string * pyval)) :=
    match ms with
    | [] => ok []
    | (k, x) :: r => v <- loads hook x ;; ps <- go r ;; ok ((k, v) :: ps)
    end.

Definition loads_items (hook : pyval -> Exc pyval) :=
  fix go (l : list json) : Exc (list pyval) :=
    match l with
    | [] => ok []
    | x :: r => v <- loads hook x ;; vs <- go r ;; ok (v :: vs)
    end.

(** The field is written by [Schema.dump]: it is a constant, or the object
    has its attribute. *)
Definition emitted (f : field) (obj : pyval) : bool :=
  match ftype f with
  | FConstant _ => true
  | _ => match get_value obj (attr_name f) with Some _ => true | None => false end
  end.

(** The tag a schema writes. *)
Definition schema_tag (schema : Schema) : string :=
  match schema with
  | StockSchema => "stock"
  | TradeSchema => "trade"
  end.

(* ================================================================== *)
(** * Evaluations *)
(* ================================================================== *)

Example dec_str_1 :
  PyDecimal.to_str (PyDecimal.Finite false 199999999999 (-10)) = "19.9999999999".
Proof. reflexivity. Qed.

Example dec_str_2 :
  PyDecimal.to_str (PyDecimal.Finite true 5 (-9)) = "-5E-9"
  /\ PyDecimal.to_str (PyDecimal.Finite false 12 3) = "1.2E+4"
  /\ PyDecimal.to_str (PyDecimal.Finite false 0 (-2)) = "0.00"
  /\ PyDecimal.to_str (PyDecimal.Finite false 123 (-5)) = "0.00123".
Proof. repeat split; reflexivity. Qed.

Example dec_parse_1 :
  PyDecimal.of_str "19.9999999999" = Some (PyDecimal.Finite false 199999999999 (-10))
  /\ PyDecimal.of_str " 1_000.5e-3 " = Some (PyDecimal.Finite false 10005 (-4))
  /\ PyDecimal.of_str "-sNaN12" = Some (PyDecimal.NaN true true 12)
  /\ PyDecimal.of_str "." = None
  /\ PyDecimal.of_str "1.e" = None
  /\ PyDecimal.of_str ".5" = Some (PyDecimal.Finite false 5 (-1)).
Proof. repeat split; reflexivity. Qed.

Example iso_1 :
  PyDatetime.date_isoformat (PyDatetime.mkDate 2023 1 5) = "2023-01-05"
  /\ PyDatetime.date_fromisoformat "2023-01-05" = Some (PyDatetime.mkDate 2023 1 5)
  /\ PyDatetime.date_fromisoformat "2023-02-29" = None
  /\ PyDatetime.date_fromisoformat "2024-02-29" = Some (PyDatetime.mkDate 2024 2 29).
Proof. repeat split; reflexivity. Qed.

Example iso_2 :
  let t := PyDatetime.mkDatetime (PyDatetime.mkDate 2023 1 5) 9 30 0 250 (Some (-330)%Z) in
  PyDatetime.datetime_isoformat t = "2023-01-05T09:30:00.000250-05:30"
  /\ PyDatetime.datetime_fromisoformat "2023-01-05T09:30:00.000250-05:30" = Some t
  /\ PyDatetime.datetime_fromisoformat "2023-01-05T09:30" =
       Some (PyDatetime.mkDatetime (PyDatetime.mkDate 2023 1 5) 9 30 0 0 None).
Proof. repeat split; reflexivity. Qed.

Example float_repr_1 : float_repr (float_nearest false 1 (-1)) = "0.1".
Proof. vm_compute. reflexivity. Qed.

Example float_repr_2 : float_repr (float_nearest false 1 22) = "1e+22".
Proof. vm_compute. reflexivity. Qed.

Example float_repr_3 : float_repr (float_nearest true 5 (-324)) = "-5e-324".
Proof. vm_compute. reflexivity. Qed.

Example float_repr_4 :
  float_repr (float_nearest false 123456789012345678 0) = "1.2345678901234568e+17".
Proof. vm_compute. reflexivity. Qed.

Example float_repr_5 : float_repr (float_nearest false 1 400) = "inf".
Proof. vm_compute. reflexivity. Qed.

Example float_bits_1 : bits (float_nearest false 1 0) = 4607182418800017408%N.
Proof. vm_compute. reflexivity. Qed.

Example float_trunc_1 : float_trunc (float_nearest true 19999 (-3)) = (-19)%Z.
Proof. vm_compute. reflexivity. Qed.

Example int_of_str_1 :
  int_of_str " 1_000 " = Some 1000%Z /\ int_of_str (String (ascii_of_nat 28) "5") = None.
Proof. split; vm_compute; reflexivity. Qed.

Example repr_raises_1 :
  repr_raises (VInt (10 ^ 4300 - 1)) = false
  /\ repr_raises (VList [VStr "a"; VDict [("k", VInt (- 10 ^ 4300))]]) = true.
Proof. split; vm_compute; reflexivity. Qed.

(* ================================================================== *)
(** * The text of the library values *)
(* ================================================================== *)

(** ** Digits *)

Lemma digits_acc_app (a b : string) (acc : N) :
  digits_acc (a ++ b) acc = digits_acc b (digits_acc a acc).
Proof. revert acc; induction a as [|c a IH]; intros acc; simpl; auto. Qed.

Ltac eval_digit :=
  repeat match goal with
         | |- context [digit_value ?c] =>
             let v := eval vm_compute in (digit_value c) in
             change (digit_value c) with v
         end.

Lemma digits_acc_uint_pos (u : Decimal.uint) (acc : positive) :
  digits_acc (NilEmpty.string_of_uint u) (Npos acc) = Npos (Pos.of_uint_acc u acc).
Proof.
  revert acc; induction u as [|u IH|u IH|u IH|u IH|u IH|u IH|u IH|u IH|u IH|u IH];
    intros acc; cbn [NilEmpty.string_of_uint digits_acc Pos.of_uint_acc];
    try reflexivity; rewrite <- IH; f_equal; eval_digit; lia.
Qed.

Lemma digits_uint (u : Decimal.uint) :
  digits_acc (NilEmpty.string_of_uint u) 0 = Pos.of_uint u.
Proof.
  induction u as [|u IH|u IH|u IH|u IH|u IH|u IH|u IH|u IH|u IH|u IH];
    cbn [NilEmpty.string_of_uint digits_acc Pos.of_uint];
    try reflexivity; eval_digit; try exact IH;
    match goal with
    | |- digits_acc _ ?a = _ =>
        let v := eval vm_compute in a in change a with v
    end; apply digits_acc_uint_pos.
Qed.

Lemma N_str_value (n : N) : digits_to_N (N_str n) = n.
Proof.
  unfold digits_to_N, N_str. rewrite digits_uint. apply DecimalN.Unsigned.of_to.
Qed.

Lemma all_digits_uint (u : Decimal.uint) : all_digits (NilEmpty.string_of_uint u) = true.
Proof. induction u; simpl; auto. Qed.

Lemma N_str_digits (n : N) : all_digits (N_str n) = true.
Proof. apply all_digits_uint. Qed.

Lemma N_str_cons (n : N) : exists c r, N_str n = String c r.
Proof.
  unfold N_str. destruct n as [|p]; simpl.
  - eexists; eexists; reflexivity.
  - pose proof (DecimalPos.Unsigned.to_uint_nonnil p) as H.
    destruct (Pos.to_uint p); try congruence; simpl; eexists; eexists; reflexivity.
Qed.

(** ** Strings of digits *)

Lemma digit_plain (c : ascii) :
  is_digit c = true ->
  is_space c = false /\ Ascii.eqb c "_" = false /\ lower c = c
  /\ Ascii.eqb c "." = false /\ Ascii.eqb c "-" = false /\ Ascii.eqb c "+" = false.
Proof.
  destruct c as [[] [] [] [] [] [] [] []]; vm_compute; intuition congruence.
Qed.

Lemma length_app (a b : string) :
  String.length (a ++ b) = (String.length a + String.length b)%nat.
Proof. induction a; simpl; auto. Qed.

Lemma app_assoc_s (a b c : string) : (a ++ b) ++ c = a ++ b ++ c.
Proof. induction a; simpl; congruence. Qed.

Lemma app_empty_r (a : string) : a ++ "" = a.
Proof. induction a; simpl; congruence. Qed.

Lemma take_drop (n : nat) (s : string) : take n s ++ drop n s = s.
Proof. revert s; induction n; destruct s; simpl; auto; now rewrite IHn. Qed.

Lemma length_take (n : nat) (s : string) :
  (n <= String.length s)%nat -> String.length (take n s) = n.
Proof. revert s; induction n; destruct s; simpl; intros; auto; try lia. rewrite IHn; lia. Qed.

Lemma length_drop (n : nat) (s : string) :
  String.length (drop n s) = (String.length s - n)%nat.
Proof. revert s; induction n; destruct s; simpl; auto. Qed.

Lemma length_repeat (c : ascii) (n : nat) : String.length (repeat_char c n) = n.
Proof. induction n; simpl; auto. Qed.

Lemma all_digits_app (a b : string) :
  all_digits (a ++ b) = all_digits a && all_digits b.
Proof. induction a; simpl; auto. rewrite IHa. now rewrite andb_assoc. Qed.

Lemma all_digits_take (n : nat) (s : string) : all_digits s = true -> all_digits (take n s) = true.
Proof.
  revert s; induction n; destruct s; simpl; auto.
  intros H; apply andb_prop in H as [-> H]; simpl; auto.
Qed.

Lemma all_digits_drop (n : nat) (s : string) : all_digits s = true -> all_digits (drop n s) = true.
Proof.
  revert s; induction n; destruct s; simpl; auto.
  intros H; apply andb_prop in H as [_ H]; auto.
Qed.

Lemma all_digits_zeros (n : nat) : all_digits (repeat_char "0" n) = true.
Proof. induction n; simpl; auto. Qed.

Lemma span_digits_app (d rest : string) :
  all_digits d = true -> stops_digits rest = true ->
  span_digits (d ++ rest) = (d, rest).
Proof.
  intros Hd Hr; induction d as [|c d IH]; simpl.
  - destruct rest as [|c r]; simpl in *; auto.
    destruct (is_digit c); simpl in *; congruence.
  - simpl in Hd; apply andb_prop in Hd as [Hc Hd]. rewrite Hc, (IH Hd). reflexivity.
Qed.

Lemma plain_app (a b : string) : plain (a ++ b) = plain a && plain b.
Proof. induction a; simpl; auto. rewrite IHa. now rewrite !andb_assoc. Qed.

Lemma plain_digits (s : string) : all_digits s = true -> plain s = true.
Proof.
  induction s as [|c s IH]; simpl; auto.
  intros H; apply andb_prop in H as [Hc Hs].
  destruct (digit_plain c Hc) as (-> & -> & _). simpl; auto.
Qed.

Lemma lstrip_plain (s : string) : plain s = true -> lstrip s = s.
Proof.
  destruct s as [|c s]; simpl; auto.
  intros H; apply andb_prop in H as [H _]; apply andb_prop in H as [H _].
  destruct (is_space c); simpl in *; congruence.
Qed.

Lemma rstrip_plain (s : string) : plain s = true -> rstrip s = s.
Proof.
  induction s as [|c s IH]; simpl; auto.
  intros H; apply andb_prop in H as [H Hs]; apply andb_prop in H as [H _].
  rewrite (IH Hs). destruct s; auto.
  destruct (is_space c); simpl in *; congruence.
Qed.

Lemma strip_plain (s : string) : plain s = true -> strip s = s.
Proof. intros H; unfold strip; rewrite lstrip_plain by auto; now apply rstrip_plain. Qed.

Lemma remove_underscore_plain (s : string) : plain s = true -> remove_char "_" s = s.
Proof.
  induction s as [|c s IH]; simpl; auto.
  intros H; apply andb_prop in H as [H Hs]; apply andb_prop in H as [_ H].
  destruct (Ascii.eqb c "_"); simpl in *; try congruence. now rewrite IH.
Qed.

Lemma lower_digits (s : string) : all_digits s = true -> lower_str s = s.
Proof.
  induction s as [|c s IH]; simpl; auto.
  intros H; apply andb_prop in H as [Hc Hs].
  destruct (digit_plain c Hc) as (_ & _ & -> & _). now rewrite IH.
Qed.

Lemma signed_digits_str (z : Z) : signed_digits (Z_str_signed z) = Some z.
Proof.
  unfold Z_str_signed, signed_digits.
  destruct (N_str_cons (Z.abs_N z)) as (c & r & E).
  pose proof (N_str_digits (Z.abs_N z)) as D.
  pose proof (N_str_value (Z.abs_N z)) as V.
  destruct (Z.ltb_spec z 0); simpl; rewrite E in *; rewrite D, V; f_equal; lia.
Qed.

(** ** Decimal: parsing what [__str__] writes *)

Lemma exp_part_stops (e : option Z) : stops_digits (exp_part e) = true.
Proof. destruct e; reflexivity. Qed.

Lemma plain_exp_part (e : option Z) : plain (exp_part e) = true.
Proof.
  destruct e as [z|]; simpl; auto. unfold Z_str_signed.
  destruct (z <? 0)%Z; simpl; apply plain_digits, N_str_digits.
Qed.

Lemma parse_exp_part (e : option Z) :
  match exp_part e with
  | EmptyString => Some 0%Z
  | String c r3 => if Ascii.eqb (lower c) "e" then signed_digits r3 else None
  end = Some (exp_value e).
Proof. destruct e as [z|]; simpl; auto. apply signed_digits_str. Qed.

Lemma exp_part_not_dot (e : option Z) (A : Type) (f : string -> A) (a : A) :
  match exp_part e with
  | String "." r' => f r'
  | _ => a
  end = a.
Proof. destruct e; reflexivity. Qed.

Lemma parse_number_frac (sign : bool) (ip fp : string) (e : option Z) :
  all_digits ip = true -> all_digits fp = true ->
  (String.length ip + String.length fp <> 0)%nat ->
  parse_number sign (ip ++ "." ++ fp ++ exp_part e) =
  Some (Finite sign (digits_to_N (ip ++ fp)) (exp_value e - Z.of_nat (String.length fp))).
Proof.
  intros Hi Hf Hn. unfold parse_number.
  rewrite (span_digits_app ip) by (auto; reflexivity).
  cbn [append]. cbv iota beta.
  rewrite (span_digits_app fp) by (auto using exp_part_stops).
  rewrite parse_exp_part.
  destruct ip, fp; simpl in *; try reflexivity; congruence.
Qed.

Lemma parse_number_int (sign : bool) (ip : string) (e : option Z) :
  all_digits ip = true -> ip <> "" ->
  parse_number sign (ip ++ exp_part e) =
  Some (Finite sign (digits_to_N ip) (exp_value e)).
Proof.
  intros Hi Hn. unfold parse_number.
  rewrite (span_digits_app ip) by (auto using exp_part_stops).
  rewrite exp_part_not_dot, parse_exp_part.
  destruct ip; try congruence. simpl. rewrite app_empty_r.
  f_equal. f_equal. lia.
Qed.

Lemma of_str_signed (s : bool) (body : string) (d : Decimal) :
  plain body = true -> starts_digit body = true ->
  parse_number s body = Some d ->
  of_str (sign_str s ++ body) = Some d.
Proof.
  intros Hp Hs Hd. unfold of_str.
  assert (Hpl : plain (sign_str s ++ body) = true).
  { rewrite plain_app, Hp. now destruct s. }
  rewrite strip_plain, remove_underscore_plain by (auto; now rewrite strip_plain).
  destruct s; simpl.
  - now rewrite Hd.
  - destruct body as [|c r]; simpl in Hs; try discriminate.
    destruct (digit_plain c Hs) as (_ & _ & _ & _ & Hm & Hpl').
    assert (E : match String c r with
                | String "-" r0 => (true, r0)
                | String "+" r0 => (false, r0)
                | _ => (false, String c r)
                end = (false, String c r)).
    { destruct c as [[] [] [] [] [] [] [] []]; try reflexivity; discriminate. }
    rewrite E, Hd. reflexivity.
Qed.

Lemma digits_to_N_zeros_app (k : nat) (s : string) :
  digits_to_N (repeat_char "0" k ++ s) = digits_to_N s.
Proof.
  unfold digits_to_N. rewrite digits_acc_app. f_equal.
  induction k; simpl; auto.
Qed.

Lemma starts_digit_take (n : nat) (s : string) :
  (0 < n)%nat -> all_digits s = true -> s <> "" -> starts_digit (take n s ++ drop n s) = true.
Proof.
  intros Hn Hd Hs. rewrite take_drop. destruct s; try congruence.
  simpl in *. now apply andb_prop in Hd as [-> _].
Qed.

Lemma of_str_to_str_finite (s : bool) (c : N) (e : Z) :
  of_str (to_str (Finite s c e)) = Some (Finite s c e).
Proof.
  unfold to_str.
  pose proof (N_str_digits c) as HD.
  pose proof (N_str_value c) as HV.
  destruct (N_str_cons c) as (c0 & r0 & HC).
  set (D := N_str c) in *. clearbody D.
  assert (Hlen : (1 <= String.length D)%nat) by (rewrite HC; simpl; lia).
  assert (HDne : D <> "") by (rewrite HC; discriminate).
  set (len := Z.of_nat (String.length D)).
  set (ld := (e + len)%Z).
  set (dp := if (e <=? 0)%Z && (-6 <? ld)%Z then ld else 1%Z).
  set (E := if (ld =? dp)%Z then None else Some (ld - dp)%Z).
  replace (if (ld =? dp)%Z then "" else "E" ++ Z_str_signed (ld - dp)) with (exp_part E)
    by (subst E; destruct (ld =? dp)%Z; reflexivity).
  assert (HE : exp_value E = (ld - dp)%Z).
  { subst E. destruct (Z.eqb_spec ld dp); simpl; lia. }
  assert (Hdp : (dp = ld /\ (e <= 0)%Z) \/ (dp = 1%Z /\ ((0 < e)%Z \/ (ld <= -6)%Z))).
  { subst dp. destruct (Z.leb_spec e 0), (Z.ltb_spec (-6) ld); simpl; auto; right; lia. }
  clearbody E dp.
  destruct (Z.leb_spec dp 0) as [Hle|Hgt].
  - (* 0.000ddd *)
    set (k := Z.to_nat (- dp)).
    apply of_str_signed.
    + simpl. rewrite !plain_app, plain_exp_part.
      rewrite (plain_digits _ (all_digits_zeros k)), (plain_digits _ HD). reflexivity.
    + reflexivity.
    + change ("0" ++ ("." ++ repeat_char "0" k ++ D) ++ exp_part E)
        with ("0" ++ "." ++ (repeat_char "0" k ++ D) ++ exp_part E).
      rewrite parse_number_frac.
      * f_equal. f_equal.
        -- change ("0" ++ repeat_char "0" k ++ D) with (repeat_char "0" (S k) ++ D).
           now rewrite digits_to_N_zeros_app.
        -- rewrite length_app, length_repeat. subst k ld len. rewrite HE. lia.
      * reflexivity.
      * rewrite all_digits_app, all_digits_zeros. auto.
      * simpl; lia.
  - destruct (Z.leb_spec len dp) as [Hge|Hlt].
    + (* ddd or dE+n *)
      assert (Hk : Z.to_nat (dp - len) = 0%nat) by (subst ld len; lia).
      rewrite Hk. simpl repeat_char. rewrite !app_empty_r. simpl.
      apply of_str_signed.
      * rewrite plain_app, plain_exp_part, (plain_digits _ HD). reflexivity.
      * rewrite HC. simpl. rewrite HC in HD. simpl in HD.
        now apply andb_prop in HD as [-> _].
      * rewrite parse_number_int by auto.
        f_equal. f_equal; auto. subst ld len. lia.
    + (* d.ddd or d.dddE+n *)
      set (k := Z.to_nat dp).
      assert (Hkl : (k <= String.length D)%nat) by (subst k len; lia).
      apply of_str_signed.
      * rewrite !plain_app, plain_exp_part.
        rewrite (plain_digits _ (all_digits_take k D HD)).
        rewrite (plain_digits _ (all_digits_drop k D HD)). reflexivity.
      * assert (Hk0 : (0 < k)%nat) by (subst k; lia).
        destruct k; try lia. rewrite HC. simpl.
        rewrite HC in HD. simpl in HD. now apply andb_prop in HD as [-> _].
      * change (take k D ++ ("." ++ drop k D) ++ exp_part E)
          with (take k D ++ "." ++ drop k D ++ exp_part E).
        rewrite parse_number_frac.
        -- rewrite take_drop, HV. f_equal. f_equal.
           rewrite length_drop. subst k ld len. lia.
        -- now apply all_digits_take.
        -- now apply all_digits_drop.
        -- rewrite length_take by auto. subst k. lia.
Qed.

Lemma of_str_to_str (d : Decimal) : of_str (to_str d) = Some d.
Proof.
  destruct d as [s c e|s|s sig p].
  - apply of_str_to_str_finite.
  - destruct s; reflexivity.
  - assert (H : plain (payload_str p) = true /\ all_digits (payload_str p) = true
                /\ digits_to_N (payload_str p) = p).
    { unfold payload_str. destruct (N.eqb_spec p 0) as [->|_].
      - repeat split.
      - repeat split; auto using N_str_digits, N_str_value, plain_digits. }
    destruct H as (Hp & Hd & Hv).
    unfold of_str.
    assert (Hpl : plain (to_str (NaN s sig p)) = true).
    { destruct s, sig; simpl; exact Hp. }
    rewrite strip_plain, remove_underscore_plain by (auto; now rewrite strip_plain).
    destruct s, sig; simpl; unfold parse_special; simpl;
      rewrite (lower_digits _ Hd), Hd, Hv; reflexivity.
Qed.

(** ** Fields of fixed width *)

Lemma pos_to_uint_head (p : positive) : forall u, Pos.to_uint p <> Decimal.D0 u.
Proof.
  intros u E.
  pose proof (DecimalPos.Unsigned.to_of (Pos.to_uint p)) as H.
  rewrite DecimalPos.Unsigned.of_to in H. simpl in H.
  pose proof (DecimalPos.Unsigned.to_uint_nonzero p) as Hz.
  unfold Decimal.unorm in H.
  destruct (Decimal.nzhead (Pos.to_uint p)) eqn:Hn;
    try (rewrite E in H; discriminate H).
  - apply Hz. exact H.
  - eapply DecimalFacts.nzhead_nonzero. rewrite Hn, <- H. exact E.
Qed.

Lemma digits_acc_lower (s : string) (acc : N) :
  (acc * 10 ^ N.of_nat (String.length s) <= digits_acc s acc)%N.
Proof.
  revert acc; induction s as [|c s IH]; intros acc.
  - simpl. lia.
  - cbn [digits_acc String.length]. etransitivity; [|apply IH].
    rewrite Nat2N.inj_succ, N.pow_succ_r'. nia.
Qed.

Lemma N_str_length (n : N) (w : nat) :
  (0 < w)%nat -> (n < 10 ^ N.of_nat w)%N -> (String.length (N_str n) <= w)%nat.
Proof.
  intros Hw Hn. destruct n as [|p]; [simpl; lia|].
  pose proof (N_str_value (Npos p)) as HV.
  unfold N_str in *. simpl N.to_uint in *.
  pose proof (pos_to_uint_head p) as Hh.
  pose proof (DecimalPos.Unsigned.to_uint_nonnil p) as Hnil.
  assert (Hlow : (10 ^ N.of_nat (String.length (NilEmpty.string_of_uint (Pos.to_uint p)) - 1)
                  <= Npos p)%N).
  { etransitivity; [|rewrite <- HV; apply N.le_refl]. unfold digits_to_N.
    destruct (Pos.to_uint p) as [|u|u|u|u|u|u|u|u|u|u]; try congruence;
      try (exfalso; eapply Hh; reflexivity);
      cbn [NilEmpty.string_of_uint digits_acc String.length]; eval_digit;
      rewrite Nat.sub_succ, Nat.sub_0_r;
      (etransitivity; [|apply digits_acc_lower]); nia. }
  assert (Hlt : (10 ^ N.of_nat (String.length (NilEmpty.string_of_uint (Pos.to_uint p)) - 1)
                 < 10 ^ N.of_nat w)%N) by lia.
  apply N.pow_lt_mono_r_iff in Hlt; lia.
Qed.

Lemma zfill_length (w : nat) (n : N) :
  (0 < w)%nat -> (n < 10 ^ N.of_nat w)%N -> String.length (zfill w n) = w.
Proof.
  intros Hw Hn. unfold zfill. rewrite length_app, length_repeat.
  pose proof (N_str_length n w Hw Hn). lia.
Qed.

Lemma zfill_digits (w : nat) (n : N) : all_digits (zfill w n) = true.
Proof. unfold zfill. now rewrite all_digits_app, all_digits_zeros, N_str_digits. Qed.

Lemma zfill_value (w : nat) (n : N) : digits_to_N (zfill w n) = n.
Proof. unfold zfill. now rewrite digits_to_N_zeros_app, N_str_value. Qed.

Lemma fixed_field_zfill (w : nat) (n : N) :
  (0 < w)%nat -> (n < 10 ^ N.of_nat w)%N -> fixed_field w (zfill w n) = Some n.
Proof.
  intros Hw Hn. unfold fixed_field.
  now rewrite zfill_length, Nat.eqb_refl, zfill_digits, zfill_value.
Qed.

(** ** ISO dates and timestamps *)

Lemma length_S_inv (s : string) (n : nat) :
  String.length s = S n -> exists c r, s = String c r /\ String.length r = n.
Proof. destruct s; simpl; intros H; try discriminate. injection H; eauto. Qed.

Lemma length_0_inv (s : string) : String.length s = 0%nat -> s = "".
Proof. destruct s; simpl; intros H; try discriminate; auto. Qed.

(** Replaces a string of known length by its characters. *)
Ltac explode H :=
  match type of H with
  | String.length ?s = S _ =>
      let c := fresh "c" in
      let r := fresh "r" in
      let H' := fresh "H" in
      destruct (length_S_inv _ _ H) as (c & r & -> & H'); clear H; explode H'
  | String.length ?s = O => apply length_0_inv in H; subst s
  end.

Lemma date_parse_shape (Y M D : string) (y m d : N) :
  String.length Y = 4%nat -> String.length M = 2%nat -> String.length D = 2%nat ->
  fixed_field 4 Y = Some y -> fixed_field 2 M = Some m -> fixed_field 2 D = Some d ->
  valid_date (mkDate y m d) = true ->
  date_fromisoformat (Y ++ "-" ++ M ++ "-" ++ D) = Some (mkDate y m d).
Proof.
  intros LY LM LD HY HM HD HV.
  explode LY. explode LM. explode LD.
  unfold date_fromisoformat.
  cbn [append String.length Nat.eqb take drop].
  rewrite HY, HM, HD, HV. reflexivity.
Qed.

Lemma valid_date_bounds (d : Date) :
  valid_date d = true ->
  (year d < 10 ^ N.of_nat 4 /\ month d < 10 ^ N.of_nat 2 /\ day d < 10 ^ N.of_nat 2)%N.
Proof.
  unfold valid_date. intros H.
  repeat (apply andb_prop in H as [H ?]).
  assert (days_in_month (year d) (month d) <= 31)%N.
  { unfold days_in_month.
    repeat match goal with
           | |- context [match ?x with _ => _ end] => destruct x
           end; lia. }
  change (10 ^ N.of_nat 4)%N with 10000%N. change (10 ^ N.of_nat 2)%N with 100%N.
  repeat match goal with
         | H : (_ <=? _)%N = true |- _ => apply N.leb_le in H
         end.
  lia.
Qed.

Lemma date_roundtrip (d : Date) :
  valid_date d = true -> date_fromisoformat (date_isoformat d) = Some d.
Proof.
  intros HV. destruct (valid_date_bounds d HV) as (By & Bm & Bd).
  destruct d as [y m dd]. simpl in *.
  unfold date_isoformat. cbn [year month day].
  apply date_parse_shape; auto using zfill_length, fixed_field_zfill with arith.
Qed.

Lemma take_app_len (n : nat) (a b : string) :
  String.length a = n -> take n (a ++ b) = a.
Proof.
  revert a; induction n; intros [|c a] H; simpl in *; try discriminate.
  - destruct b; reflexivity.
  - injection H as H. now rewrite IHn.
Qed.

Lemma drop_app_len (n : nat) (a b : string) :
  String.length a = n -> drop n (a ++ b) = b.
Proof.
  revert a; induction n; intros [|c a] H; simpl in *; try discriminate.
  - destruct b; reflexivity.
  - injection H as H. now apply IHn.
Qed.

Lemma drop_app_len_S (n : nat) (a b : string) (c : ascii) :
  String.length a = n -> drop (S n) (a ++ String c b) = b.
Proof. revert a; induction n; intros [|x a] H; simpl in *; try discriminate; auto. Qed.

Lemma find_none_app (x : ascii) (a b : string) :
  find_char x a = None -> find_char x b = None -> find_char x (a ++ b) = None.
Proof.
  induction a as [|c a IH]; simpl; auto.
  destruct (Ascii.eqb c x); try discriminate.
  destruct (find_char x a); try discriminate. intros _ Hb. now rewrite IH.
Qed.

Lemma find_hit_app (x : ascii) (a b : string) :
  find_char x a = None -> find_char x (a ++ String x b) = Some (String.length a).
Proof.
  induction a as [|c a IH]; simpl.
  - now rewrite Ascii.eqb_refl.
  - destruct (Ascii.eqb c x); try discriminate.
    destruct (find_char x a); try discriminate. intros _. now rewrite IH.
Qed.

Lemma find_none_digits (x : ascii) (s : string) :
  is_digit x = false -> all_digits s = true -> find_char x s = None.
Proof.
  intros Hx. induction s as [|c s IH]; simpl; auto.
  intros H; apply andb_prop in H as [Hc Hs].
  destruct (Ascii.eqb_spec c x) as [->|_]; try congruence. now rewrite IH.
Qed.

Lemma time_parse_8 (HH MM SS : string) (h m s : N) :
  String.length HH = 2%nat -> String.length MM = 2%nat -> String.length SS = 2%nat ->
  fixed_field 2 HH = Some h -> fixed_field 2 MM = Some m -> fixed_field 2 SS = Some s ->
  parse_hh_mm_ss_ff (HH ++ ":" ++ MM ++ ":" ++ SS) = Some (h, m, s, 0%N).
Proof.
  intros L1 L2 L3 H1 H2 H3. explode L1. explode L2. explode L3.
  unfold parse_hh_mm_ss_ff. cbn [append String.length take drop].
  rewrite H1, H2, H3. reflexivity.
Qed.

Lemma time_parse_15 (HH MM SS FF : string) (h m s f : N) :
  String.length HH = 2%nat -> String.length MM = 2%nat -> String.length SS = 2%nat ->
  String.length FF = 6%nat ->
  fixed_field 2 HH = Some h -> fixed_field 2 MM = Some m -> fixed_field 2 SS = Some s ->
  fixed_field 6 FF = Some f ->
  parse_hh_mm_ss_ff (HH ++ ":" ++ MM ++ ":" ++ SS ++ "." ++ FF) = Some (h, m, s, f).
Proof.
  intros L1 L2 L3 L4 H1 H2 H3 H4. explode L1. explode L2. explode L3. explode L4.
  unfold parse_hh_mm_ss_ff. cbn [append String.length take drop].
  rewrite H1, H2, H3, H4. reflexivity.
Qed.

Lemma offset_parse (neg : bool) (OH OM : string) (h m : N) :
  String.length OH = 2%nat -> String.length OM = 2%nat ->
  fixed_field 2 OH = Some h -> fixed_field 2 OM = Some m ->
  (h < 24)%N -> (m < 60)%N ->
  parse_offset neg (OH ++ ":" ++ OM) =
  Some (if neg then (- Z.of_N (h * 60 + m))%Z else Z.of_N (h * 60 + m)).
Proof.
  intros L1 L2 H1 H2 Bh Bm. explode L1. explode L2.
  unfold parse_offset. cbn [append String.length take drop Nat.eqb].
  rewrite H1, H2.
  apply N.ltb_lt in Bh, Bm. rewrite Bh, Bm. reflexivity.
Qed.

Lemma time_str_absent (x : ascii) (t : Datetime) :
  is_digit x = false -> Ascii.eqb ":" x = false -> Ascii.eqb "." x = false ->
  find_char x (time_str t) = None.
Proof.
  intros Hd Hc Hp. unfold time_str.
  assert (Hcolon : find_char x ":" = None) by (cbn [find_char]; now rewrite Hc).
  assert (Hdot : find_char x "." = None) by (cbn [find_char]; now rewrite Hp).
  repeat (apply find_none_app; auto using find_none_digits, zfill_digits).
  destruct (microsecond t =? 0)%N; auto.
  apply find_none_app; auto using find_none_digits, zfill_digits.
Qed.

Lemma time_str_parse (t : Datetime) :
  (hour t < 24)%N -> (minute t < 60)%N -> (second t < 60)%N -> (microsecond t < 1000000)%N ->
  parse_hh_mm_ss_ff (time_str t) = Some (hour t, minute t, second t, microsecond t).
Proof.
  intros Bh Bm Bs Bu. unfold time_str.
  assert (B2 : forall n, (n < 60)%N -> (n < 10 ^ N.of_nat 2)%N)
    by (intros; change (10 ^ N.of_nat 2)%N with 100%N; lia).
  assert (B6 : (microsecond t < 10 ^ N.of_nat 6)%N)
    by (change (10 ^ N.of_nat 6)%N with 1000000%N; lia).
  destruct (N.eqb_spec (microsecond t) 0) as [E|E].
  - rewrite E, app_empty_r.
    apply time_parse_8; auto using zfill_length, fixed_field_zfill with arith;
      apply fixed_field_zfill || apply zfill_length; auto with arith; apply B2; lia.
  - apply time_parse_15; auto using zfill_length, fixed_field_zfill with arith;
      apply fixed_field_zfill || apply zfill_length; auto with arith; apply B2; lia.
Qed.

Lemma date_isoformat_length (d : Date) :
  valid_date d = true -> String.length (date_isoformat d) = 10%nat.
Proof.
  intros HV. destruct (valid_date_bounds d HV) as (By & Bm & Bd).
  unfold date_isoformat. rewrite !length_app.
  rewrite !zfill_length by auto with arith. reflexivity.
Qed.

Lemma time_str_length (t : Datetime) : (1 <= String.length (time_str t))%nat.
Proof.
  unfold time_str. rewrite !length_app. simpl. lia.
Qed.

Lemma offset_roundtrip (off : Z) (neg : bool) :
  valid_offset off = true -> neg = (off <? 0)%Z ->
  parse_offset neg (zfill 2 (Z.abs_N off / 60) ++ ":" ++ zfill 2 (Z.abs_N off mod 60))
  = Some off.
Proof.
  intros HV ->. unfold valid_offset in HV.
  apply andb_prop in HV as [H1 H2]. apply Z.ltb_lt in H1, H2.
  set (a := Z.abs_N off).
  assert (Ha : (a < 1440)%N) by (subst a; lia).
  assert (Hq : (a / 60 < 24)%N) by (apply N.Div0.div_lt_upper_bound; lia).
  assert (Hr : (a mod 60 < 60)%N) by (apply N.mod_lt; lia).
  rewrite offset_parse with (h := (a / 60)%N) (m := (a mod 60)%N); auto;
    try (apply zfill_length; auto with arith; change (10 ^ N.of_nat 2)%N with 100%N; lia);
    try (apply fixed_field_zfill; auto with arith; change (10 ^ N.of_nat 2)%N with 100%N; lia).
  f_equal.
  assert (E : (a / 60 * 60 + a mod 60 = a)%N).
  { rewrite N.mul_comm. symmetry. apply N.div_mod. lia. }
  rewrite E. subst a. destruct (Z.ltb_spec off 0); lia.
Qed.

Lemma datetime_roundtrip (t : Datetime) :
  valid_datetime t = true -> datetime_fromisoformat (datetime_isoformat t) = Some t.
Proof.
  unfold valid_datetime. intros HV.
  apply andb_prop in HV as [HV Htz]. apply andb_prop in HV as [Hd HV].
  repeat (apply andb_prop in HV as [HV ?]).
  repeat match goal with
         | H : (_ <? _)%N = true |- _ => apply N.ltb_lt in H
         end.
  pose proof (time_str_parse t ltac:(auto) ltac:(auto) ltac:(auto) ltac:(auto)) as HT.
  pose proof (time_str_absent "-" t eq_refl eq_refl eq_refl) as Hminus.
  pose proof (time_str_absent "+" t eq_refl eq_refl eq_refl) as Hplus.
  pose proof (time_str_length t) as HL.
  pose proof (date_isoformat_length _ Hd) as HDL.
  unfold datetime_isoformat, datetime_format, datetime_fromisoformat.
  rewrite (take_app_len 10) by auto.
  rewrite (date_roundtrip _ Hd).
  rewrite !length_app, HDL.
  replace (Nat.eqb _ 10) with false by (symmetry; apply Nat.eqb_neq; simpl; lia).
  replace (Nat.eqb _ 11) with false by (symmetry; apply Nat.eqb_neq; simpl; lia).
  change ("T" ++ time_str t ++ offset_str (tzoffset t))
    with (String "T" (time_str t ++ offset_str (tzoffset t))).
  rewrite (drop_app_len_S 10) by auto.
  destruct t as [d h m s us tz]; cbn [tzoffset hour minute second microsecond dt_date] in *.
  destruct tz as [off|]; cbn [offset_str].
  - destruct (Z.ltb_spec off 0) as [Hneg|Hpos].
    + change ("-" ++ ?x) with (String "-" x).
      cbn [append]. rewrite (find_hit_app "-") by auto.
      rewrite take_app_len, drop_app_len_S by auto.
      rewrite HT, offset_roundtrip by (auto; symmetry; now apply Z.ltb_lt).
      repeat match goal with
             | H : (_ < _)%N |- _ => apply N.ltb_lt in H; rewrite H
             end. reflexivity.
    + cbn [append].
      assert (Hz2 : forall n, find_char "-" (zfill 2 n) = None)
        by (intros; apply find_none_digits; auto using zfill_digits).
      rewrite (find_none_app "-"); auto.
      * rewrite (find_hit_app "+") by auto.
        rewrite take_app_len, drop_app_len_S by auto.
        rewrite HT, offset_roundtrip by (auto; symmetry; now apply Z.ltb_ge).
        repeat match goal with
               | H : (_ < _)%N |- _ => apply N.ltb_lt in H; rewrite H
               end. reflexivity.
      * change (String "+" ?x) with ("+" ++ x).
        repeat (apply find_none_app; auto).
        cbn [find_char]. now rewrite Hz2.
  - rewrite app_empty_r, Hminus, Hplus, HT.
    repeat match goal with
           | H : (_ < _)%N |- _ => apply N.ltb_lt in H; rewrite H
           end. reflexivity.
Qed.

(* ================================================================== *)
(** * The codecs *)
(* ================================================================== *)

(** The text of the library values is not looked into from here on. *)
#[local] Opaque to_str of_str date_isoformat date_fromisoformat
  datetime_isoformat datetime_fromisoformat.

(** ** Dictionaries *)

Section DictFacts.
Context {V : Type}.
Implicit Types (d : list (string * V)) (k : string) (v : V).

Lemma dict_get_set_same k v d : dict_get k (dict_set k v d) = Some v.
Proof.
  induction d as [|[k' v'] d IH]; simpl.
  - now rewrite String.eqb_refl.
  - destruct (String.eqb_spec k' k) as [->|N]; simpl.
    + now rewrite String.eqb_refl.
    + destruct (String.eqb_spec k' k); congruence.
Qed.

Lemma dict_get_set_other k k' v d :
  k <> k' -> dict_get k (dict_set k' v d) = dict_get k d.
Proof.
  intros N. induction d as [|[k0 v0] d IH]; simpl.
  - destruct (String.eqb_spec k' k); congruence.
  - destruct (String.eqb_spec k0 k') as [->|N']; simpl.
    + destruct (String.eqb_spec k' k); congruence.
    + destruct (String.eqb_spec k0 k); congruence.
Qed.

Lemma dict_get_del_same k d : dict_get k (dict_del k d) = None.
Proof.
  induction d as [|[k' v'] d IH]; simpl; auto.
  destruct (String.eqb_spec k' k) as [->|N]; simpl; auto.
  destruct (String.eqb_spec k' k); congruence.
Qed.

Lemma dict_get_del_other k k' d :
  k <> k' -> dict_get k (dict_del k' d) = dict_get k d.
Proof.
  intros N. induction d as [|[k0 v0] d IH]; simpl; auto.
  destruct (String.eqb_spec k0 k') as [->|N']; simpl.
  - destruct (String.eqb_spec k' k); congruence.
  - destruct (String.eqb_spec k0 k); congruence.
Qed.
End DictFacts.

(** ** The documents the encoders write *)

Lemma encode_stock symbol date open_ high low close volume :
  encode (mk_stock symbol date open_ high low close volume) =
  ok (tagged_stock_doc symbol date open_ high low close volume,
      stock_after_encode symbol date open_ high low close volume).
Proof. reflexivity. Qed.

Lemma encode_trade symbol timestamp order price volume commission :
  encode (mk_trade symbol timestamp order price volume commission) =
  ok (trade_doc symbol timestamp order price volume commission,
      mk_trade symbol timestamp order price volume commission).
Proof. reflexivity. Qed.


Lemma serialize_stock symbol date open_ high low close volume :
  serialize_with_marshmallow (mk_stock symbol date open_ high low close volume) =
  ok (schema_stock_doc symbol date high low close volume).
Proof. reflexivity. Qed.

Lemma Decimal_of_str_of_to_str (d : Decimal) : Decimal_of_str_of (VStr (to_str d)) = ok d.
Proof.
  unfold Decimal_of_str_of, py_str. cbn [repr_raises str_text bind ok].
  now rewrite of_str_to_str.
Qed.

Lemma decode_tagged_stock symbol date open_ high low close volume :
  valid_date date = true ->
  decode (tagged_stock_doc symbol date open_ high low close volume) =
  ok (mk_stock symbol date open_ high low close volume).
Proof.
  intros Hd. unfold decode, tagged_stock_doc.
  cbn. rewrite (date_roundtrip _ Hd). cbn.
  unfold decode_stock_branch. cbn. rewrite !of_str_to_str. reflexivity.
Qed.

Lemma decode_trade symbol timestamp order price volume commission :
  valid_datetime timestamp = true ->
  decode (trade_doc symbol timestamp order price volume commission) =
  ok (mk_trade symbol timestamp order price volume commission).
Proof.
  intros Ht. unfold decode, trade_doc.
  cbn. unfold decode_trade_branch. cbn.
  rewrite (datetime_roundtrip _ Ht). cbn.
  rewrite !of_str_to_str. reflexivity.
Qed.

Lemma DecimalField_deserialize_to_str (d : Decimal) :
  DecimalField_deserialize (VStr (to_str d)) = ok (VDecimal d).
Proof. unfold DecimalField_deserialize. now rewrite Decimal_of_str_of_to_str. Qed.


(** ** Round trips that hold *)

Lemma tagged_roundtrip_stock symbol date open_ high low close volume :
  valid_date date = true ->
  tagged_roundtrip (mk_stock symbol date open_ high low close volume).
Proof.
  intros Hd. eexists; eexists; split; [apply encode_stock|].
  now apply decode_tagged_stock.
Qed.

Lemma tagged_roundtrip_trade symbol timestamp order price volume commission :
  valid_datetime timestamp = true ->
  tagged_roundtrip (mk_trade symbol timestamp order price volume commission).
Proof.
  intros Ht. eexists; eexists; split; [apply encode_trade|].
  now apply decode_trade.
Qed.


(** The tagged encoder changes the Stock it is given: the instance no
    longer has the attribute [open], its value is now under [open_]. *)
Lemma encode_renames_attribute symbol date open_ high low close volume :
  exists doc attrs,
    encode (mk_stock symbol date open_ high low close volume) = ok (doc, VStock attrs)
    /\ dict_get "open" attrs = None
    /\ dict_get "open_" attrs = Some (VDecimal open_)
    /\ VStock attrs <> mk_stock symbol date open_ high low close volume.
Proof.
  eexists; eexists; split; [apply encode_stock|].
  split; [reflexivity|]. split; [reflexivity|]. discriminate.
Qed.

(** On a Stock the tagged encoder has already run on, the schema encoder
    does write the opening price, and the schema decoder reads the record
    back. *)
Lemma schema_roundtrip_after_encode symbol date open_ high low close volume :
  valid_symbol symbol -> valid_date date = true ->
  exists doc,
    serialize_with_marshmallow (stock_after_encode symbol date open_ high low close volume)
    = ok doc
    /\ fst (deserialize_with_marshmallow (Text doc) StockSchema)
       = ok (mk_stock symbol date open_ high low close volume).
Proof.
  intros Hs Hd. unfold valid_symbol in Hs.
  eexists; split; [reflexivity|].
  unfold deserialize_with_marshmallow. cbn.
  rewrite Hs, (date_roundtrip _ Hd). cbn.
  rewrite !DecimalField_deserialize_to_str. reflexivity.
Qed.

(** ** C1 *)

(** C1 (code defect).  The schema path does not round-trip a Stock: the
    schema reads the attribute [open_], which the constructor never sets
    (it stores [open]), so the document has no opening price and the
    decoder refuses it. *)
Theorem schema_roundtrip_stock_fails symbol date open_ high low close volume :
  let x := mk_stock symbol date open_ high low close volume in
  let doc := schema_stock_doc symbol date high low close volume in
  serialize_with_marshmallow x = ok doc
  /\ fst (deserialize_with_marshmallow (Text doc) StockSchema)
     = raise (Failed (ValueError (Some "Missing required field 'open'")))
  /\ ~ schema_roundtrip x.
Proof.
  cbv zeta. split; [apply serialize_stock|]. split; [reflexivity|].
  intros (doc & Hs & Hl). rewrite serialize_stock in Hs.
  injection Hs as <-. discriminate Hl.
Qed.

Lemma decode_wire_stock symbol date open_ high low close volume :
  valid_date date = true ->
  decode (wire_stock_doc symbol date open_ high low close volume) =
  ok (mk_stock symbol date open_ high low close volume).
Proof.
  intros Hd. unfold decode, wire_stock_doc. cbn.
  unfold decode_stock_branch. cbn.
  rewrite !of_str_to_str. cbn. rewrite (date_roundtrip _ Hd). reflexivity.
Qed.

Lemma load_wire_stock symbol date open_ high low close volume :
  valid_symbol symbol -> valid_date date = true ->
  fst (deserialize_with_marshmallow
         (Text (wire_stock_doc symbol date open_ high low close volume)) StockSchema) =
  ok (mk_stock symbol date open_ high low close volume).
Proof.
  intros Hs Hd. unfold valid_symbol in Hs.
  unfold deserialize_with_marshmallow, wire_stock_doc. cbn.
  rewrite Hs, (date_roundtrip _ Hd). cbn.
  rewrite !DecimalField_deserialize_to_str. reflexivity.
Qed.


(** ** C2 *)




(** ** C3 *)

(** C3, as stated, fails: the tagged encoder writes the key [open_]. *)
Lemma tagged_encoder_writes_open_underscore :
  exists members x',
    encode sample_stock = ok (JObject members, x')
    /\ dict_get "open" members = None
    /\ dict_get "open_" members = Some (JStr "100.50").
Proof. eexists; eexists; split; [vm_compute; reflexivity|]. split; reflexivity. Qed.

(** C3 (amended).  The tagged encoder writes a Stock's opening price under
    the key [open_], never [open].  Both decoders take the wire key [open]
    and pass it to the constructor's parameter [open_], which stores it as
    the attribute [open]; the tagged decoder takes the key [open_] as well. *)
Theorem open_field_renaming symbol date open_ high low close volume :
  valid_symbol symbol -> valid_date date = true ->
  let x := mk_stock symbol date open_ high low close volume in
  (exists members x',
     encode x = ok (JObject members, x')
     /\ dict_get "open_" members = Some (JStr (to_str open_))
     /\ dict_get "open" members = None)
  /\ decode (wire_stock_doc symbol date open_ high low close volume) = ok x
  /\ decode (tagged_stock_doc symbol date open_ high low close volume) = ok x
  /\ fst (deserialize_with_marshmallow
            (Text (wire_stock_doc symbol date open_ high low close volume)) StockSchema) = ok x
  /\ get_value x "open" = Some (VDecimal open_)
  /\ get_value x "open_" = None.
Proof.
  intros Hs Hd. cbv zeta. repeat split.
  - eexists; eexists; split; [apply encode_stock|]. split; reflexivity.
  - now apply decode_wire_stock.
  - now apply decode_tagged_stock.
  - now apply load_wire_stock.
Qed.

Lemma open_field_renaming_witness :
  valid_symbol "TSLA" /\ valid_date (mkDate 2023 1 5) = true
  /\ decode (wire_stock_doc "TSLA" (mkDate 2023 1 5) (Finite false 10050 (-2))
               (Finite false 199999999999 (-10)) (Finite false 995 (-1))
               (Finite false 101 0) 1200) = ok sample_stock
  /\ get_value sample_stock "open" = Some (VDecimal (Finite false 10050 (-2))).
Proof.
  split; [reflexivity|]. split; [reflexivity|].
  destruct (open_field_renaming "TSLA" (mkDate 2023 1 5) (Finite false 10050 (-2))
              (Finite false 199999999999 (-10)) (Finite false 995 (-1))
              (Finite false 101 0) 1200)
    as (_ & H1 & _ & _ & H2 & _).
  - reflexivity.
  - reflexivity.
  - split; [exact H1 | exact H2].
Defined.

(** ** C4 *)

(** C4, as stated, fails: a mapping with an unknown tag is returned as it
    is, both by the decoder function and by [decode]. *)
Lemma unknown_datatype_passes_through :
  let m := [("datatype", VStr "option"); ("x", VInt 1)] in
  custom_decoder (VDict m) = ok (VDict m)
  /\ decode (JObject [("datatype", JStr "option"); ("x", JInt 1)]) = ok (VDict m).
Proof. split; reflexivity. Qed.

(** C4 (amended).  A mapping whose [datatype] is none of ["date"],
    ["trade"], ["stock"] is returned unchanged; no error is raised. *)
Theorem unknown_datatype_unchanged (m : dict) (t : pyval) :
  dict_get "datatype" m = Some t ->
  eq_str t "date" = false -> eq_str t "trade" = false -> eq_str t "stock" = false ->
  custom_decoder (VDict m) = ok (VDict m).
Proof.
  intros Hg Hd Ht Hs. unfold custom_decoder. now rewrite Hg, Hd, Ht, Hs.
Qed.

Lemma unknown_datatype_unchanged_witness :
  let m := [("datatype", VStr "option"); ("x", VInt 1)] in
  dict_get "datatype" m = Some (VStr "option")
  /\ eq_str (VStr "option") "date" = false
  /\ eq_str (VStr "option") "trade" = false
  /\ eq_str (VStr "option") "stock" = false
  /\ custom_decoder (VDict m) = ok (VDict m).
Proof.
  cbv zeta. repeat (split; [reflexivity|]).
  apply (unknown_datatype_unchanged [("datatype", VStr "option"); ("x", VInt 1)]
           (VStr "option")); reflexivity.
Defined.

(** ** C5 *)

(** C5, as stated, fails: the tagged encoder writes a Stock's [date] as
    the wrapped mapping, not as a bare string. *)
Lemma tagged_stock_date_is_wrapped :
  exists members x',
    encode sample_stock = ok (JObject members, x')
    /\ dict_get "date" members
       = Some (JObject [("datatype", JStr "date"); ("date", JStr "2023-01-05")])
    /\ dict_get "date" members <> Some (JStr "2023-01-05").
Proof.
  eexists; eexists; split; [vm_compute; reflexivity|]. split; [reflexivity|].
  discriminate.
Qed.

(** C5 (amended).  The tagged encoder writes every calendar date as the
    wrapped mapping, a Stock's [date] included; the bare ISO string is what
    the schema encoder writes. *)
Theorem date_emission symbol date open_ high low close volume :
  let x := mk_stock symbol date open_ high low close volume in
  CustomEncoder_default (VDate date)
  = ok (wrapped_date (VStr (date_isoformat date)), VDate date)
  /\ (exists members x',
        encode x = ok (JObject members, x')
        /\ dict_get "date" members
           = Some (JObject [("datatype", JStr "date"); ("date", JStr (date_isoformat date))]))
  /\ (exists members,
        serialize_with_marshmallow x = ok (JObject members)
        /\ dict_get "date" members = Some (JStr (date_isoformat date))).
Proof.
  cbv zeta. split; [reflexivity|]. split.
  - eexists; eexists; split; [apply encode_stock|]. reflexivity.
  - eexists; split; [apply serialize_stock|]. reflexivity.
Qed.

(** ** C7 *)











Example decimal_exactness_19_9999999999 :
  let d := Finite false 199999999999 (-10) in
  to_str d = "19.9999999999"
  /\ encode (VDecimal d) = ok (JStr "19.9999999999", VDecimal d)
  /\ Decimal_of_str_of (VStr "19.9999999999") = ok d
  /\ DecimalField_deserialize (VStr "19.9999999999") = ok (VDecimal d).
Proof. repeat split; vm_compute; reflexivity. Qed.

(** ** C10 *)

(** C10.  Given a mapping that has the key [open_], the call with
    [StockSchema] leaves the caller's mapping changed: the entry is taken
    out and put back under the key [open]. *)
Theorem deserialize_mutates_mapping (m : dict) (v : pyval) :
  dict_get "open_" m = Some v ->
  snd (deserialize_with_marshmallow (Mapping m) StockSchema)
  = Mapping (dict_set "open" v (dict_del "open_" m))
  /\ snd (deserialize_with_marshmallow (Mapping m) StockSchema) <> Mapping m.
Proof.
  intros Hg.
  assert (E : snd (deserialize_with_marshmallow (Mapping m) StockSchema)
              = Mapping (dict_set "open" v (dict_del "open_" m))).
  { unfold deserialize_with_marshmallow, validated_data. cbn [snd bind prepare py_contains ok payload_data].
    unfold dict_in. rewrite Hg. reflexivity. }
  split; [exact E|]. rewrite E. intros H. injection H as H.
  assert (C : dict_get "open_" (dict_set "open" v (dict_del "open_" m)) = None).
  { rewrite dict_get_set_other by discriminate. apply dict_get_del_same. }
  rewrite H in C. congruence.
Qed.

Lemma deserialize_mutates_mapping_witness :
  let m := [("symbol", VStr "TSLA"); ("open_", VStr "100.50")] in
  dict_get "open_" m = Some (VStr "100.50")
  /\ snd (deserialize_with_marshmallow (Mapping m) StockSchema)
     = Mapping [("symbol", VStr "TSLA"); ("open", VStr "100.50")]
  /\ snd (deserialize_with_marshmallow (Mapping m) StockSchema) <> Mapping m.
Proof.
  cbv zeta. split; [reflexivity|].
  apply (deserialize_mutates_mapping [("symbol", VStr "TSLA"); ("open_", VStr "100.50")]
           (VStr "100.50")).
  reflexivity.
Defined.

(** A call with a mapping that lacks [open_], or with [TradeSchema], or
    with a text, leaves the argument as it was. *)
Lemma deserialize_leaves_other_arguments (p : payload) (schema : Schema) :
  match p, schema with
  | Mapping m, StockSchema => dict_get "open_" m = None
  | _, _ => True
  end ->
  snd (deserialize_with_marshmallow p schema) = p.
Proof.
  destruct p as [doc|m], schema; intros H;
    unfold deserialize_with_marshmallow, validated_data; cbn [snd];
    try reflexivity.
  cbn [bind prepare py_contains ok payload_data]. unfold dict_in. rewrite H.
  destruct (dict_get "open" m); reflexivity.
Qed.

(** ** Mappings that differ in the value of one key *)

Section VariesAt.
Variable key : string.

Lemma dict_set_varies (m : dict) : varies_at key (fun y => dict_set key y m).
Proof.
  induction m as [|[k v] m (pre & post & Hp & HF)].
  - exists [], []. split; [reflexivity|]. intros y. reflexivity.
  - destruct (String.eqb_spec k key) as [->|N].
    + exists [], m. split; [reflexivity|]. intros y. cbn [dict_set app].
      now rewrite String.eqb_refl.
    + exists ((k, v) :: pre), post. split.
      * simpl. destruct (String.eqb_spec k key); congruence.
      * intros y. simpl. destruct (String.eqb_spec k key); try congruence;
          try now rewrite HF.
Qed.

Lemma get_app_none {V : Type} (k : string) (a b : list (string * V)) :
  dict_get k a = None -> dict_get k (a ++ b)%list = dict_get k b.
Proof.
  induction a as [|[k' v'] a IH]; simpl; auto.
  destruct (String.eqb k' k); try discriminate. auto.
Qed.

Lemma get_app_some {V : Type} (k : string) (a b : list (string * V)) (v : V) :
  dict_get k a = Some v -> dict_get k (a ++ b)%list = Some v.
Proof.
  induction a as [|[k' v'] a IH]; simpl; try discriminate.
  destruct (String.eqb k' k); auto.
Qed.

Lemma varies_get_key F y : varies_at key F -> dict_get key (F y) = Some y.
Proof.
  intros (pre & post & Hp & HF). rewrite HF, get_app_none by auto.
  simpl. now rewrite String.eqb_refl.
Qed.

Lemma varies_get_other F k y y' :
  varies_at key F -> k <> key -> dict_get k (F y) = dict_get k (F y').
Proof.
  intros (pre & post & Hp & HF) N. rewrite !HF.
  destruct (dict_get k pre) as [v|] eqn:E.
  - now rewrite !(get_app_some _ _ _ _ E).
  - rewrite !get_app_none by auto. simpl.
    destruct (String.eqb_spec key k); congruence.
Qed.

Lemma varies_set_key F v y y' :
  varies_at key F -> dict_set key v (F y) = dict_set key v (F y').
Proof.
  intros (pre & post & Hp & HF). rewrite !HF. clear HF.
  induction pre as [|[k' v'] pre IH]; simpl in *.
  - now rewrite String.eqb_refl.
  - destruct (String.eqb k' key); try discriminate. now rewrite IH.
Qed.

Lemma varies_set_key_id F v y : varies_at key F -> dict_set key v (F y) = F v.
Proof.
  intros (pre & post & Hp & HF). rewrite !HF. clear HF.
  induction pre as [|[k' v'] pre IH]; simpl in *.
  - now rewrite String.eqb_refl.
  - destruct (String.eqb k' key); try discriminate. now rewrite IH.
Qed.

Lemma del_app {V : Type} (k : string) (a b : list (string * V)) :
  dict_del k (a ++ b)%list = (dict_del k a ++ dict_del k b)%list.
Proof.
  induction a as [|[k' v'] a IH]; simpl; auto.
  destruct (String.eqb k' k); simpl; now rewrite IH.
Qed.

Lemma get_del_none {V : Type} (k k' : string) (a : list (string * V)) :
  dict_get k a = None -> dict_get k (dict_del k' a) = None.
Proof.
  induction a as [|[k0 v0] a IH]; simpl; auto.
  destruct (String.eqb_spec k0 k); try discriminate. intros H.
  destruct (String.eqb k0 k'); simpl; auto.
  destruct (String.eqb_spec k0 k); try congruence. auto.
Qed.

Lemma varies_del F k :
  varies_at key F -> k <> key -> varies_at key (fun y => dict_del k (F y)).
Proof.
  intros (pre & post & Hp & HF) N.
  exists (dict_del k pre), (dict_del k post). split.
  - now apply get_del_none.
  - intros y. rewrite HF, del_app. simpl.
    destruct (String.eqb_spec key k); congruence.
Qed.

Lemma set_app_some {V : Type} (k : string) (v : V) (a b : list (string * V)) :
  dict_in k a = true -> dict_set k v (a ++ b)%list = (dict_set k v a ++ b)%list.
Proof.
  unfold dict_in. induction a as [|[k' v'] a IH]; simpl; try discriminate.
  destruct (String.eqb k' k); simpl; auto. intros H. now rewrite IH.
Qed.

Lemma set_app_none {V : Type} (k : string) (v : V) (a b : list (string * V)) :
  dict_get k a = None -> b <> [] ->
  dict_set k v (a ++ b)%list = (a ++ dict_set k v b)%list.
Proof.
  induction a as [|[k' v'] a IH]; simpl; auto.
  destruct (String.eqb k' k); try discriminate. intros H Hb. now rewrite IH.
Qed.

Lemma get_set_none {V : Type} (k k' : string) (v : V) (a : list (string * V)) :
  dict_get k a = None -> dict_in k' a = true -> dict_get k (dict_set k' v a) = None.
Proof.
  unfold dict_in. induction a as [|[k0 v0] a IH]; simpl; try discriminate.
  destruct (String.eqb_spec k0 k); try discriminate. intros H.
  destruct (String.eqb_spec k0 k'); simpl.
  - destruct (String.eqb_spec k0 k); congruence.
  - destruct (String.eqb_spec k0 k); try congruence. auto.
Qed.

Lemma varies_set F k v :
  varies_at key F -> k <> key -> varies_at key (fun y => dict_set k v (F y)).
Proof.
  intros (pre & post & Hp & HF) N.
  destruct (dict_in k pre) eqn:E.
  - exists (dict_set k v pre), post. split.
    + now apply get_set_none.
    + intros y. rewrite HF. now apply set_app_some.
  - exists pre, (dict_set k v post). split; auto.
    intros y. rewrite HF, set_app_none; try discriminate.
    + simpl. destruct (String.eqb_spec key k); congruence.
    + unfold dict_in in E. destruct (dict_get k pre); congruence.
Qed.

Lemma varies_coerce (keys : list string) F :
  varies_at key F -> ~ In key keys ->
  (exists e, forall y, coerce_decimals keys (F y) = raise e)
  \/ (exists G, varies_at key G /\ forall y, coerce_decimals keys (F y) = ok (G y)).
Proof.
  revert F. induction keys as [|k keys IH]; intros F HF Hn.
  - right. exists F. split; auto.
  - assert (Nk : k <> key) by (intros ->; apply Hn; now left).
    assert (Hn' : ~ In key keys) by (intros H; apply Hn; now right).
    destruct HF as (pre & post & Hp & HF').
    assert (HF : varies_at key F) by (exists pre, post; auto).
    cbn [coerce_decimals].
    assert (Hget : forall y, dict_get k (F y) = dict_get k (F VNone))
      by (intros y; now apply varies_get_other).
    destruct (dict_get k (F VNone)) as [v|] eqn:E.
    + destruct (Decimal_of_str_of v) as [e|d] eqn:Ed.
      * left. exists e. intros y. now rewrite Hget, Ed.
      * destruct (IH (fun y => dict_set k (VDecimal d) (F y))) as [(e & He)|(G & HG & He)];
          auto using varies_set.
        -- left. exists e. intros y. rewrite Hget, Ed. apply He.
        -- right. exists G. split; auto. intros y. rewrite Hget, Ed. apply He.
    + left. exists (KeyError k). intros y. now rewrite Hget.
Qed.
End VariesAt.

(** ** C6 *)

(** After the renaming of [open] and the decimals, the mapping still has
    the date it came with, and is otherwise the same whatever that date. *)
Lemma stock_branch_prefix (F : pyval -> dict) :
  varies_at "date" F ->
  (exists e, forall y, decode_stock_branch (F y) = raise e)
  \/ (exists G, varies_at "date" G /\
        forall y, decode_stock_branch (F y) =
                  match y with
                  | VDate _ | VDatetime _ => Stock_kw (G y)
                  | VDict w =>
                      if match dict_get "datatype" w with
                         | Some t => eq_str t "date"
                         | None => false
                         end
                      then
                        match dict_get "date" w with
                        | None => raise (KeyError "date")
                        | Some v =>
                            d <- date_fromisoformat_of v ;;
                            Stock_kw (dict_set "date" (VDate d) (G y))
                        end
                      else
                        d <- date_fromisoformat_of (VDict w) ;;
                        Stock_kw (dict_set "date" (VDate d) (G y))
                  | v =>
                      d <- date_fromisoformat_of v ;;
                      Stock_kw (dict_set "date" (VDate d) (G y))
                  end).
Proof.
  intros HF. unfold decode_stock_branch.
  assert (Hopen : forall y, dict_get "open" (F y) = dict_get "open" (F VNone))
    by (intros y; apply (varies_get_other "date"); auto; discriminate).
  set (F2 := fun y => match dict_get "open" (F VNone) with
                      | Some v => dict_set "open_" v (dict_del "open" (F y))
                      | None => F y
                      end).
  assert (HF2 : varies_at "date" F2).
  { subst F2. destruct (dict_get "open" (F VNone)); auto.
    apply varies_set; try discriminate. apply varies_del; auto; discriminate. }
  destruct (varies_coerce "date" ["open_"; "high"; "low"; "close"] F2 HF2)
    as [(e & He)|(G & HG & He)].
  - simpl. intuition discriminate.
  - left. exists e. intros y. rewrite Hopen. fold (F2 y). now rewrite He.
  - right. exists G. split; auto. intros y. rewrite Hopen. fold (F2 y). rewrite He.
    cbn [bind ok]. rewrite (varies_get_key "date" G y HG).
    destruct y; reflexivity.
Qed.

(** C6.  The tagged decoder takes the [date] of a Stock mapping in three
    shapes.  Whatever the rest of the mapping, the wrapped date and the
    bare string with the same ISO text give the same outcome, and so do a
    native date and its ISO text; on the mapping of a valid Stock each of
    the three gives the Stock. *)
Theorem date_shape_tolerance (m : dict) (iso : string) (d : Date)
    symbol open_ high low close volume :
  dict_get "datatype" m = Some (VStr "stock") ->
  valid_date d = true ->
  let with_date y := VDict (dict_set "date" y m) in
  let stock y :=
    VDict [("symbol", VStr symbol); ("date", y); ("open", VStr (to_str open_));
           ("high", VStr (to_str high)); ("low", VStr (to_str low));
           ("close", VStr (to_str close)); ("volume", VInt volume);
           ("datatype", VStr "stock")] in
  custom_decoder (with_date (wrapped_date (VStr iso))) = custom_decoder (with_date (VStr iso))
  /\ custom_decoder (with_date (VDate d)) = custom_decoder (with_date (VStr (date_isoformat d)))
  /\ custom_decoder (stock (VDate d)) = ok (mk_stock symbol d open_ high low close volume)
  /\ custom_decoder (stock (wrapped_date (VStr (date_isoformat d))))
     = ok (mk_stock symbol d open_ high low close volume)
  /\ custom_decoder (stock (VStr (date_isoformat d)))
     = ok (mk_stock symbol d open_ high low close volume).
Proof.
  intros Hm Hd. cbv zeta.
  assert (Hbranch : forall y, custom_decoder (VDict (dict_set "date" y m))
                              = decode_stock_branch (dict_del "datatype" (dict_set "date" y m))).
  { intros y. unfold custom_decoder.
    rewrite dict_get_set_other by discriminate. rewrite Hm. reflexivity. }
  assert (HF : varies_at "date" (fun y => dict_del "datatype" (dict_set "date" y m))).
  { apply varies_del; try discriminate. apply dict_set_varies. }
  split; [|split; [|repeat split]].
  - rewrite !Hbranch.
    destruct (stock_branch_prefix _ HF) as [(e & He)|(G & HG & He)].
    + now rewrite !He.
    + rewrite !He. unfold wrapped_date. cbn [dict_get String.eqb Ascii.eqb Bool.eqb eq_str].
      unfold date_fromisoformat_of.
      destruct (date_fromisoformat iso); cbn [bind ok raise]; auto.
      f_equal. apply (varies_set_key "date"); auto.
  - rewrite !Hbranch.
    destruct (stock_branch_prefix _ HF) as [(e & He)|(G & HG & He)].
    + now rewrite !He.
    + rewrite !He. unfold date_fromisoformat_of. rewrite (date_roundtrip _ Hd).
      cbn [bind ok]. f_equal. symmetry. apply (varies_set_key_id "date"); auto.
  - cbn. unfold decode_stock_branch. cbn. rewrite !of_str_to_str. reflexivity.
  - cbn. unfold decode_stock_branch. cbn. rewrite !of_str_to_str. cbn.
    rewrite (date_roundtrip _ Hd). reflexivity.
  - cbn. unfold decode_stock_branch. cbn. rewrite !of_str_to_str. cbn.
    rewrite (date_roundtrip _ Hd). reflexivity.
Qed.

Lemma date_shape_tolerance_witness :
  let m := [("datatype", VStr "stock"); ("symbol", VStr "TSLA"); ("open", VStr "100.50");
            ("high", VStr "101"); ("low", VStr "99.5"); ("close", VStr "100");
            ("volume", VInt 1200)] in
  dict_get "datatype" m = Some (VStr "stock")
  /\ valid_date (mkDate 2023 1 5) = true
  /\ custom_decoder (VDict (dict_set "date" (wrapped_date (VStr "2023-01-05")) m))
     = custom_decoder (VDict (dict_set "date" (VStr "2023-01-05") m))
  /\ custom_decoder (VDict (dict_set "date" (VDate (mkDate 2023 1 5)) m))
     = custom_decoder (VDict (dict_set "date" (VStr (date_isoformat (mkDate 2023 1 5))) m)).
Proof.
  cbv zeta. split; [reflexivity|]. split; [reflexivity|].
  destruct (date_shape_tolerance
              [("datatype", VStr "stock"); ("symbol", VStr "TSLA"); ("open", VStr "100.50");
               ("high", VStr "101"); ("low", VStr "99.5"); ("close", VStr "100");
               ("volume", VInt 1200)]
              "2023-01-05" (mkDate 2023 1 5) "TSLA" (Finite false 10050 (-2))
              (Finite false 101 0) (Finite false 995 (-1)) (Finite false 100 0) 1200)
    as (H1 & H2 & _).
  - reflexivity.
  - reflexivity.
  - split; [exact H1 | exact H2].
Defined.

(** ** The errors [Schema.load] collects *)

Lemma store_error_in (k n : string) (msgs : list string) (errors : list (string * list string)) :
  dict_in k (store_error n msgs errors) = String.eqb n k || dict_in k errors.
Proof.
  unfold store_error, dict_in.
  destruct (String.eqb_spec n k) as [->|N]; simpl.
  - destruct (dict_get k errors); now rewrite dict_get_set_same.
  - destruct (dict_get n errors); rewrite dict_get_set_other by congruence; reflexivity.
Qed.

Lemma load_loop_errors (fields : list field) (data ret : dict)
    (errors : list (string * list string)) ret' errors' :
  load_loop fields data ret errors = ok (ret', errors') ->
  forall k, dict_in k errors' = true <->
            dict_in k errors = true
            \/ exists f, In f fields /\ dump_only f = false /\ wire_key f = k
                         /\ field_invalid f data.
Proof.
  revert ret errors. induction fields as [|f fields IH]; intros ret errors H k.
  - injection H as <- <-. split; auto. intros [H|(f & [] & _)]; auto.
  - cbn [load_loop] in H.
    destruct (dump_only f) eqn:Ed.
    { rewrite (IH _ _ H k). split; intros [Hk|(f' & Hin & Hd & Hw & Hi)]; auto.
      - right. exists f'. repeat split; auto. now right.
      - destruct Hin as [<-|Hin]; try congruence. right. exists f'. auto. }
    destruct (deserialize_raw f (dict_get (wire_key f) data)) as [e|[v|]] eqn:Er.
    + destruct e; try discriminate H.
      rewrite (IH _ _ H k), store_error_in. split.
      * intros [Hk|(f' & Hin & Hd & Hw & Hi)].
        -- apply orb_prop in Hk as [Hk|Hk]; auto.
           apply String.eqb_eq in Hk. right. exists f. repeat split; auto.
           ++ now left.
           ++ eexists; exact Er.
        -- right. exists f'. repeat split; auto. now right.
      * intros [Hk|(f' & [<-|Hin] & Hd & Hw & Hi)].
        -- left. rewrite Hk. apply orb_true_r.
        -- left. rewrite Hw, String.eqb_refl. reflexivity.
        -- right. exists f'. auto.
    + rewrite (IH _ _ H k). split; intros [Hk|(f' & Hin & Hd & Hw & Hi)]; auto.
      * right. exists f'. repeat split; auto. now right.
      * destruct Hin as [<-|Hin].
        -- destruct Hi as (msgs & Hi). unfold raise in Hi. congruence.
        -- right. exists f'. auto.
    + rewrite (IH _ _ H k). split; intros [Hk|(f' & Hin & Hd & Hw & Hi)]; auto.
      * right. exists f'. repeat split; auto. now right.
      * destruct Hin as [<-|Hin].
        -- destruct Hi as (msgs & Hi). unfold raise in Hi. congruence.
        -- right. exists f'. auto.
Qed.

(** The exceptions that get out of a field and out of the loop. *)
Lemma py_int_exn (v : pyval) (e : exn) :
  py_int v = raise e -> e = TypeError \/ e = ValueError None \/ e = OverflowError.
Proof.
  unfold py_int, raise, ok.
  destruct v as [ | | |s|[| |]| | | | | | |f]; cbn [to_int];
    try destruct (int_of_str s);
    try (destruct (is_nan f); [|destruct (is_inf f)]);
    intros H; try discriminate H; injection H as <-; auto.
Qed.

Lemma Decimal_of_str_of_exn (v : pyval) (e : exn) :
  Decimal_of_str_of v = raise e ->
  (e = ValueError None /\ repr_raises v = true)
  \/ (e = InvalidOperation /\ repr_raises v = false).
Proof.
  unfold Decimal_of_str_of, py_str, raise, ok.
  destruct (repr_raises v); cbn [bind].
  - intros H. injection H as <-. auto.
  - destruct (str_text v) as [s|]; [destruct (of_str s)|]; intros H; try discriminate;
      injection H as <-; auto.
Qed.

Lemma field_deserialize_exn (t : field_type) (v : pyval) (e : exn) :
  field_deserialize t v = raise e ->
  (exists msgs, e = FieldError msgs) \/ e = InvalidOperation.
Proof.
  unfold raise. destruct t; cbn [field_deserialize].
  - destruct v; intros H; try discriminate; injection H as <-; eauto.
  - destruct v; try discriminate;
      match goal with
      | |- context [date_fromisoformat_of ?x] => destruct (date_fromisoformat_of x)
      end; intros H; try discriminate; injection H as <-; eauto.
  - destruct v; try discriminate;
      match goal with
      | |- context [datetime_fromisoformat_of ?x] => destruct (datetime_fromisoformat_of x)
      end; intros H; try discriminate; injection H as <-; eauto.
  - assert (Hi : match py_int v with
                 | inr z => ok (VInt z)
                 | inl OverflowError => raise (FieldError ["Number too large."])
                 | inl TypeError => raise (FieldError ["Not a valid integer."])
                 | inl (ValueError _) => raise (FieldError ["Not a valid integer."])
                 | inl e => raise e
                 end = inl e -> exists msgs, e = FieldError msgs).
    { destruct (py_int v) as [e'|z] eqn:E; try discriminate.
      destruct (py_int_exn _ _ E) as [->|[->| ->]]; intros H; injection H as <-; eauto. }
    destruct v; try (intros H; left; now apply Hi).
    intros H. injection H as <-; eauto.
  - unfold DecimalField_deserialize.
    destruct (Decimal_of_str_of v) as [e'|d] eqn:E; try discriminate.
    destruct (Decimal_of_str_of_exn _ _ E) as [[-> _]|[-> _]];
      intros H; injection H as <-; eauto.
  - discriminate.
Qed.

Lemma run_validators_exn (vds : list validator) (v : pyval) (e : exn) :
  run_validators vds v = raise e -> e = TypeError.
Proof.
  unfold raise. induction vds as [|vd vds IH]; cbn [run_validators]; try discriminate.
  destruct (run_validator vd v) as [e'|m] eqn:E; cbn [bind].
  - intros H. injection H as <-. destruct vd; cbn [run_validator] in E; try discriminate.
    destruct v; simpl in E; try discriminate; now injection E as <-.
  - destruct (run_validators vds v); cbn [bind]; try discriminate.
    intros H. apply IH. exact H.
Qed.

Lemma deserialize_raw_exn (f : field) (raw : option pyval) (e : exn) :
  deserialize_raw f raw = raise e ->
  (exists msgs, e = FieldError msgs) \/ e = InvalidOperation \/ e = TypeError.
Proof.
  unfold deserialize_raw, raise.
  destruct raw as [value|].
  - assert (H : (output <- field_deserialize (ftype f) value ;;
                 msgs <- run_validators (validate f) output ;;
                 match msgs with
                 | [] => ok (Some output)
                 | _ => raise (FieldError msgs)
                 end) = inl e ->
                (exists msgs, e = FieldError msgs) \/ e = InvalidOperation \/ e = TypeError).
    { destruct (field_deserialize (ftype f) value) as [e'|o] eqn:E; cbn [bind].
      - intros H; injection H as <-.
        destruct (field_deserialize_exn _ _ _ E) as [?| ->]; auto.
      - destruct (run_validators (validate f) o) as [e'|[|x l]] eqn:Ev; cbn [bind];
          try discriminate; intros H; injection H as <-; eauto.
        right; right. now apply (run_validators_exn _ _ _ Ev). }
    destruct value; auto. intros H'. injection H' as <-; eauto.
  - destruct (required f); try discriminate. intros H. injection H as <-; eauto.
Qed.

Lemma load_loop_exn (fields : list field) (data ret : dict) errors (e : exn) :
  load_loop fields data ret errors = raise e -> e = InvalidOperation \/ e = TypeError.
Proof.
  unfold raise. revert ret errors.
  induction fields as [|f fields IH]; intros ret errors; cbn [load_loop]; try discriminate.
  destruct (dump_only f); [apply IH|].
  destruct (deserialize_raw f (dict_get (wire_key f) data)) as [e'|[v|]] eqn:Er;
    try apply IH.
  destruct (deserialize_raw_exn _ _ _ Er) as [(msgs & ->)|[-> | ->]]; try apply IH;
    intros H; injection H as <-; auto.
Qed.

(** What [Schema.load] raises as a validation error is what the loop
    collected. *)
Lemma Schema_load_errors (schema : Schema) (m : dict) errors :
  Schema_load schema (VDict m) = raise (ValidationError errors) ->
  exists ret, load_loop (declared_fields schema) m [] [] = ok (ret, errors) /\ errors <> [].
Proof.
  unfold Schema_load.
  destruct (load_loop (declared_fields schema) m [] []) as [e|[ret errs]] eqn:E;
    cbn [bind].
  - intros H. injection H as ->.
    destruct (load_loop_exn _ _ _ _ _ E); discriminate.
  - destruct errs as [|e errs].
    + destruct schema; cbn [post_load]; unfold Stock_kw, Trade_kw;
        repeat match goal with
               | |- context [if ?c then _ else _] => destruct c
               | |- context [match ?x with _ => _ end] => destruct x
               end; discriminate.
    + intros H. injection H as <-. eexists; split; eauto. discriminate.
Qed.

(** The keys of a schema's fields are distinct. *)
Lemma wire_key_inj (schema : Schema) (f f' : field) :
  In f (declared_fields schema) -> In f' (declared_fields schema) ->
  wire_key f' = wire_key f -> f' = f.
Proof.
  destruct schema; cbn [declared_fields In];
    intros H H'; repeat (destruct H as [<-|H]; [|]); try contradiction;
    repeat (destruct H' as [<-|H']; [|]); try contradiction;
    intros E; try reflexivity; discriminate E.
Qed.

Lemma Schema_load_reports (schema : Schema) (m : dict) errors :
  Schema_load schema (VDict m) = raise (ValidationError errors) ->
  forall f, In f (declared_fields schema) -> dump_only f = false ->
    (dict_in (wire_key f) errors = true <-> field_invalid f m).
Proof.
  intros H f Hin Hd.
  destruct (Schema_load_errors _ _ _ H) as (ret & Hl & _).
  rewrite (load_loop_errors _ _ _ _ _ _ Hl (wire_key f)). split.
  - intros [Hk|(f' & Hin' & _ & Hw & Hi)]; [discriminate Hk|].
    now rewrite <- (wire_key_inj schema f f' Hin Hin' Hw).
  - intros Hi. right. exists f. auto.
Qed.

Lemma deserialize_result (p : payload) (schema : Schema) :
  fst (deserialize_with_marshmallow p schema) =
  match (data <- validated_data p schema ;; Schema_load schema data) with
  | inr v => ok v
  | inl e => raise (Failed e)
  end.
Proof. reflexivity. Qed.

(** ** C8 *)

(** C8, as stated, fails: every failure is raised as the generic
    [ValueError]; and a Stock mapping without its opening price is refused
    before the schema runs, so its too short symbol is not reported. *)
Lemma schema_failure_counterexample :
  let m := [("symbol", VStr "TS"); ("date", VStr "2023-01-05"); ("high", VStr "101");
            ("low", VStr "99.5"); ("close", VStr "100"); ("volume", VInt 1200)] in
  fst (deserialize_with_marshmallow (Mapping m) StockSchema)
  = raise (Failed (ValueError (Some "Missing required field 'open'")))
  /\ field_invalid (mkField "symbol" FStr None true [Length_equal 4] false) m
  /\ forall errors,
       fst (deserialize_with_marshmallow
              (Text (trade_doc "TSLA" (mkDatetime (mkDate 2023 1 5) 9 30 0 0 None) "hold"
                       (Finite false 995 (-2)) 10 (Finite false 1 0))) TradeSchema)
       <> raise (ValidationError errors).
Proof.
  cbv zeta. split; [reflexivity|]. split.
  - eexists. vm_compute. reflexivity.
  - intros errors. vm_compute. discriminate.
Qed.

(** C8 (amended).  On the schema path every failure is raised as a
    [ValueError] whose message quotes the cause.  When the cause is the
    schema's validation error, it names every field of the schema whose
    value is missing or invalid, and no other.  A Trade whose [order] is
    neither [buy] nor [sell] is refused with the cause naming [order].  A
    Stock mapping with neither [open] nor [open_] is refused before the
    schema runs, with the cause naming [open] alone. *)
Theorem schema_failure_report (p : payload) (schema : Schema) (e : exn)
    symbol timestamp order price volume commission :
  fst (deserialize_with_marshmallow p schema) = raise e ->
  valid_symbol symbol -> valid_datetime timestamp = true -> ~ valid_order order ->
  (exists cause,
     e = Failed cause
     /\ forall m errors,
          validated_data p schema = ok (VDict m) -> cause = ValidationError errors ->
          forall f, In f (declared_fields schema) -> dump_only f = false ->
            (dict_in (wire_key f) errors = true <-> field_invalid f m))
  /\ fst (deserialize_with_marshmallow
            (Text (trade_doc symbol timestamp order price volume commission)) TradeSchema)
     = raise (Failed (ValidationError [("order", ["Must be one of: buy, sell."])]))
  /\ forall m, dict_get "open_" m = None -> dict_get "open" m = None ->
       fst (deserialize_with_marshmallow (Mapping m) StockSchema)
       = raise (Failed (ValueError (Some "Missing required field 'open'"))).
Proof.
  intros He Hs Ht Ho. split; [|split].
  - rewrite deserialize_result in He.
    destruct (data <- validated_data p schema ;; Schema_load schema data) as [c|v] eqn:E;
      try discriminate He.
    injection He as <-. exists c. split; auto.
    intros m errors Hv ->. rewrite Hv in E. cbn [bind ok] in E.
    now apply Schema_load_reports.
  - unfold valid_symbol in Hs.
    assert (Hb : String.eqb order "buy" = false)
      by (apply String.eqb_neq; intros ->; apply Ho; now left).
    assert (Hl : String.eqb order "sell" = false)
      by (apply String.eqb_neq; intros ->; apply Ho; now right).
    unfold deserialize_with_marshmallow, trade_doc. cbn.
    rewrite Hs, Hb, Hl, (datetime_roundtrip _ Ht). cbn.
    rewrite !DecimalField_deserialize_to_str. reflexivity.
  - intros m H1 H2. unfold deserialize_with_marshmallow, validated_data.
    cbn [fst payload_data bind ok prepare py_contains]. unfold dict_in. rewrite H1, H2.
    reflexivity.
Qed.

Lemma schema_failure_report_witness :
  let doc := trade_doc "TSLA" (mkDatetime (mkDate 2023 1 5) 9 30 0 0 None) "hold"
                       (Finite false 995 (-2)) 10 (Finite false 1 0) in
  fst (deserialize_with_marshmallow (Text doc) TradeSchema)
  = raise (Failed (ValidationError [("order", ["Must be one of: buy, sell."])]))
  /\ valid_symbol "TSLA"
  /\ valid_datetime (mkDatetime (mkDate 2023 1 5) 9 30 0 0 None) = true
  /\ ~ valid_order "hold"
  /\ exists cause,
       Failed (ValidationError [("order", ["Must be one of: buy, sell."])]) = Failed cause
       /\ forall m errors,
            validated_data (Text doc) TradeSchema = ok (VDict m) ->
            cause = ValidationError errors ->
            forall f, In f (declared_fields TradeSchema) -> dump_only f = false ->
              (dict_in (wire_key f) errors = true <-> field_invalid f m).
Proof.
  cbv zeta. split; [reflexivity|]. split; [reflexivity|]. split; [reflexivity|].
  split; [intros [H|H]; discriminate H|].
  apply (schema_failure_report
           (Text (trade_doc "TSLA" (mkDatetime (mkDate 2023 1 5) 9 30 0 0 None) "hold"
                    (Finite false 995 (-2)) 10 (Finite false 1 0)))
           TradeSchema (Failed (ValidationError [("order", ["Must be one of: buy, sell."])]))
           "TSLA" (mkDatetime (mkDate 2023 1 5) 9 30 0 0 None) "hold"
           (Finite false 995 (-2)) 10 (Finite false 1 0)).
  - reflexivity.
  - reflexivity.
  - reflexivity.
  - intros [H|H]; discriminate H.
Defined.

(** ** C9 *)

Lemma symbol_field_first (schema : Schema) :
  exists rest, declared_fields schema = symbol_field :: rest.
Proof. destruct schema; eexists; reflexivity. Qed.

Lemma symbol_check (symbol : string) :
  deserialize_raw symbol_field (Some (VStr symbol)) =
  if Nat.eqb (String.length symbol) 4 then ok (Some (VStr symbol))
  else raise (FieldError ["Length must be 4."]).
Proof.
  unfold deserialize_raw, symbol_field. cbn.
  destruct (Nat.eqb (String.length symbol) 4); reflexivity.
Qed.

(** Before loading, only the keys [open] and [open_] of a mapping are
    touched. *)
Lemma prepare_mapping (schema : Schema) (m : dict) (data : pyval) :
  prepare schema (VDict m) = ok data ->
  exists m', data = VDict m'
             /\ forall k, k <> "open" -> k <> "open_" -> dict_get k m' = dict_get k m.
Proof.
  destruct schema; cbn [prepare py_contains bind ok].
  - unfold dict_in. destruct (dict_get "open_" m) as [v|] eqn:E.
    + intros H. injection H as <-. eexists; split; eauto. intros k N1 N2.
      rewrite dict_get_set_other, dict_get_del_other; auto.
    + destruct (dict_get "open" m); try discriminate.
      intros H. injection H as <-. eauto.
  - intros H. injection H as <-. eauto.
Qed.

Lemma prepare_exn (schema : Schema) (data : pyval) (errors : list (string * list string)) :
  prepare schema data <> raise (ValidationError errors).
Proof.
  destruct schema; cbn [prepare]; try discriminate.
  destruct (py_contains "open_" data) as [e|[|]] eqn:E1; cbn [bind].
  - destruct data; simpl in E1; try discriminate; injection E1 as <-; discriminate.
  - destruct data; try discriminate. destruct (dict_get "open_" m); discriminate.
  - destruct (py_contains "open" data) as [e|[|]] eqn:E2; cbn [bind]; try discriminate.
    destruct data; simpl in E2; try discriminate; injection E2 as <-; discriminate.
Qed.

(** C9.  On the schema path, for both record kinds: an input whose
    [symbol] is a string of a length other than 4 is refused, and a symbol
    of 4 characters passes the field's check and is never among the fields
    reported. *)
Theorem symbol_length_enforced (schema : Schema) (p : payload) (m : dict) (symbol : string) :
  payload_data p = ok (VDict m) ->
  dict_get "symbol" m = Some (VStr symbol) ->
  (String.length symbol <> 4%nat ->
     exists e, fst (deserialize_with_marshmallow p schema) = raise (Failed e))
  /\ (String.length symbol = 4%nat ->
        deserialize_raw symbol_field (Some (VStr symbol)) = ok (Some (VStr symbol))
        /\ forall errors,
             fst (deserialize_with_marshmallow p schema)
             = raise (Failed (ValidationError errors)) ->
             dict_in "symbol" errors = false).
Proof.
  intros Hp Hsym. rewrite deserialize_result. unfold validated_data.
  rewrite Hp. cbn [bind ok].
  destruct (symbol_field_first schema) as (rest & Hfields).
  split.
  - intros Hlen.
    destruct (prepare schema (VDict m)) as [e|data] eqn:Eprep; cbn [bind]; [eauto|].
    destruct (prepare_mapping _ _ _ Eprep) as (m' & -> & Hsame).
    destruct (Schema_load schema (VDict m')) as [e|v] eqn:El; [eauto|].
    exfalso. unfold Schema_load in El. rewrite Hfields in El.
    cbn [load_loop symbol_field dump_only wire_key data_key attr_name] in El.
    rewrite Hsame, Hsym in El by discriminate.
    fold symbol_field in El. rewrite symbol_check in El.
    apply Nat.eqb_neq in Hlen. rewrite Hlen in El.
    cbn [raise] in El.
    destruct (load_loop rest m' [] (store_error "symbol" ["Length must be 4."] []))
      as [e|[ret errors]] eqn:Eloop; cbn [bind] in El; try discriminate El.
    assert (Hin : dict_in "symbol" errors = true).
    { rewrite (load_loop_errors _ _ _ _ _ _ Eloop). left. reflexivity. }
    destruct errors; [discriminate Hin | discriminate El].
  - intros Hlen. split.
    + rewrite symbol_check, Hlen. reflexivity.
    + intros errors Hres.
      destruct (prepare schema (VDict m)) as [e|data] eqn:Eprep; cbn [bind] in Hres.
      * injection Hres as ->. exfalso. eapply prepare_exn. exact Eprep.
      * destruct (prepare_mapping _ _ _ Eprep) as (m' & -> & Hsame).
        destruct (Schema_load schema (VDict m')) as [e|v] eqn:El; try discriminate Hres.
        injection Hres as ->.
        destruct (dict_in "symbol" errors) eqn:Hin; auto. exfalso.
        assert (Hf : In symbol_field (declared_fields schema))
          by (rewrite Hfields; now left).
        apply (Schema_load_reports _ _ _ El symbol_field Hf eq_refl) in Hin.
        destruct Hin as (msgs & Hi). cbn [wire_key symbol_field data_key attr_name] in Hi.
        rewrite Hsame, Hsym in Hi by discriminate.
        fold symbol_field in Hi. rewrite symbol_check, Hlen in Hi. discriminate Hi.
Qed.

Lemma symbol_length_enforced_witness :
  let m := [("symbol", VStr "TSL"); ("timestamp", VStr "2023-01-05T09:30:00");
            ("order", VStr "buy"); ("price", VStr "9.95"); ("commission", VStr "1");
            ("volume", VInt 10)] in
  payload_data (Mapping m) = ok (VDict m)
  /\ dict_get "symbol" m = Some (VStr "TSL")
  /\ String.length "TSL" <> 4%nat
  /\ exists e, fst (deserialize_with_marshmallow (Mapping m) TradeSchema) = raise (Failed e).
Proof.
  cbv zeta. split; [reflexivity|]. split; [reflexivity|]. split; [discriminate|].
  apply (symbol_length_enforced TradeSchema
           (Mapping [("symbol", VStr "TSL"); ("timestamp", VStr "2023-01-05T09:30:00");
                     ("order", VStr "buy"); ("price", VStr "9.95"); ("commission", VStr "1");
                     ("volume", VInt 10)])
           [("symbol", VStr "TSL"); ("timestamp", VStr "2023-01-05T09:30:00");
            ("order", VStr "buy"); ("price", VStr "9.95"); ("commission", VStr "1");
            ("volume", VInt 10)] "TSL").
  - reflexivity.
  - reflexivity.
  - discriminate.
Defined.

Example symbol_length_3_and_5 :
  let trade symbol := Mapping [("symbol", VStr symbol); ("timestamp", VStr "2023-01-05T09:30:00");
                               ("order", VStr "buy"); ("price", VStr "9.95");
                               ("commission", VStr "1"); ("volume", VInt 10)] in
  let stock symbol := Mapping [("symbol", VStr symbol); ("date", VStr "2023-01-05");
                               ("open", VStr "100.50"); ("high", VStr "101");
                               ("low", VStr "99.5"); ("close", VStr "100");
                               ("volume", VInt 1200)] in
  let refused := raise (Failed (ValidationError [("symbol", ["Length must be 4."])])) in
  fst (deserialize_with_marshmallow (trade "TSL") TradeSchema) = refused
  /\ fst (deserialize_with_marshmallow (trade "TSLAX") TradeSchema) = refused
  /\ fst (deserialize_with_marshmallow (stock "TSL") StockSchema) = refused
  /\ fst (deserialize_with_marshmallow (stock "TSLAX") StockSchema) = refused
  /\ fst (deserialize_with_marshmallow (stock "TSLA") StockSchema)
     = ok (mk_stock "TSLA" (mkDate 2023 1 5) (Finite false 10050 (-2)) (Finite false 101 0)
             (Finite false 995 (-1)) (Finite false 100 0) 1200).
Proof. cbv zeta. repeat split; vm_compute; reflexivity. Qed.

(* ================================================================== *)
(** * Further properties of the codecs *)
(* ================================================================== *)

(** ** The tagged path *)








(** X3.  [CustomEncoder.default] changes the Stock it is given.  With an
    attribute [open], the mapping it returns is the instance's own
    attributes with that value moved to [open_]: [open] is gone, [open_]
    holds its value, every other attribute is as it was.  A second call,
    on the instance so changed, changes nothing. *)
Theorem default_renames_open (attrs : dict) (v : pyval) :
  dict_get "open" attrs = Some v ->
  exists data,
    CustomEncoder_default (VStock attrs) = ok (VDict data, VStock data)
    /\ dict_get "open_" data = Some v
    /\ dict_get "open" data = None
    /\ (forall k, k <> "open" -> k <> "open_" -> dict_get k data = dict_get k attrs)
    /\ CustomEncoder_default (VStock data) = ok (VDict data, VStock data).
Proof.
  intros Hg. exists (dict_set "open_" v (dict_del "open" attrs)).
  assert (Hn : dict_get "open" (dict_set "open_" v (dict_del "open" attrs)) = None).
  { rewrite dict_get_set_other by discriminate. apply dict_get_del_same. }
  split; [|split; [|split; [|split]]].
  - cbn [CustomEncoder_default]. rewrite Hg. reflexivity.
  - apply dict_get_set_same.
  - exact Hn.
  - intros k N1 N2. rewrite dict_get_set_other, dict_get_del_other; auto.
  - cbn [CustomEncoder_default]. rewrite Hn. reflexivity.
Qed.

Lemma default_renames_open_witness :
  let attrs := [("symbol", VStr "TSLA"); ("open", VInt 1); ("datatype", VStr "stock")] in
  dict_get "open" attrs = Some (VInt 1)
  /\ exists data,
       CustomEncoder_default (VStock attrs) = ok (VDict data, VStock data)
       /\ dict_get "open_" data = Some (VInt 1)
       /\ dict_get "open" data = None
       /\ (forall k, k <> "open" -> k <> "open_" -> dict_get k data = dict_get k attrs)
       /\ CustomEncoder_default (VStock data) = ok (VDict data, VStock data).
Proof.
  cbv zeta. split; [reflexivity|].
  apply (default_renames_open
           [("symbol", VStr "TSLA"); ("open", VInt 1); ("datatype", VStr "stock")] (VInt 1)).
  reflexivity.
Defined.

(** X4.  Encoding a Stock a second time writes the same document and
    changes nothing more; and the Stock the first call leaves differs from
    the one it was given. *)
Theorem encode_twice symbol date open_ high low close volume :
  let x := mk_stock symbol date open_ high low close volume in
  exists doc x',
    encode x = ok (doc, x') /\ encode x' = ok (doc, x') /\ x' <> x
    /\ get_value x' "open" = None /\ get_value x' "open_" = Some (VDecimal open_).
Proof.
  cbv zeta.
  exists (tagged_stock_doc symbol date open_ high low close volume),
         (stock_after_encode symbol date open_ high low close volume).
  split; [reflexivity|]. split; [reflexivity|]. split; [discriminate|].
  split; reflexivity.
Qed.

(** Induction on documents, through their lists and members. *)
Lemma json_induction (P : json -> Prop) :
  P JNull -> (forall b, P (JBool b)) -> (forall z, P (JInt z)) -> (forall s, P (JStr s)) ->
  (forall l, Forall P l -> P (JList l)) ->
  (forall ms, Forall (fun kv => P (snd kv)) ms -> P (JObject ms)) ->
  (forall f, P (JFloat f)) ->
  forall j, P j.
Proof.
  intros Hn Hb Hz Hs Hl Ho Hf.
  fix IH 1.
  intros [ |b|z|s|l|ms|f]; [exact Hn | apply Hb | apply Hz | apply Hs | | | apply Hf].
  - apply Hl. induction l as [|x l IHl]; constructor; [apply IH | exact IHl].
  - apply Ho. induction ms as [|[k x] ms IHms]; constructor; [apply IH | exact IHms].
Qed.

Lemma dict_get_none_keys {A B : Type} (k : string) (a : list (string * A))
    (b : list (string * B)) :
  map fst a = map fst b -> dict_get k a = None -> dict_get k b = None.
Proof.
  revert b. induction a as [|[ka va] a IH]; intros [|[kb vb] b] E; simpl in *;
    try discriminate; auto.
  injection E as -> E. destruct (String.eqb kb k); try discriminate. now apply IH.
Qed.

Lemma dict_of_pairs_get_none {V : Type} (k : string) (pairs : list (string * V)) :
  dict_get k pairs = None -> dict_get k (dict_of_pairs pairs) = None.
Proof.
  unfold dict_of_pairs.
  assert (H : forall acc, dict_get k acc = None -> dict_get k pairs = None ->
                          dict_get k (fold_left (fun d kv => dict_set (fst kv) (snd kv) d)
                                        pairs acc) = None).
  { induction pairs as [|[k' v'] pairs IH]; intros acc Ha Hp; simpl in *; auto.
    destruct (String.eqb_spec k' k) as [->|N]; try discriminate.
    apply IH; auto. rewrite dict_get_set_other; auto. }
  intros Hp. apply H; auto.
Qed.

Lemma loads_members_keys (ms : list (string * json)) :
  exists pairs, loads_members (fun v => ok v) ms = ok pairs /\ map fst pairs = map fst ms.
Proof.
  assert (T : forall j, exists v, loads (fun v => ok v) j = ok v).
  { apply json_induction; try (intros; eexists; reflexivity).
    - intros l Hl.
      assert (E : exists vs, loads_items (fun v => ok v) l = ok vs).
      { induction Hl as [|x l (v & Hv) _ (vs & Hvs)]; [eexists; reflexivity|].
        exists (v :: vs). cbn [loads_items]. rewrite Hv. cbn [bind ok].
        fold (loads_items (fun v => ok v)). rewrite Hvs. reflexivity. }
      destruct E as (vs & E). exists (VList vs). cbn [loads].
      fold (loads_items (fun v => ok v)). now rewrite E.
    - intros ms' Hms.
      assert (E : exists ps, loads_members (fun v => ok v) ms' = ok ps).
      { induction Hms as [|[k x] ms' (v & Hv) _ (ps & Hps)]; [eexists; reflexivity|].
        exists ((k, v) :: ps). cbn [loads_members]. cbn [snd] in Hv. rewrite Hv.
        cbn [bind ok]. fold (loads_members (fun v => ok v)). rewrite Hps. reflexivity. }
      destruct E as (ps & E). eexists. cbn [loads].
      fold (loads_members (fun v => ok v)). rewrite E. reflexivity. }
  induction ms as [|[k x] ms (pairs & Hp & Hk)]; [exists []; split; reflexivity|].
  destruct (T x) as (v & Hv). exists ((k, v) :: pairs). split.
  - cbn [loads_members]. rewrite Hv. cbn [bind ok].
    fold (loads_members (fun v => ok v)). rewrite Hp. reflexivity.
  - simpl. now rewrite Hk.
Qed.

(** X5.  On a document that has no member named [datatype], at any depth,
    the tagged decoder is plain [json.loads]: nothing is interpreted. *)
Theorem decode_untagged (doc : json) :
  untagged doc = true -> decode doc = loads (fun v => ok v) doc.
Proof.
  unfold decode. induction doc as [ |b|z|s|l Hl|ms Hms|f] using json_induction;
    intros Hu; try reflexivity.
  - cbn [untagged] in Hu. cbn [loads].
    fold (loads_items custom_decoder) (loads_items (fun v => ok v)).
    assert (E : loads_items custom_decoder l = loads_items (fun v => ok v) l).
    { induction Hl as [|x l Hx _ IH]; [reflexivity|].
      cbn [forallb] in Hu. apply andb_prop in Hu as [Hux Hul].
      cbn [loads_items]. rewrite (Hx Hux).
      fold (loads_items custom_decoder) (loads_items (fun v => ok v)).
      now rewrite (IH Hul). }
    now rewrite E.
  - cbn [untagged] in Hu. apply andb_prop in Hu as [Hd Hu].
    cbn [loads].
    fold (loads_members custom_decoder) (loads_members (fun v => ok v)).
    assert (E : loads_members custom_decoder ms = loads_members (fun v => ok v) ms).
    { clear Hd. induction Hms as [|[k x] ms Hx _ IH]; [reflexivity|].
      cbn [forallb snd] in Hu. apply andb_prop in Hu as [Hux Hul].
      cbn [loads_members]. cbn [snd] in Hx. rewrite (Hx Hux).
      fold (loads_members custom_decoder) (loads_members (fun v => ok v)).
      now rewrite (IH Hul). }
    rewrite E. destruct (loads_members_keys ms) as (pairs & Hp & Hk).
    rewrite Hp. cbn [bind ok]. unfold custom_decoder.
    rewrite dict_of_pairs_get_none; [reflexivity|].
    apply (dict_get_none_keys "datatype" ms pairs (eq_sym Hk)).
    unfold dict_in in Hd. destruct (dict_get "datatype" ms); [discriminate Hd | reflexivity].
Qed.

Lemma decode_untagged_witness :
  let doc := JObject [("symbol", JStr "TSLA"); ("legs", JList [JObject [("x", JInt 1)]])] in
  untagged doc = true
  /\ decode doc = loads (fun v => ok v) doc.
Proof.
  cbv zeta. split; [reflexivity|].
  apply (decode_untagged
           (JObject [("symbol", JStr "TSLA"); ("legs", JList [JObject [("x", JInt 1)]])])).
  reflexivity.
Defined.

(** X6.  Encoded on its own, a calendar date round-trips, but a decimal and
    a timestamp do not: each comes back as the string the encoder wrote,
    since no tag tells the decoder what it was. *)
Theorem scalar_roundtrips (d : Date) (dec : Decimal) (t : Datetime) :
  valid_date d = true ->
  tagged_roundtrip (VDate d)
  /\ (exists doc x', encode (VDecimal dec) = ok (doc, x')
                     /\ decode doc = ok (VStr (to_str dec)))
  /\ (exists doc x', encode (VDatetime t) = ok (doc, x')
                     /\ decode doc = ok (VStr (datetime_isoformat t)))
  /\ ~ tagged_roundtrip (VDecimal dec)
  /\ ~ tagged_roundtrip (VDatetime t).
Proof.
  intros Hd.
  assert (Ed : encode (VDecimal dec) = ok (JStr (to_str dec), VDecimal dec)) by reflexivity.
  assert (Et : encode (VDatetime t) = ok (JStr (datetime_isoformat t), VDatetime t))
    by reflexivity.
  split; [|split; [|split; [|split]]].
  - exists (JObject [("datatype", JStr "date"); ("date", JStr (date_isoformat d))]), (VDate d).
    split; [reflexivity|]. unfold decode. cbn. now rewrite (date_roundtrip _ Hd).
  - eexists; eexists; split; [exact Ed | reflexivity].
  - eexists; eexists; split; [exact Et | reflexivity].
  - intros (doc & x' & He & Hx). rewrite Ed in He. injection He as <- <-. discriminate Hx.
  - intros (doc & x' & He & Hx). rewrite Et in He. injection He as <- <-. discriminate Hx.
Qed.

Lemma scalar_roundtrips_witness :
  valid_date (mkDate 2023 1 5) = true /\ tagged_roundtrip (VDate (mkDate 2023 1 5)).
Proof.
  split; [reflexivity|].
  apply (scalar_roundtrips (mkDate 2023 1 5) (Finite false 995 (-2))
           (mkDatetime (mkDate 2023 1 5) 9 30 0 0 None)).
  reflexivity.
Defined.

(** X7.  What the tagged decoder raises on a mapping that lacks a key.  A
    Trade without [timestamp] is refused with the [ValueError] of parsing
    the empty string, not with a [KeyError]; with a timestamp but no
    [price] the error is [KeyError('price')].  A Stock with neither [open]
    nor [open_] is refused with [KeyError('open_')]. *)
Theorem tagged_decoder_missing_keys (m : dict) (t : Datetime) :
  (dict_get "datatype" m = Some (VStr "trade") -> dict_get "timestamp" m = None ->
     custom_decoder (VDict m) = raise (ValueError None))
  /\ (dict_get "datatype" m = Some (VStr "trade") ->
      dict_get "timestamp" m = Some (VStr (datetime_isoformat t)) ->
      valid_datetime t = true -> dict_get "price" m = None ->
        custom_decoder (VDict m) = raise (KeyError "price"))
  /\ (dict_get "datatype" m = Some (VStr "stock") ->
      dict_get "open" m = None -> dict_get "open_" m = None ->
        custom_decoder (VDict m) = raise (KeyError "open_")).
Proof.
  split; [|split].
  - intros Hd Ht. unfold custom_decoder. rewrite Hd. cbn [eq_str String.eqb Ascii.eqb Bool.eqb].
    unfold decode_trade_branch. rewrite dict_get_del_other, Ht by discriminate.
    reflexivity.
  - intros Hd Ht Hv Hp. unfold custom_decoder. rewrite Hd.
    cbn [eq_str String.eqb Ascii.eqb Bool.eqb].
    unfold decode_trade_branch. rewrite dict_get_del_other, Ht by discriminate.
    cbn [datetime_fromisoformat_of]. rewrite (datetime_roundtrip _ Hv). cbn [bind ok].
    cbn [coerce_decimals].
    rewrite dict_get_set_other, dict_get_del_other, Hp by discriminate. reflexivity.
  - intros Hd Ho Ho'. unfold custom_decoder. rewrite Hd.
    cbn [eq_str String.eqb Ascii.eqb Bool.eqb].
    unfold decode_stock_branch. rewrite dict_get_del_other, Ho by discriminate.
    cbn [coerce_decimals]. rewrite dict_get_del_other, Ho' by discriminate. reflexivity.
Qed.

Lemma tagged_decoder_missing_keys_witness :
  let m := [("datatype", VStr "trade"); ("symbol", VStr "TSLA")] in
  dict_get "datatype" m = Some (VStr "trade") /\ dict_get "timestamp" m = None
  /\ custom_decoder (VDict m) = raise (ValueError None).
Proof.
  cbv zeta. split; [reflexivity|]. split; [reflexivity|].
  apply (tagged_decoder_missing_keys [("datatype", VStr "trade"); ("symbol", VStr "TSLA")]
           (mkDatetime (mkDate 2023 1 5) 9 30 0 0 None)); reflexivity.
Defined.

(** X8.  The tagged decoder checks nothing about [symbol], [order] and
    [volume]: whatever values the mapping holds for them are handed to the
    constructor.  A key that is no parameter of the constructor makes the
    call fail with a [TypeError]. *)
Theorem tagged_decoder_validates_nothing
    (symbol order volume : pyval) (t : Datetime) (price commission : Decimal)
    (k : string) (v : pyval) :
  valid_datetime t = true ->
  String.eqb k "datatype" = false ->
  existsb (String.eqb k) ["symbol"; "timestamp"; "order"; "price"; "volume"; "commission"]
  = false ->
  let m := trade_mapping symbol t order price volume commission in
  custom_decoder (VDict m)
  = ok (Trade symbol (VDatetime t) order (VDecimal price) volume (VDecimal commission))
  /\ custom_decoder (VDict (m ++ [(k, v)])) = raise TypeError.
Proof.
  intros Ht Hk Hp. cbv zeta. unfold trade_mapping, custom_decoder. split.
  - cbn. unfold decode_trade_branch. cbn.
    rewrite (datetime_roundtrip _ Ht). cbn. rewrite !of_str_to_str. reflexivity.
  - cbn. rewrite Hk. unfold decode_trade_branch. cbn.
    rewrite (datetime_roundtrip _ Ht). cbn. rewrite !of_str_to_str.
    cbn -[Trade_kw].
    unfold Trade_kw, only_params. cbn [forallb fst].
    rewrite Hp. reflexivity.
Qed.

Lemma tagged_decoder_validates_nothing_witness :
  let t := mkDatetime (mkDate 2023 1 5) 9 30 0 0 None in
  let m := trade_mapping (VInt 7) t VNone (Finite false 995 (-2)) (VStr "many")
                         (Finite false 1 0) in
  valid_datetime t = true
  /\ custom_decoder (VDict m)
     = ok (Trade (VInt 7) (VDatetime t) VNone (VDecimal (Finite false 995 (-2)))
             (VStr "many") (VDecimal (Finite false 1 0)))
  /\ custom_decoder (VDict (m ++ [("note", VStr "x")])) = raise TypeError.
Proof.
  cbv zeta. split; [reflexivity|].
  apply (tagged_decoder_validates_nothing (VInt 7) VNone (VStr "many")
           (mkDatetime (mkDate 2023 1 5) 9 30 0 0 None) (Finite false 995 (-2))
           (Finite false 1 0) "note" (VStr "x")); reflexivity.
Defined.

(** ** The schema path *)

Lemma load_loop_ext (fields : list field) (m1 m2 ret : dict) errors :
  (forall f, In f fields -> dump_only f = false ->
             dict_get (wire_key f) m1 = dict_get (wire_key f) m2) ->
  load_loop fields m1 ret errors = load_loop fields m2 ret errors.
Proof.
  revert ret errors. induction fields as [|f fields IH]; intros ret errors H; [reflexivity|].
  assert (IH' : forall ret errors, load_loop fields m1 ret errors = load_loop fields m2 ret errors).
  { intros; apply IH. intros f' Hin. apply H. now right. }
  cbn [load_loop]. destruct (dump_only f) eqn:Ed; [apply IH'|].
  rewrite (H f (or_introl eq_refl) Ed).
  destruct (deserialize_raw f (dict_get (wire_key f) m2)) as [[]|[v|]]; auto.
Qed.

Lemma Schema_load_ext (schema : Schema) (m1 m2 : dict) :
  (forall f, In f (declared_fields schema) -> dump_only f = false ->
             dict_get (wire_key f) m1 = dict_get (wire_key f) m2) ->
  Schema_load schema (VDict m1) = Schema_load schema (VDict m2).
Proof.
  intros H. unfold Schema_load. now rewrite (load_loop_ext _ m1 m2 [] [] H).
Qed.

Lemma wire_key_not_open_ (schema : Schema) (f : field) :
  In f (declared_fields schema) -> wire_key f <> "open_".
Proof.
  intros Hin. destruct schema; cbn [declared_fields In] in Hin;
    repeat (destruct Hin as [<-|Hin]; [discriminate|]); contradiction.
Qed.

(** X9.  The schema decoder reads the keys of its fields and [open_], and
    nothing else: two mappings that agree on them give the same outcome.
    So the order of the keys, keys the schema does not know and a
    [datatype] the caller supplies make no difference. *)
Theorem schema_reads_only_its_keys (schema : Schema) (m1 m2 : dict) :
  (forall f, In f (declared_fields schema) -> dump_only f = false ->
             dict_get (wire_key f) m1 = dict_get (wire_key f) m2) ->
  dict_get "open_" m1 = dict_get "open_" m2 ->
  Schema_load schema (VDict m1) = Schema_load schema (VDict m2)
  /\ fst (deserialize_with_marshmallow (Mapping m1) schema)
     = fst (deserialize_with_marshmallow (Mapping m2) schema).
Proof.
  intros H Ho.
  pose proof (Schema_load_ext schema) as L.
  split; [now apply L|].
  rewrite !deserialize_result. unfold validated_data. cbn [payload_data bind ok].
  destruct schema; cbn [prepare py_contains bind ok].
  - unfold dict_in. rewrite <- Ho.
    destruct (dict_get "open_" m1) as [v|].
    + cbn [bind ok]. rewrite (L (dict_set "open" v (dict_del "open_" m1))
                                 (dict_set "open" v (dict_del "open_" m2))); [reflexivity|].
      intros f Hin Hd.
      destruct (String.eqb_spec (wire_key f) "open") as [E|N].
      * rewrite E, !dict_get_set_same. reflexivity.
      * rewrite !dict_get_set_other by congruence.
        pose proof (wire_key_not_open_ StockSchema f Hin) as N'.
        rewrite !dict_get_del_other by congruence. now apply H.
    + assert (E : dict_get "open" m1 = dict_get "open" m2).
      { apply (H (mkField "open_" FDecimalField (Some "open") true [] false)); [|reflexivity].
        cbn [declared_fields In]. auto. }
      rewrite <- E. destruct (dict_get "open" m1); cbn [bind ok]; [|reflexivity].
      now rewrite (L m1 m2 H).
  - now rewrite (L m1 m2 H).
Qed.

Lemma schema_reads_only_its_keys_witness :
  let m1 := [("symbol", VStr "TSLA"); ("timestamp", VStr "2023-01-05T09:30:00");
             ("order", VStr "buy"); ("price", VStr "9.95"); ("commission", VStr "1");
             ("volume", VInt 10)] in
  let m2 := [("datatype", VStr "stock"); ("volume", VInt 10); ("note", VNone);
             ("commission", VStr "1"); ("price", VStr "9.95"); ("order", VStr "buy");
             ("timestamp", VStr "2023-01-05T09:30:00"); ("symbol", VStr "TSLA")] in
  fst (deserialize_with_marshmallow (Mapping m1) TradeSchema)
  = fst (deserialize_with_marshmallow (Mapping m2) TradeSchema).
Proof.
  cbv zeta.
  apply (schema_reads_only_its_keys TradeSchema
           [("symbol", VStr "TSLA"); ("timestamp", VStr "2023-01-05T09:30:00");
            ("order", VStr "buy"); ("price", VStr "9.95"); ("commission", VStr "1");
            ("volume", VInt 10)]
           [("datatype", VStr "stock"); ("volume", VInt 10); ("note", VNone);
            ("commission", VStr "1"); ("price", VStr "9.95"); ("order", VStr "buy");
            ("timestamp", VStr "2023-01-05T09:30:00"); ("symbol", VStr "TSLA")]).
  - intros f Hin Hd. cbn [declared_fields In] in Hin.
    repeat (destruct Hin as [<-|Hin]; [reflexivity || discriminate Hd|]). contradiction.
  - reflexivity.
Defined.

(** X10.  Every field the schema finds missing or invalid makes the call
    fail; a required key that is absent is such a field. *)
Theorem invalid_field_fails (p : payload) (schema : Schema) (m : dict) (f : field) :
  validated_data p schema = ok (VDict m) ->
  In f (declared_fields schema) -> dump_only f = false ->
  field_invalid f m \/ dict_get (wire_key f) m = None ->
  exists e, fst (deserialize_with_marshmallow p schema) = raise (Failed e).
Proof.
  intros Hv Hin Hd Hi.
  assert (Hf : field_invalid f m).
  { destruct Hi as [Hi|Hn]; [exact Hi|].
    exists ["Missing data for required field."]. rewrite Hn.
    assert (R : required f = true).
    { destruct schema; cbn [declared_fields In] in Hin;
        repeat (destruct Hin as [<-|Hin]; [reflexivity || discriminate Hd|]); contradiction. }
    unfold deserialize_raw. now rewrite R. }
  rewrite deserialize_result, Hv. cbn [bind ok].
  destruct (Schema_load schema (VDict m)) as [e|v] eqn:El; [eauto|]. exfalso.
  unfold Schema_load in El.
  destruct (load_loop (declared_fields schema) m [] []) as [e|[ret errors]] eqn:Eloop;
    cbn [bind] in El; try discriminate El.
  assert (Hk : dict_in (wire_key f) errors = true).
  { rewrite (load_loop_errors _ _ _ _ _ _ Eloop). right. exists f. auto. }
  destruct errors; [discriminate Hk | discriminate El].
Qed.

Lemma invalid_field_fails_witness :
  let m := [("symbol", VStr "TSLA"); ("order", VStr "buy"); ("price", VStr "9.95");
            ("commission", VStr "1"); ("volume", VInt 10)] in
  let f := mkField "timestamp" FDateTime None true [] false in
  validated_data (Mapping m) TradeSchema = ok (VDict m)
  /\ In f (declared_fields TradeSchema) /\ dump_only f = false
  /\ dict_get (wire_key f) m = None
  /\ exists e, fst (deserialize_with_marshmallow (Mapping m) TradeSchema) = raise (Failed e).
Proof.
  cbv zeta. split; [reflexivity|]. split; [cbn; auto|]. split; [reflexivity|].
  split; [reflexivity|].
  apply (invalid_field_fails
           (Mapping [("symbol", VStr "TSLA"); ("order", VStr "buy"); ("price", VStr "9.95");
                     ("commission", VStr "1"); ("volume", VInt 10)])
           TradeSchema
           [("symbol", VStr "TSLA"); ("order", VStr "buy"); ("price", VStr "9.95");
            ("commission", VStr "1"); ("volume", VInt 10)]
           (mkField "timestamp" FDateTime None true [] false)).
  - reflexivity.
  - cbn; auto.
  - reflexivity.
  - right; reflexivity.
Defined.

Lemma dict_in_set {V : Type} (k k' : string) (v : V) (d : list (string * V)) :
  dict_in k (dict_set k' v d) = String.eqb k' k || dict_in k d.
Proof.
  unfold dict_in. destruct (String.eqb_spec k' k) as [->|N].
  - now rewrite dict_get_set_same.
  - rewrite dict_get_set_other by congruence. reflexivity.
Qed.

Lemma dict_in_keys {A B : Type} (k : string) (a : list (string * A)) (b : list (string * B)) :
  map fst a = map fst b -> dict_in k a = dict_in k b.
Proof.
  intros E. unfold dict_in.
  destruct (dict_get k a) eqn:Ea, (dict_get k b) eqn:Eb; try reflexivity.
  - now rewrite (dict_get_none_keys k b a (eq_sym E) Eb) in Ea.
  - now rewrite (dict_get_none_keys k a b E Ea) in Eb.
Qed.

Lemma serialize_attr_emitted (f : field) (obj : pyval) (r : option pyval) :
  serialize_attr f obj = ok r ->
  emitted f obj = match r with Some _ => true | None => false end.
Proof.
  unfold serialize_attr, emitted.
  destruct (ftype f) eqn:Et;
    try (destruct (get_value obj (attr_name f)) as [value|];
         [destruct (field_serialize _ value); cbn; intros H; inversion H; reflexivity
         | intros H; inversion H; reflexivity]).
  intros H; inversion H; reflexivity.
Qed.

Lemma dump_loop_keys (fields : list field) (obj : pyval) (ret d : dict) :
  dump_loop fields obj ret = ok d ->
  forall k, dict_in k d = true <->
            dict_in k ret = true
            \/ exists f, In f fields /\ wire_key f = k /\ emitted f obj = true.
Proof.
  revert ret. induction fields as [|f fields IH]; intros ret H k.
  - cbn in H. inversion H; subst. split; [auto|].
    intros [?|(f & [] & _)]; assumption.
  - cbn [dump_loop] in H.
    destruct (serialize_attr f obj) as [e|r] eqn:Es; [discriminate H|].
    pose proof (serialize_attr_emitted _ _ _ Es) as Em. cbn [bind] in H.
    destruct r as [value|].
    + rewrite (IH _ H k), dict_in_set. split.
      * intros [Hk|(g & Hg & Hw & He)].
        -- apply orb_true_iff in Hk. destruct Hk as [Hk|Hk]; [|now left].
           apply String.eqb_eq in Hk. right. exists f. cbn [In]. auto.
        -- right. exists g. cbn [In]. auto.
      * intros [Hk|(g & [->|Hg] & Hw & He)].
        -- left. rewrite Hk. apply orb_true_r.
        -- left. rewrite Hw, String.eqb_refl. reflexivity.
        -- right. exists g. auto.
    + rewrite (IH _ H k). split.
      * intros [Hk|(g & Hg & Hw & He)]; [now left|]. right. exists g. cbn [In]. auto.
      * intros [Hk|(g & [->|Hg] & Hw & He)]; [now left| congruence |].
        right. exists g. auto.
Qed.

Lemma dump_loop_constant (fields : list field) (f : field) (c : string) (obj : pyval)
    (ret d : dict) :
  ftype f = FConstant c ->
  dump_loop (fields ++ [f]) obj ret = ok d ->
  dict_get (wire_key f) d = Some (VStr c).
Proof.
  intros Hc. revert ret. induction fields as [|g fields IH]; intros ret H.
  - cbn [app dump_loop] in H. unfold serialize_attr in H. rewrite Hc in H.
    cbn in H. inversion H. apply dict_get_set_same.
  - cbn [app dump_loop] in H. destruct (serialize_attr g obj) as [e|[v|]];
      [discriminate H| |]; cbn [bind] in H; eapply IH; exact H.
Qed.

Lemma iterencode_dict (default : pyval -> Exc (pyval * pyval)) (n : nat) (d : dict) :
  iterencode default (S n) (VDict d) =
  (r <- mapM (fun kv => ' (j, v) <- iterencode default n (snd kv) ;;
                        ok ((fst kv, j), (fst kv, v))) d ;;
   ok (JObject (map fst r), VDict (map snd r))).
Proof. reflexivity. Qed.

Lemma iterencode_dict_members (default : pyval -> Exc (pyval * pyval)) (n : nat) (d : dict)
    (doc : json) (o' : pyval) :
  iterencode default (S (S n)) (VDict d) = ok (doc, o') ->
  exists members, doc = JObject members
    /\ map fst members = map fst d
    /\ forall k s, dict_get k d = Some (VStr s) -> dict_get k members = Some (JStr s).
Proof.
  rewrite iterencode_dict.
  set (g := fun kv : string * pyval =>
              ' (j, v) <- iterencode default (S n) (snd kv) ;; ok ((fst kv, j), (fst kv, v))).
  destruct (mapM g d) as [e|r] eqn:Er; cbn [bind ok]; [discriminate|].
  intros H. inversion H; subst. clear H. exists (map fst r).
  revert r Er. induction d as [|[k0 v0] d IH]; intros r Er.
  - cbn in Er. inversion Er. split; [reflexivity|]. split; [reflexivity|]. discriminate.
  - cbn [mapM] in Er. destruct (g (k0, v0)) as [e|b] eqn:Eb; [discriminate Er|].
    cbn [bind] in Er. destruct (mapM g d) as [e|bs] eqn:Ebs; [discriminate Er|].
    cbn [bind ok] in Er. inversion Er; subst. clear Er.
    destruct (IH bs eq_refl) as (_ & Hk & Hv).
    unfold g in Eb. cbn [fst snd] in Eb.
    destruct (iterencode default (S n) v0) as [e|[j v]] eqn:Ej; [discriminate Eb|].
    cbn [bind ok] in Eb. inversion Eb; subst. clear Eb.
    split; [reflexivity|]. split; [cbn; now rewrite Hk|].
    intros k s. cbn [map fst dict_get].
    destruct (String.eqb k0 k); [|apply Hv].
    intros E. injection E as ->. cbn in Ej. injection Ej as <- _. reflexivity.
Qed.

Lemma Schema_dump_keys (schema : Schema) (obj : pyval) (data : dict) :
  Schema_dump schema obj = ok data ->
  (forall k, dict_in k data = true <->
             exists f, In f (declared_fields schema) /\ wire_key f = k
                       /\ emitted f obj = true)
  /\ dict_in "open_" data = false
  /\ dict_get "datatype" data = Some (VStr (schema_tag schema)).
Proof.
  intros Hd. unfold Schema_dump in Hd.
  assert (Hk : forall k, dict_in k data = true <->
                         exists f, In f (declared_fields schema) /\ wire_key f = k
                                   /\ emitted f obj = true).
  { intros k. rewrite (dump_loop_keys _ _ _ _ Hd k). split; [|auto].
    intros [H|H]; [discriminate H|exact H]. }
  split; [exact Hk|]. split.
  - destruct (dict_in "open_" data) eqn:E; [|reflexivity].
    apply Hk in E. destruct E as (f & Hin & Hw & _).
    destruct schema; cbn [declared_fields In] in Hin;
      repeat (destruct Hin as [<-|Hin]; [discriminate Hw|]); contradiction.
  - destruct schema.
    + apply (dump_loop_constant
               [ mkField "symbol" FStr None true [Length_equal 4] false;
                 mkField "date" FDate None true [] false;
                 mkField "open_" FDecimalField (Some "open") true [] false;
                 mkField "high" FDecimalField None true [] false;
                 mkField "low" FDecimalField None true [] false;
                 mkField "close" FDecimalField None true [] false;
                 mkField "volume" FInteger None true [] false ]
               (mkField "datatype" (FConstant "stock") None false [] true)
               "stock" obj [] data eq_refl Hd).
    + apply (dump_loop_constant
               [ mkField "symbol" FStr None true [Length_equal 4] false;
                 mkField "timestamp" FDateTime None true [] false;
                 mkField "order" FStr None true [OneOf ["buy"; "sell"]] false;
                 mkField "price" FDecimalField None true [] false;
                 mkField "commission" FDecimalField None true [] false;
                 mkField "volume" FInteger None true [] false ]
               (mkField "datatype" (FConstant "trade") None false [] true)
               "trade" obj [] data eq_refl Hd).
Qed.

Lemma json_dumps_fuel (x : pyval) :
  json_dumps x = (' (j, _) <- iterencode JSONEncoder_default (S (S 998)) x ;; ok j).
Proof. reflexivity. Qed.

Lemma json_dumps_result (data : dict) (doc : json) :
  json_dumps (VDict data) = ok doc ->
  exists o', iterencode JSONEncoder_default (S (S 998)) (VDict data) = ok (doc, o').
Proof.
  intros H. rewrite json_dumps_fuel in H.
  destruct (iterencode JSONEncoder_default (S (S 998)) (VDict data)) as [e|[j o']] eqn:E.
  - exfalso. cbn [bind] in H. discriminate H.
  - cbn [bind ok] in H. injection H as ->. exists o'. reflexivity.
Qed.

Lemma json_dumps_members (data : dict) (doc : json) :
  json_dumps (VDict data) = ok doc ->
  exists members, doc = JObject members
    /\ map fst members = map fst data
    /\ forall k s, dict_get k data = Some (VStr s) -> dict_get k members = Some (JStr s).
Proof.
  intros H. destruct (json_dumps_result _ _ H) as (o' & E).
  exact (iterencode_dict_members JSONEncoder_default 998 data doc o' E).
Qed.

Lemma dumps_dump_members (schema : Schema) (obj : pyval) (data : dict) (doc : json) :
  Schema_dump schema obj = ok data -> json_dumps (VDict data) = ok doc ->
  exists members,
    doc = JObject members
    /\ (forall k, dict_in k members = true <->
                  exists f, In f (declared_fields schema) /\ wire_key f = k
                            /\ emitted f obj = true)
    /\ dict_in "open_" members = false
    /\ dict_get "datatype" members = Some (JStr (schema_tag schema)).
Proof.
  intros Hd Hj. destruct (Schema_dump_keys _ _ _ Hd) as (Hk & Ho & Ht).
  destruct (json_dumps_members _ _ Hj) as (members & -> & Hm & Hs). exists members.
  split; [reflexivity|]. split; [|split].
  - intros k. rewrite (dict_in_keys k members data Hm). apply Hk.
  - now rewrite (dict_in_keys "open_" members data Hm).
  - now apply Hs.
Qed.

Lemma bind_ok {A B : Type} (a : A) (k : A -> Exc B) : bind (inr a) k = k a.
Proof. reflexivity. Qed.

Lemma serialize_with_marshmallow_stock (attrs : dict) :
  serialize_with_marshmallow (VStock attrs) =
  (data <- Schema_dump StockSchema (VStock attrs) ;;
   json_dumps (VDict match dict_get "open_" data with
                     | Some v => dict_set "open" v (dict_del "open_" data)
                     | None => data
                     end)).
Proof. reflexivity. Qed.

Lemma serialize_with_marshmallow_trade (attrs : dict) :
  serialize_with_marshmallow (VTrade attrs) =
  (data <- Schema_dump TradeSchema (VTrade attrs) ;; json_dumps (VDict data)).
Proof. reflexivity. Qed.

(** X11.  The members of a document the schema encoder writes are the keys
    of the schema's fields that are constants or whose attribute the record
    has: never [open_], so the rename after [dump] does nothing, and always
    [datatype], with the schema's tag whatever the record's own
    [datatype] is. *)
Theorem schema_encoder_members (obj : pyval) (doc : json) :
  serialize_with_marshmallow obj = ok doc ->
  exists members,
    doc = JObject members
    /\ (forall k, dict_in k members = true <->
                  exists f, In f (declared_fields (schema_for obj)) /\ wire_key f = k
                            /\ emitted f obj = true)
    /\ dict_in "open_" members = false
    /\ dict_get "datatype" members = Some (JStr (schema_tag (schema_for obj))).
Proof.
  intros H. destruct obj.
  1-9: exfalso; cbn [serialize_with_marshmallow] in H; discriminate H.
  - rewrite serialize_with_marshmallow_stock in H.
    destruct (Schema_dump StockSchema (VStock attrs)) as [e|data] eqn:Hd.
    { exfalso. cbn [bind] in H. discriminate H. }
    rewrite bind_ok in H. destruct (Schema_dump_keys _ _ _ Hd) as (_ & Ho & _).
    unfold dict_in in Ho. destruct (dict_get "open_" data); [discriminate Ho|].
    exact (dumps_dump_members StockSchema _ data doc Hd H).
  - rewrite serialize_with_marshmallow_trade in H.
    destruct (Schema_dump TradeSchema (VTrade attrs)) as [e|data] eqn:Hd.
    { exfalso. cbn [bind] in H. discriminate H. }
    rewrite bind_ok in H. exact (dumps_dump_members TradeSchema _ data doc Hd H).
  - exfalso. cbn [serialize_with_marshmallow] in H. discriminate H.
Qed.

Lemma schema_encoder_members_witness :
  exists members,
    schema_stock_doc "TSLA" (mkDate 2023 1 5) (Finite false 199999999999 (-10))
      (Finite false 995 (-1)) (Finite false 101 0) 1200 = JObject members
    /\ (forall k, dict_in k members = true <->
                  exists f, In f (declared_fields (schema_for sample_stock)) /\ wire_key f = k
                            /\ emitted f sample_stock = true)
    /\ dict_in "open_" members = false
    /\ dict_get "datatype" members = Some (JStr (schema_tag (schema_for sample_stock))).
Proof.
  apply (schema_encoder_members sample_stock).
  apply serialize_stock.
Defined.

Lemma run_validators_str (vds : list validator) (s : string) :
  exists msgs, run_validators vds (VStr s) = ok msgs.
Proof.
  induction vds as [|vd vds (msgs & IH)]; [exists []; reflexivity|].
  cbn [run_validators]. rewrite IH. destruct vd; cbn; eexists; reflexivity.
Qed.

Lemma deserialize_raw_not_TypeError (f : field) (raw : option pyval) :
  validate f = [] \/ ftype f = FStr -> deserialize_raw f raw <> raise TypeError.
Proof.
  intros Hf H. unfold deserialize_raw in H. destruct raw as [v|].
  2: { destruct (required f); discriminate H. }
  assert (G : forall out, field_deserialize (ftype f) v = ok out ->
                          (msgs <- run_validators (validate f) out ;;
                           match msgs with
                           | [] => ok (Some out)
                           | _ => raise (FieldError msgs)
                           end) <> raise TypeError).
  { intros out Eo Hr. destruct Hf as [Hf|Hf].
    - rewrite Hf in Hr. discriminate Hr.
    - rewrite Hf in Eo. destruct v; try discriminate Eo. injection Eo as <-.
      destruct (run_validators_str (validate f) s) as (msgs & Hm). rewrite Hm in Hr.
      destruct msgs; discriminate Hr. }
  destruct (field_deserialize (ftype f) v) as [e|out] eqn:Ef.
  - assert (He : e = TypeError).
    { destruct v; cbn [bind raise] in H; first [discriminate H | now injection H]. }
    subst e. destruct (field_deserialize_exn _ _ _ Ef) as [(msgs & ?)|?]; discriminate.
  - destruct v; try discriminate H; exact (G out eq_refl H).
Qed.

Lemma declared_raw_exn (schema : Schema) (f : field) (raw : option pyval) (e : exn) :
  In f (declared_fields schema) ->
  deserialize_raw f raw = raise e ->
  (exists msgs, e = FieldError msgs) \/ e = InvalidOperation.
Proof.
  intros Hin H. destruct (deserialize_raw_exn _ _ _ H) as [He|[He|He]]; auto.
  subst e. exfalso. revert H. apply deserialize_raw_not_TypeError.
  destruct schema; cbn [declared_fields In] in Hin;
    repeat (destruct Hin as [<-|Hin]; [cbn; auto|]); contradiction.
Qed.

Lemma load_loop_crash (fields : list field) (m ret : dict) errors (f : field) :
  (forall g raw e, In g fields -> deserialize_raw g raw = raise e ->
                   (exists msgs, e = FieldError msgs) \/ e = InvalidOperation) ->
  In f fields -> dump_only f = false ->
  deserialize_raw f (dict_get (wire_key f) m) = raise InvalidOperation ->
  load_loop fields m ret errors = raise InvalidOperation.
Proof.
  intros Hall Hin Hd Hf. revert ret errors Hall Hin.
  induction fields as [|g fields IH]; intros ret errors Hall Hin; [destruct Hin|].
  cbn [load_loop]. destruct Hin as [->|Hin].
  - rewrite Hd, Hf. reflexivity.
  - assert (IH' : forall ret errors, load_loop fields m ret errors = raise InvalidOperation).
    { intros. apply IH; [|exact Hin]. intros g' raw e Hg. apply Hall. now right. }
    destruct (dump_only g); [apply IH'|].
    destruct (deserialize_raw g (dict_get (wire_key g) m)) as [e|[v|]] eqn:Eg; try apply IH'.
    destruct (Hall g _ e (or_introl eq_refl) Eg) as [(msgs & ->)| ->]; [apply IH'|reflexivity].
Qed.

(** X12.  [DecimalField._deserialize] raises a validation error only where
    [str(value)] itself raises, which it does for an [int] of more than
    4300 digits and for a list or a dictionary that holds one.  Where
    [str(value)] is a text that is no numeral, [Decimal] raises
    [InvalidOperation], which [except (TypeError, ValueError)] does not
    catch: the call ends with that exception as the cause, and the errors
    of the other fields are not reported. *)
Theorem decimal_field_crash (p : payload) (schema : Schema) (m : dict) (f : field)
    (v : pyval) :
  validated_data p schema = ok (VDict m) ->
  In f (declared_fields schema) -> ftype f = FDecimalField ->
  dict_get (wire_key f) m = Some v -> v <> VNone ->
  (forall d, Decimal_of_str_of v <> ok d) ->
  (repr_raises v = true ->
     DecimalField_deserialize v = raise (FieldError ["Not a valid decimal value."])
     /\ field_invalid f m)
  /\ (repr_raises v = false ->
        DecimalField_deserialize v = raise InvalidOperation
        /\ fst (deserialize_with_marshmallow p schema) = raise (Failed InvalidOperation)).
Proof.
  intros Hv Hin Ht Hk Hn Hno.
  destruct (Decimal_of_str_of v) as [e|d] eqn:He; [|now destruct (Hno d)].
  assert (Hraw : forall r, DecimalField_deserialize v = raise r ->
                           deserialize_raw f (dict_get (wire_key f) m) = raise r).
  { intros r Hd. rewrite Hk. unfold deserialize_raw. rewrite Ht. cbn [field_deserialize].
    rewrite Hd. destruct v; try reflexivity. contradiction. }
  destruct (Decimal_of_str_of_exn _ _ He) as [[-> Hr]|[-> Hr]]; rewrite Hr.
  - split; [intros _|intros C; discriminate C].
    assert (Hd : DecimalField_deserialize v
                 = raise (FieldError ["Not a valid decimal value."])).
    { unfold DecimalField_deserialize. now rewrite He. }
    split; [exact Hd|]. eexists. apply Hraw. exact Hd.
  - split; [intros C; discriminate C|intros _].
    assert (Hd : DecimalField_deserialize v = raise InvalidOperation).
    { unfold DecimalField_deserialize. now rewrite He. }
    split; [exact Hd|].
    assert (Hdo : dump_only f = false).
    { destruct schema; cbn [declared_fields In] in Hin;
        repeat (destruct Hin as [<-|Hin]; [reflexivity || discriminate Ht|]);
        contradiction. }
    rewrite deserialize_result, Hv. cbn [bind ok]. unfold Schema_load.
    rewrite (load_loop_crash _ m [] [] f (declared_raw_exn schema) Hin Hdo (Hraw _ Hd)).
    reflexivity.
Qed.

Lemma decimal_field_crash_witness :
  let m := [("symbol", VStr "TS"); ("timestamp", VStr "2023-01-05T09:30:00");
            ("order", VStr "hold"); ("price", VStr "abc"); ("commission", VStr "1");
            ("volume", VInt 10)] in
  repr_raises (VStr "abc") = false
  /\ DecimalField_deserialize (VStr "abc") = raise InvalidOperation
  /\ fst (deserialize_with_marshmallow (Mapping m) TradeSchema)
     = raise (Failed InvalidOperation).
Proof.
  cbv zeta. split; [reflexivity|].
  apply (decimal_field_crash
           (Mapping [("symbol", VStr "TS"); ("timestamp", VStr "2023-01-05T09:30:00");
                     ("order", VStr "hold"); ("price", VStr "abc");
                     ("commission", VStr "1"); ("volume", VInt 10)])
           TradeSchema
           [("symbol", VStr "TS"); ("timestamp", VStr "2023-01-05T09:30:00");
            ("order", VStr "hold"); ("price", VStr "abc"); ("commission", VStr "1");
            ("volume", VInt 10)]
           (mkField "price" FDecimalField None true [] false)
           (VStr "abc")).
  - reflexivity.
  - cbn; auto 10.
  - reflexivity.
  - reflexivity.
  - discriminate.
  - intros d. vm_compute. discriminate.
  - reflexivity.
Defined.






Lemma deserialize_raw_some (f : field) (raw : option pyval) (v : pyval) :
  deserialize_raw f raw = ok (Some v) ->
  exists value, field_deserialize (ftype f) value = ok v
                /\ run_validators (validate f) v = ok [].
Proof.
  unfold deserialize_raw. intros H. destruct raw as [value|].
  2: { destruct (required f); discriminate H. }
  exists value.
  assert (G : (output <- field_deserialize (ftype f) value ;;
               msgs <- run_validators (validate f) output ;;
               match msgs with
               | [] => ok (Some output)
               | _ => raise (FieldError msgs)
               end) = ok (Some v)).
  { destruct value; first [discriminate H | exact H]. }
  destruct (field_deserialize (ftype f) value) as [e|out] eqn:Ef; [discriminate G|].
  cbn [bind] in G.
  destruct (run_validators (validate f) out) as [e|msgs] eqn:Er; [discriminate G|].
  cbn [bind] in G. destruct msgs; [|discriminate G]. injection G as ->. auto.
Qed.

Lemma load_step (f : field) (rest : list field) (m ret ret' : dict) :
  dump_only f = false -> required f = true ->
  load_loop (f :: rest) m ret [] = ok (ret', []) ->
  exists v, deserialize_raw f (dict_get (wire_key f) m) = ok (Some v)
            /\ load_loop rest m (dict_set (attr_name f) v ret) [] = ok (ret', []).
Proof.
  intros Hd Hr H. cbn [load_loop] in H. rewrite Hd in H.
  destruct (deserialize_raw f (dict_get (wire_key f) m)) as [e|[v|]] eqn:E.
  - exfalso. destruct e; try discriminate H.
    pose proof (load_loop_errors _ _ _ _ _ _ H (wire_key f)) as [_ K].
    assert (T : dict_in (wire_key f) (@nil (string * list string)) = true).
    { apply K. left. rewrite store_error_in, String.eqb_refl. reflexivity. }
    discriminate T.
  - exists v. auto.
  - exfalso. unfold deserialize_raw in E. rewrite Hr in E.
    destruct (dict_get (wire_key f) m) as [value|]; [|discriminate E].
    destruct value; try discriminate E;
      (destruct (field_deserialize (ftype f) _) as [e|out]; [discriminate E|];
       cbn [bind] in E;
       destruct (run_validators (validate f) out) as [e|msgs]; [discriminate E|];
       cbn [bind] in E; destruct msgs; discriminate E).
Qed.

Lemma str_output (value v : pyval) :
  field_deserialize FStr value = ok v -> exists s, v = VStr s.
Proof. destruct value; cbn; intros H; inversion H. eauto. Qed.

Lemma date_output (value v : pyval) :
  field_deserialize FDate value = ok v ->
  (exists d, v = VDate d) \/ (exists t, v = VDatetime t).
Proof.
  cbn [field_deserialize].
  destruct value;
    try match goal with
        | |- context [date_fromisoformat_of ?x] => destruct (date_fromisoformat_of x)
        end;
    intros H; inversion H; eauto.
Qed.

Lemma datetime_output (value v : pyval) :
  field_deserialize FDateTime value = ok v -> exists t, v = VDatetime t.
Proof.
  cbn [field_deserialize].
  destruct value;
    try match goal with
        | |- context [datetime_fromisoformat_of ?x] =>
            destruct (datetime_fromisoformat_of x)
        end;
    intros H; inversion H; eauto.
Qed.

Lemma decimal_output (value v : pyval) :
  field_deserialize FDecimalField value = ok v -> exists d, v = VDecimal d.
Proof.
  cbn. unfold DecimalField_deserialize.
  destruct (Decimal_of_str_of value) as [[]|d]; intros H; inversion H. eauto.
Qed.

Lemma integer_output (value v : pyval) :
  field_deserialize FInteger value = ok v -> exists z, v = VInt z.
Proof.
  cbn [field_deserialize]. intros H.
  assert (G : match py_int value with
              | inr z => ok (VInt z)
              | inl OverflowError => raise (FieldError ["Number too large."])
              | inl TypeError => raise (FieldError ["Not a valid integer."])
              | inl (ValueError _) => raise (FieldError ["Not a valid integer."])
              | inl e => raise e
              end = ok v).
  { destruct value; first [discriminate H | exact H]. }
  destruct (py_int value) as [e|z] eqn:E.
  - destruct (py_int_exn _ _ E) as [->|[->| ->]]; discriminate G.
  - inversion G. eauto.
Qed.

Lemma length_4_checked (s : string) :
  run_validators [Length_equal 4] (VStr s) = ok [] -> valid_symbol s.
Proof.
  cbn. unfold valid_symbol. destruct (Nat.eqb_spec (String.length s) 4); [auto|discriminate].
Qed.

Lemma one_of_checked (s : string) :
  run_validators [OneOf ["buy"; "sell"]] (VStr s) = ok [] -> valid_order s.
Proof.
  cbn [run_validators run_validator bind ok existsb eq_str app]. unfold valid_order.
  destruct (String.eqb_spec s "buy"); [auto|].
  destruct (String.eqb_spec s "sell"); [auto|]. discriminate.
Qed.

Ltac field_step H v E :=
  apply load_step in H; [|reflexivity|reflexivity];
  destruct H as (v & E & H);
  apply deserialize_raw_some in E; cbn [ftype validate attr_name] in E, H.

Lemma Schema_load_typed (schema : Schema) (data x : pyval) :
  Schema_load schema data = ok x ->
  match schema with
  | StockSchema => schema_stock x
  | TradeSchema => schema_trade x
  end.
Proof.
  intros El. destruct data; try discriminate El. unfold Schema_load in El.
  destruct (load_loop (declared_fields schema) m [] []) as [e|[ret errors]] eqn:Eloop;
    [discriminate El|].
  cbn [bind] in El. destruct errors; [|discriminate El].
  destruct schema; cbn [declared_fields] in Eloop.
  - field_step Eloop v1 E1. field_step Eloop v2 E2. field_step Eloop v3 E3.
    field_step Eloop v4 E4. field_step Eloop v5 E5. field_step Eloop v6 E6.
    field_step Eloop v7 E7.
    cbn [load_loop dump_only] in Eloop. injection Eloop as <-.
    destruct E1 as (r1 & O1 & V1), E2 as (r2 & O2 & _), E3 as (r3 & O3 & _),
             E4 as (r4 & O4 & _), E5 as (r5 & O5 & _), E6 as (r6 & O6 & _),
             E7 as (r7 & O7 & _).
    apply str_output in O1. destruct O1 as (s & ->).
    apply date_output in O2.
    apply decimal_output in O3. destruct O3 as (o & ->).
    apply decimal_output in O4. destruct O4 as (h & ->).
    apply decimal_output in O5. destruct O5 as (l & ->).
    apply decimal_output in O6. destruct O6 as (c & ->).
    apply integer_output in O7. destruct O7 as (z & ->).
    cbn in El. injection El as <-.
    exists s, v2, o, h, l, c, z. split; [reflexivity|].
    split; [exact O2 | now apply length_4_checked].
  - field_step Eloop v1 E1. field_step Eloop v2 E2. field_step Eloop v3 E3.
    field_step Eloop v4 E4. field_step Eloop v5 E5. field_step Eloop v6 E6.
    cbn [load_loop dump_only] in Eloop. injection Eloop as <-.
    destruct E1 as (r1 & O1 & V1), E2 as (r2 & O2 & _), E3 as (r3 & O3 & V3),
             E4 as (r4 & O4 & _), E5 as (r5 & O5 & _), E6 as (r6 & O6 & _).
    apply str_output in O1. destruct O1 as (s & ->).
    apply datetime_output in O2. destruct O2 as (t & ->).
    apply str_output in O3. destruct O3 as (o & ->).
    apply decimal_output in O4. destruct O4 as (p & ->).
    apply decimal_output in O5. destruct O5 as (c & ->).
    apply integer_output in O6. destruct O6 as (z & ->).
    cbn in El. injection El as <-.
    exists s, t, o, p, z, c. split; [reflexivity|].
    split; [now apply length_4_checked | now apply one_of_checked].
Qed.

(** X14.  Whatever the schema decoder returns is a record of its schema,
    built by the constructor from values of the declared types: strings,
    decimals, an [int], a [datetime] for the timestamp of a Trade and a
    [date] for the date of a Stock (which a [datetime] handed in as such
    is too); its symbol has four characters and, for a Trade, its order
    is [buy] or [sell]. *)
Theorem schema_decoder_postcondition (p : payload) (schema : Schema) (x : pyval) :
  fst (deserialize_with_marshmallow p schema) = ok x ->
  match schema with
  | StockSchema => schema_stock x
  | TradeSchema => schema_trade x
  end.
Proof.
  rewrite deserialize_result. intros H.
  destruct (validated_data p schema) as [e|data]; [discriminate H|]. cbn [bind] in H.
  destruct (Schema_load schema data) as [e|x'] eqn:El; [discriminate H|].
  injection H as ->. exact (Schema_load_typed _ _ _ El).
Qed.

Lemma schema_decoder_postcondition_witness :
  let t := mkDatetime (mkDate 2023 1 5) 9 30 0 0 None in
  let m := [("symbol", VStr "TSLA"); ("date", VDatetime t); ("open", VInt 100);
            ("high", VStr "101"); ("low", VStr "99.5"); ("close", VStr "100");
            ("volume", VStr "1200")] in
  let x := Stock (VStr "TSLA") (VDatetime t) (VDecimal (Finite false 100 0))
                 (VDecimal (Finite false 101 0)) (VDecimal (Finite false 995 (-1)))
                 (VDecimal (Finite false 100 0)) (VInt 1200) in
  fst (deserialize_with_marshmallow (Mapping m) StockSchema) = ok x /\ schema_stock x.
Proof.
  cbv zeta.
  assert (H : fst (deserialize_with_marshmallow
                     (Mapping [("symbol", VStr "TSLA");
                               ("date", VDatetime (mkDatetime (mkDate 2023 1 5) 9 30 0 0 None));
                               ("open", VInt 100); ("high", VStr "101"); ("low", VStr "99.5");
                               ("close", VStr "100"); ("volume", VStr "1200")]) StockSchema)
              = ok (Stock (VStr "TSLA")
                          (VDatetime (mkDatetime (mkDate 2023 1 5) 9 30 0 0 None))
                          (VDecimal (Finite false 100 0)) (VDecimal (Finite false 101 0))
                          (VDecimal (Finite false 995 (-1))) (VDecimal (Finite false 100 0))
                          (VInt 1200)))
    by (vm_compute; reflexivity).
  split; [exact H|].
  exact (schema_decoder_postcondition _ StockSchema _ H).
Defined.





(** X17.  When a Stock mapping has both [open_] and [open], the value under
    [open_] is the opening price and the one under [open] is dropped. *)
Theorem open_underscore_wins (m : dict) (v w : pyval) :
  dict_get "open_" m = Some v ->
  (exists m', validated_data (Mapping (dict_set "open" w m)) StockSchema = ok (VDict m')
              /\ dict_get "open" m' = Some v /\ dict_get "open_" m' = None)
  /\ fst (deserialize_with_marshmallow (Mapping (dict_set "open" w m)) StockSchema)
     = fst (deserialize_with_marshmallow (Mapping m) StockSchema).
Proof.
  intros Ho.
  assert (Ho' : dict_get "open_" (dict_set "open" w m) = Some v).
  { rewrite dict_get_set_other by discriminate. exact Ho. }
  assert (P : forall a, dict_get "open_" a = Some v ->
                        validated_data (Mapping a) StockSchema
                        = ok (VDict (dict_set "open" v (dict_del "open_" a)))).
  { intros a Ha. unfold validated_data. cbn [payload_data bind ok prepare py_contains].
    unfold dict_in. rewrite Ha. reflexivity. }
  split.
  - eexists. split; [apply (P _ Ho')|]. split.
    + apply dict_get_set_same.
    + rewrite dict_get_set_other by discriminate. apply dict_get_del_same.
  - rewrite !deserialize_result, (P _ Ho'), (P _ Ho). cbn [bind ok].
    rewrite (Schema_load_ext StockSchema
               (dict_set "open" v (dict_del "open_" (dict_set "open" w m)))
               (dict_set "open" v (dict_del "open_" m))); [reflexivity|].
    intros f Hin _. destruct (String.eqb_spec (wire_key f) "open") as [E|N].
    + rewrite E, !dict_get_set_same. reflexivity.
    + pose proof (wire_key_not_open_ StockSchema f Hin) as N'.
      rewrite !dict_get_set_other by congruence.
      rewrite !dict_get_del_other by congruence.
      rewrite dict_get_set_other by congruence. reflexivity.
Qed.

Lemma open_underscore_wins_witness :
  let m := [("symbol", VStr "TSLA"); ("date", VStr "2023-01-05"); ("open_", VStr "100.50");
            ("high", VStr "101"); ("low", VStr "99.5"); ("close", VStr "100");
            ("volume", VInt 1200)] in
  fst (deserialize_with_marshmallow (Mapping (dict_set "open" (VStr "1") m)) StockSchema)
  = fst (deserialize_with_marshmallow (Mapping m) StockSchema).
Proof.
  cbv zeta.
  apply (open_underscore_wins
           [("symbol", VStr "TSLA"); ("date", VStr "2023-01-05"); ("open_", VStr "100.50");
            ("high", VStr "101"); ("low", VStr "99.5"); ("close", VStr "100");
            ("volume", VInt 1200)] (VStr "100.50") (VStr "1")).
  reflexivity.
Defined.

Lemma loads_not_object (hook : pyval -> Exc pyval) (doc : json) (v : pyval) :
  (forall members, doc <> JObject members) ->
  loads hook doc = ok v -> forall m, v <> VDict m.
Proof.
  intros Hn H m ->. destruct doc; cbn [loads] in H; try discriminate H.
  - match type of H with bind ?c _ = _ => destruct c end; discriminate H.
  - exact (Hn _ eq_refl).
Qed.

(** X18.  A document that is not a JSON object never gives a record: the
    schema decoder fails on it, for either schema. *)
Theorem non_object_document_fails (doc : json) (schema : Schema) :
  (forall members, doc <> JObject members) ->
  exists e, fst (deserialize_with_marshmallow (Text doc) schema) = raise (Failed e).
Proof.
  intros Hn. rewrite deserialize_result. unfold validated_data. cbn [payload_data].
  destruct (loads (fun v => ok v) doc) as [e|v] eqn:El; [eexists; reflexivity|].
  pose proof (loads_not_object _ _ _ Hn El) as Hv. cbn [bind].
  destruct schema.
  - destruct v; try (exfalso; exact (Hv _ eq_refl));
      cbn [prepare py_contains bind ok raise];
      repeat match goal with
             | |- context [if ?b then _ else _] => destruct b; cbn [bind ok raise]
             | |- context [match String.index ?a ?b ?c with _ => _ end] =>
                 destruct (String.index a b c); cbn [bind ok raise]
             end;
      eexists; reflexivity.
  - destruct v; try (exfalso; exact (Hv _ eq_refl)); eexists; reflexivity.
Qed.

Lemma non_object_document_fails_witness :
  exists e, fst (deserialize_with_marshmallow (Text (JList [JStr "open_"])) StockSchema)
            = raise (Failed e).
Proof.
  apply (non_object_document_fails (JList [JStr "open_"]) StockSchema).
  discriminate.
Defined.
